(** * gcvit-tf: window attention layers and the patch-embedding stem

    A shallow embedding of [gcvit/layers/attention.py] and
    [gcvit/layers/embedding.py].

    - Python integers are [Z]; [//] is floor division and raises on a zero
      divisor.
    - Integer tensors (the relative position index and everything it is
      computed from) are nested lists of [Z], outermost axis first.  Their
      dtype is int32; every value that occurs is bounded by [(2W-1)^2], see
      [index_fits_int32].
    - Float tensors are followed through a layer call by their shape and,
      where two sources meet, their dtype: each TensorFlow operation is
      given by its rule in eager mode, and fails where TensorFlow raises.
      Sub-layers made without a dtype take Keras' default, float32.  The
      queries, keys and values of the global variant and the padding of the
      stem are also given on values, over an arbitrary scalar type.
    - Exceptions are an error monad. *)

From Stdlib Require Import Reals Qreals Lra.
From Stdlib Require Import String ZArith QArith List Lia Bool.
Import ListNotations.
Local Open Scope Z_scope.

Set Implicit Arguments.

(** ** Exceptions *)

Inductive error : Type :=
| ZeroDivisionError                       (* Python: [x // 0], [0 ** -0.5] *)
| TypeError                               (* Python: wrong operand type *)
| IndexError                              (* Python: sequence index out of range *)
| ValueError                              (* Python/Keras: wrong arity or argument *)
| RangeError (limit : Z)                  (* tf.range: limit below the start 0 *)
| DtypeError (a b : string)               (* binary op on tensors of two dtypes *)
| ReshapeSizeError (have want : Z)        (* tf.reshape: element counts differ *)
| BroadcastError (a b : list Z)           (* incompatible shapes of a binary op *)
| MatMulError (a b : list Z)              (* incompatible shapes of [@] *)
| TransposeError                          (* perm does not match the rank *)
| GatherIndexError (i rows : Z)           (* tf.gather: index out of range *)
| IntegerDivisionByZero                   (* tf: integer tensor divided by 0 *)
| ConvFilterError                         (* convolution: input without channels *)
| ConvSizeError                           (* convolution: negative output size *)
| ConvEmptyError.                         (* convolution, oneDNN: empty output *)

Inductive result (A : Type) : Type :=
| Ok (a : A)
| Err (e : error).
Arguments Ok {A} a.
Arguments Err {A} e.

Definition bind {A B : Type} (m : result A) (k : A -> result B) : result B :=
  match m with
  | Ok a => k a
  | Err e => Err e
  end.

Notation "x <- m ;; k" := (bind m (fun x => k))
  (at level 61, m at next level, right associativity).

(** ** Python values that reach [window_size] *)

Inductive pyobj : Type :=
| PyInt (n : Z)
| PyPair (a b : pyobj).                   (* the 2-tuple [(a, b)] *)

(** [t[k]] for a non-negative literal [k]. *)
Definition py_getitem (t : pyobj) (k : nat) : result pyobj :=
  match t with
  | PyInt _ => Err TypeError
  | PyPair a b =>
      match k with
      | O => Ok a
      | S O => Ok b
      | _ => Err IndexError
      end
  end.

(** An operand of integer arithmetic with an [int] on the other side and a
    subtraction to follow: a tuple ends in [TypeError]. *)
Definition py_int (v : pyobj) : result Z :=
  match v with
  | PyInt n => Ok n
  | PyPair _ _ => Err TypeError
  end.

(** [a // b] on Python integers. *)
Definition py_floordiv (a b : Z) : result Z :=
  if b =? 0 then Err ZeroDivisionError else Ok (a / b).

(** [shape[-1]]. *)
Definition shape_last (s : list Z) : result Z :=
  match rev s with
  | d :: _ => Ok d
  | [] => Err IndexError
  end.

(** ** Integer tensors as nested lists *)

Module Tf.

(** The integers [0, 1, ..., limit - 1]. *)
Definition iota (limit : Z) : list Z :=
  map Z.of_nat (seq 0 (Z.to_nat limit)).

(** [tf.range(limit)]: raises for a limit below the start 0, empty for 0. *)
Definition range (limit : Z) : result (list Z) :=
  if limit <? 0 then Err (RangeError limit) else Ok (iota limit).

(** [tf.meshgrid(a, b, indexing='ij')], already stacked on axis 0:
    grid 0 varies along rows, grid 1 along columns. *)
Definition meshgrid_ij (a b : list Z) : list (list (list Z)) :=
  [ map (fun x => map (fun _ => x) b) a;
    map (fun _ => b) a ].

(** Row-major regrouping of a flat buffer into [r] rows of [c] entries. *)
Fixpoint take_rows {A : Type} (r c : nat) (l : list A) : list (list A) :=
  match r with
  | O => []
  | S r' => firstn c l :: take_rows r' c (skipn c l)
  end.

(** [tf.reshape(t, [r, -1])] of a rank-3 tensor. *)
Definition reshape_rows (r : nat) (t : list (list (list Z))) : list (list Z) :=
  let flat := concat (concat t) in
  take_rows r (Nat.div (length flat) r) flat.

(** [t[:, :, None] - t[:, None, :]] of a rank-2 tensor. *)
Definition pairwise_sub (t : list (list Z)) : list (list (list Z)) :=
  map (fun v => map (fun a => map (fun b => a - b) v) v) t.

(** [tf.transpose(t, perm=[1, 2, 0])] of a rank-3 tensor. *)
Definition transpose_120 (t : list (list (list Z))) : list (list (list Z)) :=
  let d1 := length (hd [] t) in
  let d2 := length (hd [] (hd [] t)) in
  map (fun p =>
         map (fun q => map (fun ch => nth q (nth p ch []) 0) t) (seq 0 d2))
      (seq 0 d1).

(** [t[:, :, k]]. *)
Definition slice_last (k : nat) (t : list (list (list Z))) : list (list Z) :=
  map (map (fun v => nth k v 0)) t.

(** Rank-2 tensor and Python scalar. *)
Definition add_scalar (t : list (list Z)) (s : Z) : list (list Z) :=
  map (map (fun x => x + s)) t.
Definition sub_scalar (t : list (list Z)) (s : Z) : list (list Z) :=
  map (map (fun x => x - s)) t.
Definition mul_scalar (t : list (list Z)) (s : Z) : list (list Z) :=
  map (map (fun x => x * s)) t.

(** Two rank-2 tensors of one shape. *)
Definition add (s t : list (list Z)) : list (list Z) :=
  map (fun rs => map (fun xy => fst xy + snd xy) (combine (fst rs) (snd rs)))
      (combine s t).

(** [t[i][j]], 0 outside. *)
Definition entry (t : list (list Z)) (i j : Z) : Z :=
  nth (Z.to_nat j) (nth (Z.to_nat i) t []) 0.

(** The shape [rows, cols] of a rank-2 tensor. *)
Definition has_shape (t : list (list Z)) (rows cols : Z) : Prop :=
  Z.of_nat (length t) = rows /\
  Forall (fun r => Z.of_nat (length r) = cols) t.

End Tf.

(** ** Sub-layers and weights created by [build] *)

Record Dense : Type := mkDense {
  units : Z;
  use_bias : bool;
  dense_name : string
}.

Record Weight : Type := mkWeight {
  weight_name : string;
  weight_shape : list Z;
  weight_trainable : bool;
  weight_dtype : string
}.

Record Dropout : Type := mkDropout {
  rate : Q;
  dropout_name : string
}.

(** [self.qk_scale or head_dim ** -0.5]: the value is either the given
    number or the inverse square root of [head_dim]. *)
Inductive scale_value : Type :=
| Given (q : Q)
| InvSqrt (head_dim : Z).

(** The real number a scale stands for ([head_dim ** -0.5] as
    [1 / sqrt head_dim]; floats are read as the reals they approximate). *)
Definition scale_denote (s : scale_value) : R :=
  match s with
  | Given q => Q2R q
  | InvSqrt head_dim => (/ sqrt (IZR head_dim))%R
  end.

(** Truth value of an optional number: [None] and zero are false. *)
Definition py_truthy (x : option Q) : bool :=
  match x with
  | None => false
  | Some q => negb (Qeq_bool q 0)
  end.

(** [head_dim ** -0.5] raises on a zero base. *)
Definition py_pow_neg_half (head_dim : Z) : result scale_value :=
  if head_dim =? 0 then Err ZeroDivisionError else Ok (InvSqrt head_dim).

(** [x or y], the right operand evaluated only when needed. *)
Definition py_or_scale (x : option Q) (y : result scale_value) : result scale_value :=
  match x with
  | Some q => if py_truthy x then Ok (Given q) else y
  | None => y
  end.

(** [tf.keras.layers.Dense(units, ...)]. *)
Definition new_dense (u : Z) (b : bool) (n : string) : result Dense :=
  if u <? 0 then Err ValueError else Ok (mkDense u b n).

(** The dtypes a random initializer accepts. *)
Definition is_floating (dtype : string) : bool :=
  existsb (String.eqb dtype) ["float16"; "bfloat16"; "float32"; "float64"]%string.

(** [self.add_weight(name, shape=..., initializer=TruncatedNormal(...),
    trainable=True, dtype=...)]. *)
Definition add_weight (n : string) (shape : list Z) (dtype : string)
  : result Weight :=
  if forallb (fun d => 0 <=? d) shape && is_floating dtype
  then Ok (mkWeight n shape true dtype)
  else Err ValueError.

(** [tf.keras.layers.Dropout(rate, ...)]: the rate is checked to lie in
    [[0, 1]]. *)
Definition new_dropout (r : Q) (n : string) : result Dropout :=
  if Qle_bool 0 r && Qle_bool r 1 then Ok (mkDropout r n) else Err ValueError.

(** Attributes set by [Layer.__init__] from the remaining keyword
    arguments.  [layer_dtype] is [self.dtype] by its name: the dtype of the
    layer's weights, and the dtype Keras casts the inputs of the layer to
    (a mixed-precision policy, where the two differ, is not covered). *)
Record Base : Type := mkBase {
  layer_name : string;
  layer_trainable : bool;
  layer_dtype : string
}.

(** ** Shape rules of the TensorFlow operations used by [call]

    A float tensor is represented by its shape.  Each rule returns the shape
    of the result, or the error TensorFlow raises in eager mode. *)

Module Shape.

Definition numel (s : list Z) : Z := fold_right Z.mul 1 s.

(** The dtype of a layer made without one, and of what it returns. *)
Definition default_dtype : string := "float32".

(** A binary operation refuses operands of two dtypes, before it looks at
    their shapes. *)
Definition same_dtype (a b : string) : result unit :=
  if String.eqb a b then Ok tt else Err (DtypeError a b).

(** [tf.reshape(t, target)]; [target] may hold one [-1].  The missing size
    is inferred as the kernel does: zero sizes of the target are left out
    of its product, and when the target holds a zero size the zero sizes of
    the input are left out of its count.  The element counts are compared
    at the end. *)
Definition reshape (s target : list Z) : result (list Z) :=
  if negb (forallb (fun d => -1 <=? d) target) then Err ValueError
  else
    match length (filter (fun d => d =? -1) target) with
    | O =>
        if numel s =? numel target then Ok target
        else Err (ReshapeSizeError (numel s) (numel target))
    | S O =>
        let sizes_has_zero := existsb (fun d => d =? 0) target in
        let product := numel (filter (fun d => 0 <? d) target) in
        let input_elements :=
          if sizes_has_zero then numel (filter (fun d => 0 <? d) s) else numel s in
        let input_has_zero := sizes_has_zero && existsb (fun d => d =? 0) s in
        let missing := input_elements / product in
        if negb input_has_zero && negb (product * missing =? input_elements)
        then Err (ReshapeSizeError (numel s) product)
        else
          let shape := map (fun d => if d =? -1 then missing else d) target in
          if numel shape =? numel s then Ok shape
          else Err (ReshapeSizeError (numel s) (numel shape))
    | _ => Err ValueError
    end.

(** [perm] is a permutation of [0 .. rank-1]. *)
Definition is_perm (rank : nat) (perm : list nat) : bool :=
  (length perm =? rank)%nat &&
  forallb (fun k => existsb (Nat.eqb k) perm) (seq 0 rank).

(** [tf.transpose(t, perm)]. *)
Definition transpose (s : list Z) (perm : list nat) : result (list Z) :=
  if is_perm (length s) perm then Ok (map (fun k => nth k s 0) perm)
  else Err TransposeError.

(** [a, b, ... = tf.unstack(t, axis=0)] with [k] names on the left: every
    piece has the shape of [t] without its first axis. *)
Definition unstack (k : Z) (s : list Z) : result (list Z) :=
  match s with
  | n :: rest => if n =? k then Ok rest else Err ValueError
  | [] => Err ValueError
  end.

(** One axis of a broadcast. *)
Definition broadcast_dim (a b : Z) : option Z :=
  if a =? b then Some a
  else if a =? 1 then Some b
  else if b =? 1 then Some a
  else None.

Fixpoint broadcast_dims (a b : list Z) : option (list Z) :=
  match a, b with
  | [], [] => Some []
  | x :: a', y :: b' =>
      match broadcast_dim x y, broadcast_dims a' b' with
      | Some d, Some r => Some (d :: r)
      | _, _ => None
      end
  | _, _ => None
  end.

(** [a + b] of two tensors of one rank. *)
Definition add (a b : list Z) : result (list Z) :=
  match broadcast_dims a b with
  | Some s => Ok s
  | None => Err (BroadcastError a b)
  end.

(** [a @ b] of two rank-4 tensors: the two leading axes broadcast, the
    inner axes must agree. *)
Definition matmul (a b : list Z) : result (list Z) :=
  match a, b with
  | [a0; a1; m; k], [b0; b1; k'; n] =>
      match broadcast_dims [a0; a1] [b0; b1] with
      | Some batch => if k =? k' then Ok (batch ++ [m; n]) else Err (MatMulError a b)
      | None => Err (MatMulError a b)
      end
  | _, _ => Err (MatMulError a b)
  end.

(** Calling a [Dense] layer: rank at least 2, last axis becomes [units]. *)
Definition dense (d : Dense) (s : list Z) : result (list Z) :=
  match rev s with
  | _ :: (_ :: _) as front => Ok (rev (units d :: front))
  | _ => Err ValueError
  end.

(** [tf.gather(table, indices)] with a rank-2 table and a flat index
    vector; an index outside the table raises. *)
Definition gather (table : list Z) (indices : list Z) : result (list Z) :=
  match table with
  | [rows; width] =>
      match find (fun i => negb ((0 <=? i) && (i <? rows))) indices with
      | Some i => Err (GatherIndexError i rows)
      | None => Ok [Z.of_nat (length indices); width]
      end
  | _ => Err ValueError
  end.

(** [a // b] where [a] is a scalar integer tensor. *)
Definition floordiv (a b : Z) : result Z :=
  if b =? 0 then Err IntegerDivisionByZero else Ok (a / b).

(** [tf.repeat(t, repeats=r, axis=0)]. *)
Definition repeat (s : list Z) (r : Z) : result (list Z) :=
  match s with
  | n :: rest => if r <? 0 then Err ValueError else Ok (n * r :: rest)
  | [] => Err ValueError
  end.

(** [t[tf.newaxis,]]. *)
Definition newaxis (s : list Z) : list Z := 1 :: s.

(** Softmax, dropout and multiplication by a Python scalar keep the shape. *)
Definition elementwise (s : list Z) : list Z := s.

(** Calling [ZeroPadding2D(p)] on a [batch, height, width, channels]
    tensor. *)
Definition zero_padding2d (p : Z) (s : list Z) : result (list Z) :=
  match s with
  | [b; h; w; c] => Ok [b; h + 2 * p; w + 2 * p; c]
  | _ => Err ValueError
  end.

(** One spatial axis of a convolution with the default [padding='valid']:
    [(size - kernel + stride) // stride] windows, which is 0 when the
    kernel exceeds the axis by less than the stride; a negative count
    raises. *)
Definition conv_axis (size kernel stride : Z) : result Z :=
  let windows := (size - kernel + stride) / stride in
  if windows <? 0 then Err ConvSizeError else Ok windows.

(** Calling [Conv2D(filters, kernel_size, strides)] on a
    [batch, height, width, channels] tensor; the constructor's checks of
    its arguments are part of the rule.  An input without channels is
    refused (the filter would have no elements).  [one_dnn] tells whether
    TensorFlow runs its oneDNN kernels, which refuse an empty output. *)
Definition conv2d (one_dnn : bool) (filters kernel stride : Z) (s : list Z)
  : result (list Z) :=
  if (filters <=? 0) || (kernel <=? 0) || (stride <=? 0) then Err ValueError
  else
    match s with
    | [b; h; w; c] =>
        if c <=? 0 then Err ConvFilterError
        else
          h' <- conv_axis h kernel stride ;;
          w' <- conv_axis w kernel stride ;;
          let out := [b; h'; w'; filters] in
          if one_dnn && (numel out =? 0) then Err ConvEmptyError else Ok out
    | _ => Err ValueError
    end.

End Shape.

(** ** Float tensors on values, over an arbitrary scalar type

    Nested lists, outermost axis first.  A nested list forgets the inner
    sizes of an empty axis, so the operations that need them take them as
    arguments. *)

Module Val.

(** [tf.repeat(t, repeats=r, axis=0)]: each entry of the outer axis [r]
    times in a row. *)
Definition repeat_axis0 {A : Type} (t : list A) (r : Z) : list A :=
  flat_map (fun x => List.repeat x (Z.to_nat r)) t.

(** Row-major buffer of a rank-3 tensor. *)
Definition flatten3 {A : Type} (t : list (list (list A))) : list A :=
  concat (concat t).

(** [tf.reshape(t, [d0, d1, d2, d3])] of a rank-3 tensor. *)
Definition reshape4 {A : Type} (t : list (list (list A))) (d0 d1 d2 d3 : Z)
  : result (list (list (list (list A)))) :=
  let flat := flatten3 t in
  if negb (forallb (fun d => 0 <=? d) [d0; d1; d2; d3]) then Err ValueError
  else if Z.of_nat (length flat) =? d0 * d1 * d2 * d3
  then Ok (map (fun sample =>
                  map (fun token => Tf.take_rows (Z.to_nat d2) (Z.to_nat d3) token)
                      (Tf.take_rows (Z.to_nat d1) (Z.to_nat (d2 * d3)) sample))
               (Tf.take_rows (Z.to_nat d0) (Z.to_nat (d1 * d2 * d3)) flat))
  else Err (ReshapeSizeError (Z.of_nat (length flat)) (d0 * d1 * d2 * d3)).

(** [tf.reshape(t, [d0, d1, d2, d3, d4])] of a rank-3 tensor. *)
Definition reshape5 {A : Type} (t : list (list (list A))) (d0 d1 d2 d3 d4 : Z)
  : result (list (list (list (list (list A))))) :=
  let flat := flatten3 t in
  if negb (forallb (fun d => 0 <=? d) [d0; d1; d2; d3; d4]) then Err ValueError
  else if Z.of_nat (length flat) =? d0 * d1 * d2 * d3 * d4
  then Ok (map (fun sample =>
                  map (fun token =>
                         map (fun part => Tf.take_rows (Z.to_nat d3) (Z.to_nat d4) part)
                             (Tf.take_rows (Z.to_nat d2) (Z.to_nat (d3 * d4)) token))
                      (Tf.take_rows (Z.to_nat d1) (Z.to_nat (d2 * d3 * d4)) sample))
               (Tf.take_rows (Z.to_nat d0) (Z.to_nat (d1 * d2 * d3 * d4)) flat))
  else Err (ReshapeSizeError (Z.of_nat (length flat)) (d0 * d1 * d2 * d3 * d4)).

(** Exchange of the two axes of a matrix of cells with [cols] columns. *)
Definition swap_axes {A : Type} (cols : nat) (m : list (list (list A)))
  : list (list (list A)) :=
  map (fun j => map (fun row => nth j row []) m) (seq 0 cols).

(** [tf.transpose(t, perm=[0, 2, 1, 3])] of a tensor whose axis 2 has size
    [d2]. *)
Definition transpose_0213 {A : Type} (d2 : nat) (t : list (list (list (list A))))
  : list (list (list (list A))) :=
  map (swap_axes d2) t.

(** [tf.transpose(t, perm=[2, 0, 3, 1, 4])] of a tensor of shape
    [d0, d1, d2, d3, _]: entry [c][b][h][n] of the result is entry
    [b][n][c][h] of [t]. *)
Definition transpose_20314 {A : Type} (d0 d1 d2 d3 : nat)
  (t : list (list (list (list (list A)))))
  : list (list (list (list (list A)))) :=
  map (fun c =>
         map (fun b =>
                map (fun h =>
                       map (fun n => nth h (nth c (nth n (nth b t []) []) []) [])
                           (seq 0 d1))
                    (seq 0 d3))
             (seq 0 d0))
      (seq 0 d2).

(** A scalar function on every entry of a rank-4 tensor. *)
Definition map4 {A B : Type} (f : A -> B) (t : list (list (list (list A))))
  : list (list (list (list B))) :=
  map (map (map (map f))) t.

(** A rank-3 tensor of shape [d0, d1, d2]. *)
Definition has_shape3 {A : Type} (t : list (list (list A))) (d0 d1 d2 : Z) : Prop :=
  Z.of_nat (length t) = d0 /\
  Forall (fun s => Z.of_nat (length s) = d1 /\
                   Forall (fun v => Z.of_nat (length v) = d2) s) t.

(** A rank-4 tensor of shape [d0, d1, d2, d3]. *)
Definition has_shape4 {A : Type} (t : list (list (list (list A))))
  (d0 d1 d2 d3 : Z) : Prop :=
  Z.of_nat (length t) = d0 /\
  Forall (fun s => has_shape3 s d1 d2 d3) t.

(** [t[b][n][k]] and [t[b][y][x][c]]; [dflt] outside. *)
Definition entry3 {A : Type} (dflt : A) (t : list (list (list A))) (b n k : Z) : A :=
  nth (Z.to_nat k) (nth (Z.to_nat n) (nth (Z.to_nat b) t []) []) dflt.
Definition entry4 {A : Type} (dflt : A) (t : list (list (list (list A))))
  (b y x c : Z) : A :=
  nth (Z.to_nat c) (nth (Z.to_nat x) (nth (Z.to_nat y) (nth (Z.to_nat b) t []) []) [])
      dflt.

End Val.

(** ** [gcvit/layers/attention.py]: [WindowAttention] *)

Module WindowAttention.

(** The attributes [__init__] sets on [self]. *)
Record attrs : Type := mkAttrs {
  base : Base;
  window_size : pyobj;
  num_heads : Z;
  qkv_bias : bool;
  qk_scale : option Q;
  attn_dropout : Q;
  proj_dropout : Q
}.

(** [__init__]: [window_size], [num_heads], [qkv_bias=True],
    [qk_scale=None], [attn_dropout=0.], [proj_dropout=0.] and the keyword
    arguments of the base class. *)
Definition init (window_size : pyobj) (num_heads : Z) (qkv_bias : bool)
  (qk_scale : option Q) (attn_dropout proj_dropout : Q) (kwargs : Base) : attrs :=
  let window_size := PyPair window_size window_size in
  mkAttrs kwargs window_size num_heads qkv_bias qk_scale attn_dropout proj_dropout.

(** What [build] adds to [self]. *)
Record built : Type := mkBuilt {
  self : attrs;
  scale : scale_value;
  qkv : Dense;
  relative_position_bias_table : Weight;
  relative_position_index : list (list Z);
  attn_drop : Dropout;
  proj : Dense;
  proj_drop : Dropout
}.

(** Lines 30-39 of [build]: the index of the bias-table row for every
    ordered pair of window positions. *)
Definition build_index (w0 w1 : Z) : result (list (list Z)) :=
  coords_h <- Tf.range w0 ;;
  coords_w <- Tf.range w1 ;;
  let coords := Tf.meshgrid_ij coords_h coords_w in
  let coords_flatten := Tf.reshape_rows 2 coords in
  let relative_coords := Tf.pairwise_sub coords_flatten in
  let relative_coords := Tf.transpose_120 relative_coords in
  let relative_coords_xx :=
    Tf.sub_scalar (Tf.add_scalar (Tf.slice_last 0 relative_coords) w0) 1 in
  let relative_coords_yy :=
    Tf.sub_scalar (Tf.add_scalar (Tf.slice_last 1 relative_coords) w1) 1 in
  let relative_coords_xx := Tf.mul_scalar relative_coords_xx (2 * w1 - 1) in
  Ok (Tf.add relative_coords_xx relative_coords_yy).

(** [build(self, input_shape)]. *)
Definition build (self : attrs) (input_shape : list Z) : result built :=
  dim <- shape_last input_shape ;;
  head_dim <- py_floordiv dim (num_heads self) ;;
  scale <- py_or_scale (qk_scale self) (py_pow_neg_half head_dim) ;;
  qkv <- new_dense (dim * 3) (qkv_bias self) "qkv" ;;
  ws0 <- py_getitem (window_size self) 0 ;;
  w0 <- py_int ws0 ;;
  ws1 <- py_getitem (window_size self) 1 ;;
  w1 <- py_int ws1 ;;
  table <- add_weight "relative_position_bias_table"
             [(2 * w0 - 1) * (2 * w1 - 1); num_heads self]
             (layer_dtype (base self)) ;;
  relative_position_index <- build_index w0 w1 ;;
  attn_drop <- new_dropout (attn_dropout self) "attn_drop" ;;
  proj <- new_dense dim true "proj" ;;
  proj_drop <- new_dropout (proj_dropout self) "proj_drop" ;;
  Ok (mkBuilt self scale qkv table relative_position_index attn_drop proj proj_drop).

(** Lines 57-60 of [call]: the shape of the bias gathered from the table. *)
Definition bias_shape (l : built) : result (list Z) :=
  let index_flat := concat (relative_position_index l) in
  relative_position_bias <-
    Shape.gather (weight_shape (relative_position_bias_table l)) index_flat ;;
  ws0 <- py_getitem (window_size (self l)) 0 ;;
  w0 <- py_int ws0 ;;
  ws1 <- py_getitem (window_size (self l)) 1 ;;
  w1 <- py_int ws1 ;;
  relative_position_bias <-
    Shape.reshape relative_position_bias [w0 * w1; w0 * w1; -1] ;;
  Shape.transpose relative_position_bias [2; 0; 1]%nat.

(** [call(self, inputs)], on shapes.  The queries, keys and values come
    out of the sub-layer [qkv], so the logits have its dtype; the bias has
    the dtype of the table. *)
Definition call (l : built) (inputs : list Z) : result (list Z) :=
  match inputs with
  | [B_; N; C] =>
      qkv <- Shape.dense (qkv l) inputs ;;
      d <- Shape.floordiv C (num_heads (self l)) ;;
      qkv <- Shape.reshape qkv [B_; N; 3; num_heads (self l); d] ;;
      qkv <- Shape.transpose qkv [2; 0; 3; 1; 4]%nat ;;
      q <- Shape.unstack 3 qkv ;;
      let k := q in
      let v := q in
      let q := Shape.elementwise q in
      kt <- Shape.transpose k [0; 1; 3; 2]%nat ;;
      attn <- Shape.matmul q kt ;;
      relative_position_bias <- bias_shape l ;;
      _ <- Shape.same_dtype Shape.default_dtype
             (weight_dtype (relative_position_bias_table l)) ;;
      attn <- Shape.add attn (Shape.newaxis relative_position_bias) ;;
      let attn := Shape.elementwise attn in
      let attn := Shape.elementwise attn in
      x <- Shape.matmul attn v ;;
      x <- Shape.transpose x [0; 2; 1; 3]%nat ;;
      x <- Shape.reshape x [B_; N; C] ;;
      x <- Shape.dense (proj l) x ;;
      Ok (Shape.elementwise x)
  | _ => Err ValueError
  end.

(** The first call of a Keras layer: [build] on the shape of the input,
    then [call]. *)
Definition first_call (self : attrs) (inputs : list Z) : result (list Z) :=
  l <- build self inputs ;;
  call l inputs.

(** The dictionary returned by [get_config]: the entries of the base class
    and the six entries added by [config.update]. *)
Record config : Type := mkConfig {
  cfg_base : Base;
  cfg_window_size : pyobj;
  cfg_num_heads : Z;
  cfg_qkv_bias : bool;
  cfg_qk_scale : option Q;
  cfg_attn_dropout : Q;
  cfg_proj_dropout : Q
}.

Definition get_config (self : attrs) : config :=
  mkConfig (base self) (window_size self) (num_heads self) (qkv_bias self)
           (qk_scale self) (attn_dropout self) (proj_dropout self).

(** Keras' [Layer.from_config] calls the class with the entries of the
    dictionary as keyword arguments. *)
Definition from_config (c : config) : attrs :=
  init (cfg_window_size c) (cfg_num_heads c) (cfg_qkv_bias c) (cfg_qk_scale c)
       (cfg_attn_dropout c) (cfg_proj_dropout c) (cfg_base c).

End WindowAttention.

(** ** [gcvit/layers/attention.py]: [WindowAttentionGlobal] *)

Module WindowAttentionGlobal.

Record attrs : Type := mkAttrs {
  base : Base;
  window_size : pyobj;
  num_heads : Z;
  qkv_bias : bool;
  qk_scale : option Q;
  attn_dropout : Q;
  proj_dropout : Q
}.

Definition init (window_size : pyobj) (num_heads : Z) (qkv_bias : bool)
  (qk_scale : option Q) (attn_dropout proj_dropout : Q) (kwargs : Base) : attrs :=
  let window_size := PyPair window_size window_size in
  mkAttrs kwargs window_size num_heads qkv_bias qk_scale attn_dropout proj_dropout.

Record built : Type := mkBuilt {
  self : attrs;
  scale : scale_value;
  qkv : Dense;
  relative_position_bias_table : Weight;
  relative_position_index : list (list Z);
  attn_drop : Dropout;
  proj : Dense;
  proj_drop : Dropout
}.

(** Lines 108-117 of [build]. *)
Definition build_index (w0 w1 : Z) : result (list (list Z)) :=
  coords_h <- Tf.range w0 ;;
  coords_w <- Tf.range w1 ;;
  let coords := Tf.meshgrid_ij coords_h coords_w in
  let coords_flatten := Tf.reshape_rows 2 coords in
  let relative_coords := Tf.pairwise_sub coords_flatten in
  let relative_coords := Tf.transpose_120 relative_coords in
  let relative_coords_xx :=
    Tf.sub_scalar (Tf.add_scalar (Tf.slice_last 0 relative_coords) w0) 1 in
  let relative_coords_yy :=
    Tf.sub_scalar (Tf.add_scalar (Tf.slice_last 1 relative_coords) w1) 1 in
  let relative_coords_xx := Tf.mul_scalar relative_coords_xx (2 * w1 - 1) in
  Ok (Tf.add relative_coords_xx relative_coords_yy).

(** [build(self, input_shape)]; [input_shape] is the pair of the shapes of
    the local tokens and of the global query. *)
Definition build (self : attrs) (input_shape : list Z * list Z) : result built :=
  dim <- shape_last (fst input_shape) ;;
  head_dim <- py_floordiv dim (num_heads self) ;;
  scale <- py_or_scale (qk_scale self) (py_pow_neg_half head_dim) ;;
  qkv <- new_dense (dim * 2) (qkv_bias self) "qkv" ;;
  ws0 <- py_getitem (window_size self) 0 ;;
  w0 <- py_int ws0 ;;
  ws1 <- py_getitem (window_size self) 1 ;;
  w1 <- py_int ws1 ;;
  table <- add_weight "relative_position_bias_table"
             [(2 * w0 - 1) * (2 * w1 - 1); num_heads self]
             (layer_dtype (base self)) ;;
  relative_position_index <- build_index w0 w1 ;;
  attn_drop <- new_dropout (attn_dropout self) "attn_drop" ;;
  proj <- new_dense dim true "proj" ;;
  proj_drop <- new_dropout (proj_dropout self) "proj_drop" ;;
  Ok (mkBuilt self scale qkv table relative_position_index attn_drop proj proj_drop).

(** Lines 141-144 of [call]. *)
Definition bias_shape (l : built) : result (list Z) :=
  let index_flat := concat (relative_position_index l) in
  relative_position_bias <-
    Shape.gather (weight_shape (relative_position_bias_table l)) index_flat ;;
  ws0 <- py_getitem (window_size (self l)) 0 ;;
  w0 <- py_int ws0 ;;
  ws1 <- py_getitem (window_size (self l)) 1 ;;
  w1 <- py_int ws1 ;;
  relative_position_bias <-
    Shape.reshape relative_position_bias [w0 * w1; w0 * w1; -1] ;;
  Shape.transpose relative_position_bias [2; 0; 1]%nat.

(** [call(self, inputs)], on shapes; [inputs] is the pair of the local
    tokens and the global query.  The query keeps the dtype Keras cast the
    inputs to, the dtype of the layer; keys and values come out of the
    sub-layer [qkv]; the bias has the dtype of the table. *)
Definition call (l : built) (inputs : list Z * list Z) : result (list Z) :=
  let (inputs, q_global) := inputs in
  match inputs with
  | [B_; N; C] =>
      B <- match q_global with b :: _ => Ok b | [] => Err IndexError end ;;
      kv <- Shape.dense (qkv l) inputs ;;
      d <- Shape.floordiv C (num_heads (self l)) ;;
      kv <- Shape.reshape kv [B_; N; 2; num_heads (self l); d] ;;
      kv <- Shape.transpose kv [2; 0; 3; 1; 4]%nat ;;
      k <- Shape.unstack 2 kv ;;
      let v := k in
      repeats <- Shape.floordiv B_ B ;;
      q_global <- Shape.repeat q_global repeats ;;
      d <- Shape.floordiv C (num_heads (self l)) ;;
      q <- Shape.reshape q_global [B_; N; num_heads (self l); d] ;;
      q <- Shape.transpose q [0; 2; 1; 3]%nat ;;
      let q := Shape.elementwise q in
      kt <- Shape.transpose k [0; 1; 3; 2]%nat ;;
      _ <- Shape.same_dtype (layer_dtype (base (self l))) Shape.default_dtype ;;
      attn <- Shape.matmul q kt ;;
      relative_position_bias <- bias_shape l ;;
      _ <- Shape.same_dtype (layer_dtype (base (self l)))
             (weight_dtype (relative_position_bias_table l)) ;;
      attn <- Shape.add attn (Shape.newaxis relative_position_bias) ;;
      let attn := Shape.elementwise attn in
      let attn := Shape.elementwise attn in
      x <- Shape.matmul attn v ;;
      x <- Shape.transpose x [0; 2; 1; 3]%nat ;;
      x <- Shape.reshape x [B_; N; C] ;;
      x <- Shape.dense (proj l) x ;;
      Ok (Shape.elementwise x)
  | _ => Err ValueError
  end.

Definition first_call (self : attrs) (inputs : list Z * list Z) : result (list Z) :=
  l <- build self inputs ;;
  call l inputs.

(** Lines 136-139 of [call] on values: the query that enters the product
    with the keys.  [mul_scale] is the multiplication of a scalar by
    [self.scale]. *)
Definition call_query {T : Type} (mul_scale : scale_value -> T -> T)
  (l : built) (inputs : list Z) (q_global : list (list (list T)))
  : result (list (list (list (list T)))) :=
  match inputs with
  | [B_; N; C] =>
      let B := Z.of_nat (length q_global) in
      repeats <- Shape.floordiv B_ B ;;
      let q_global := Val.repeat_axis0 q_global repeats in
      d <- Shape.floordiv C (num_heads (self l)) ;;
      q <- Val.reshape4 q_global B_ N (num_heads (self l)) d ;;
      let q := Val.transpose_0213 (Z.to_nat (num_heads (self l))) q in
      Ok (Val.map4 (mul_scale (scale l)) q)
  | _ => Err ValueError
  end.

(** Lines 129-135 of [call] on values: the keys and the values.
    [shape] is [tf.shape(inputs)]; [dense] is what a [Dense] sub-layer does
    to the channels of one token, with the kernel and bias it has
    learned. *)
Definition call_kv {T : Type} (dense : Dense -> list T -> list T)
  (l : built) (shape : list Z) (inputs : list (list (list T)))
  : result (list (list (list (list T))) * list (list (list (list T)))) :=
  match shape with
  | [B_; N; C] =>
      let kv := map (map (dense (qkv l))) inputs in
      d <- Shape.floordiv C (num_heads (self l)) ;;
      kv <- Val.reshape5 kv B_ N 2 (num_heads (self l)) d ;;
      let kv := Val.transpose_20314 (Z.to_nat B_) (Z.to_nat N) 2
                  (Z.to_nat (num_heads (self l))) kv in
      match kv with
      | [k; v] => Ok (k, v)
      | _ => Err ValueError
      end
  | _ => Err ValueError
  end.

Record config : Type := mkConfig {
  cfg_base : Base;
  cfg_window_size : pyobj;
  cfg_num_heads : Z;
  cfg_qkv_bias : bool;
  cfg_qk_scale : option Q;
  cfg_attn_dropout : Q;
  cfg_proj_dropout : Q
}.

Definition get_config (self : attrs) : config :=
  mkConfig (base self) (window_size self) (num_heads self) (qkv_bias self)
           (qk_scale self) (attn_dropout self) (proj_dropout self).

Definition from_config (c : config) : attrs :=
  init (cfg_window_size c) (cfg_num_heads c) (cfg_qkv_bias c) (cfg_qk_scale c)
       (cfg_attn_dropout c) (cfg_proj_dropout c) (cfg_base c).

End WindowAttentionGlobal.

(** ** [gcvit/layers/embedding.py]: [PatchEmbed] *)

Module PatchEmbed.

Record attrs : Type := mkAttrs {
  base : Base;
  dim : Z
}.

Definition init (dim : Z) (kwargs : Base) : attrs := mkAttrs kwargs dim.

(** [tf.keras.layers.ZeroPadding2D(padding)]. *)
Record ZeroPadding2D : Type := mkZeroPadding2D {
  padding : nat
}.

(** [tf.keras.layers.Conv2D(filters, kernel_size=..., strides=..., name=...)]. *)
Record Conv2D : Type := mkConv2D {
  filters : Z;
  kernel_size : Z;
  strides : Z;
  conv_name : string
}.

(** [ReduceSize(keep_dim=..., name=...)], imported from [.feature]. *)
Record ReduceSize : Type := mkReduceSize {
  keep_dim : bool;
  reduce_name : string
}.

Record built : Type := mkBuilt {
  self : attrs;
  pad : ZeroPadding2D;
  proj : Conv2D;
  conv_down : ReduceSize
}.

(** [build(self, input_shape)]. *)
Definition build (self : attrs) (input_shape : list Z) : built :=
  let pad := mkZeroPadding2D 1 in
  let proj := mkConv2D (dim self) 3 2 "proj" in
  let conv_down := mkReduceSize true "conv_down" in
  mkBuilt self pad proj conv_down.

Definition get_config (self : attrs) : Base * Z := (base self, dim self).

Section Call.

(** Scalars of the image tensors and their zero. *)
Variable T : Type.
Variable zero : T.

(** A tensor: its shape and its entries, outermost axis first; for a batch
    of images the axes are [batch, height, width, channels]. *)
Record tensor : Type := mkTensor {
  dims : list Z;
  pixels : list (list (list (list T)))
}.

(** The convolution with the kernel and bias the layer has learned, and the
    downsampling block of [gcvit/layers/feature.py]. *)
Variable conv2d : Conv2D -> tensor -> result tensor.
Variable reduce_size : ReduceSize -> tensor -> result tensor.

(** [ZeroPadding2D(p)] on one image of [width] columns and [channels]
    channels: [p] rows of zeros above and below, [p] zero pixels left and
    right of every row. *)
Definition zero_pad_image (p width channels : nat) (img : list (list (list T)))
  : list (list (list T)) :=
  let pixel := List.repeat zero channels in
  let row := List.repeat pixel (p + width + p) in
  List.repeat row p
  ++ map (fun r => List.repeat pixel p ++ r ++ List.repeat pixel p) img
  ++ List.repeat row p.

(** Calling [ZeroPadding2D(p)]: the input must have four axes. *)
Definition zero_padding2d (l : ZeroPadding2D) (x : tensor) : result tensor :=
  match dims x with
  | [b; h; w; c] =>
      let p := padding l in
      Ok (mkTensor [b; h + 2 * Z.of_nat p; w + 2 * Z.of_nat p; c]
            (map (zero_pad_image p (Z.to_nat w) (Z.to_nat c)) (pixels x)))
  | _ => Err ValueError
  end.

(** [call(self, inputs)]. *)
Definition call (l : built) (inputs : tensor) : result tensor :=
  padded <- zero_padding2d (pad l) inputs ;;
  x <- conv2d (proj l) padded ;;
  x <- reduce_size (conv_down l) x ;;
  Ok x.

End Call.

(** Keras' [Layer.from_config] on the dictionary [get_config] returns: the
    class is called with [dim] and the entries of the base class. *)
Definition from_config (c : Base * Z) : attrs := init (snd c) (fst c).

(** [call(self, inputs)], on shapes; [reduce_size] is the shape rule of the
    downsampling block of [gcvit/layers/feature.py], [one_dnn] tells which
    convolution kernels TensorFlow runs. *)
Definition call_shape (one_dnn : bool)
  (reduce_size : ReduceSize -> list Z -> result (list Z))
  (l : built) (inputs : list Z) : result (list Z) :=
  padded <- Shape.zero_padding2d (Z.of_nat (padding (pad l))) inputs ;;
  x <- Shape.conv2d one_dnn (filters (proj l)) (kernel_size (proj l))
         (strides (proj l)) padded ;;
  x <- reduce_size (conv_down l) x ;;
  Ok x.

End PatchEmbed.

(** ** The index as the specification words it

    Position [i] of the flattened [W x W] grid, in row-major order, lies in
    row [i / W] and column [i mod W]. *)

Definition row_of (W i : Z) : Z := i / W.
Definition col_of (W i : Z) : Z := i mod W.

(** [(row_i - row_j + W - 1) * (2W - 1) + (col_i - col_j + W - 1)]. *)
Definition offset_index (W i j : Z) : Z :=
  (row_of W i - row_of W j + W - 1) * (2 * W - 1)
  + (col_of W i - col_of W j + W - 1).

(** Number of rows of the bias table, [(2W-1)^2]. *)
Definition table_rows (W : Z) : Z := (2 * W - 1) * (2 * W - 1).

(** The two rows of [coords_flatten]: the row and the column of every
    flattened position. *)
Definition rows_flat (w0 w1 : Z) : list Z :=
  concat (map (fun x => map (fun _ : Z => x) (Tf.iota w1)) (Tf.iota w0)).
Definition cols_flat (w0 w1 : Z) : list Z :=
  concat (map (fun _ : Z => Tf.iota w1) (Tf.iota w0)).

(** One cell of the index, from the two coordinate vectors. *)
Definition index_cell (w0 w1 : Z) (p q : nat) : Z :=
  (nth p (rows_flat w0 w1) 0 - nth q (rows_flat w0 w1) 0 + w0 - 1) * (2 * w1 - 1)
  + (nth p (cols_flat w0 w1) 0 - nth q (cols_flat w0 w1) 0 + w1 - 1).

(** The index [build_index] returns when both [tf.range] calls return. *)
Definition index_matrix (w0 w1 : Z) : list (list Z) :=
  let coords := Tf.meshgrid_ij (Tf.iota w0) (Tf.iota w1) in
  let coords_flatten := Tf.reshape_rows 2 coords in
  let relative_coords := Tf.transpose_120 (Tf.pairwise_sub coords_flatten) in
  Tf.add
    (Tf.mul_scalar
       (Tf.sub_scalar (Tf.add_scalar (Tf.slice_last 0 relative_coords) w0) 1)
       (2 * w1 - 1))
    (Tf.sub_scalar (Tf.add_scalar (Tf.slice_last 1 relative_coords) w1) 1).

(** The scale [build] means to store: [qk_scale] when its truth value is
    true, [head_dim ** -0.5] otherwise. *)
Definition chosen_scale (qk_scale : option Q) (head_dim : Z) : scale_value :=
  match qk_scale with
  | Some q => if Qeq_bool q 0 then InvSqrt head_dim else Given q
  | None => InvSqrt head_dim
  end.

(** ** The query of one image

    Lines 137-139 of [WindowAttentionGlobal.call] on a single image of the
    global query: the channels of every token are cut into [h] heads of
    [d] channels, the token axis and the head axis are exchanged, and
    every scalar goes through [f]. *)

Definition head_view {T : Type} (f : T -> T) (h d : Z) (image : list (list T))
  : list (list (list T)) :=
  map (map (map f))
      (Val.swap_axes (Z.to_nat h)
         (map (Tf.take_rows (Z.to_nat h) (Z.to_nat d)) image)).

(** * Properties *)

(** ** Lists *)

Section ListFacts.

Context {A B C : Type}.

Lemma nth_map_lt (f : A -> B) (l : list A) (k : nat) (d : B) (d' : A) :
  (k < length l)%nat -> nth k (map f l) d = f (nth k l d').
Proof.
  revert k; induction l as [|x l IH]; intros [|k] Hk; simpl in *; try lia; auto.
  apply IH; lia.
Qed.

Lemma combine_map_same (f : A -> B) (g : A -> C) (l : list A) :
  combine (map f l) (map g l) = map (fun x => (f x, g x)) l.
Proof.
  induction l as [|x l IH]; simpl; [reflexivity | now rewrite IH].
Qed.

Lemma take_rows_length (r c : nat) (l : list A) :
  length (Tf.take_rows r c l) = r.
Proof.
  revert l; induction r as [|r IH]; intros l; simpl; [reflexivity | now rewrite IH].
Qed.

Lemma take_rows_concat (c : nat) (ls : list (list A)) :
  Forall (fun r => length r = c) ls ->
  Tf.take_rows (length ls) c (concat ls) = ls.
Proof.
  induction 1 as [|r ls Hr _ IH]; simpl; [reflexivity|].
  rewrite firstn_app, skipn_app, Hr, Nat.sub_diag.
  rewrite firstn_all2, skipn_all2 by lia.
  simpl; rewrite app_nil_r, IH; reflexivity.
Qed.

Lemma length_concat_uniform (c : nat) (ls : list (list A)) :
  Forall (fun r => length r = c) ls ->
  length (concat ls) = (length ls * c)%nat.
Proof.
  induction 1 as [|r ls Hr _ IH]; simpl; [reflexivity|].
  rewrite length_app, IH, Hr; reflexivity.
Qed.

Lemma nth_concat_uniform (c : nat) (ls : list (list A)) (p : nat) (d : A) :
  Forall (fun r => length r = c) ls ->
  (p < length ls * c)%nat ->
  nth p (concat ls) d = nth (p mod c) (nth (p / c) ls []) d.
Proof.
  intros Hall; revert p; induction Hall as [|r ls Hr _ IH]; intros p Hp; simpl in *; [lia|].
  assert (Hc : (c <> 0)%nat) by (intros ->; lia).
  destruct (Nat.lt_ge_cases p c) as [Hlt|Hge].
  - rewrite app_nth1 by lia.
    rewrite Nat.div_small, Nat.mod_small by exact Hlt; reflexivity.
  - rewrite app_nth2 by lia.
    rewrite Hr, IH by lia.
    replace p with ((p - c) + 1 * c)%nat at 3 4 by lia.
    rewrite Nat.div_add, Nat.Div0.mod_add by exact Hc.
    replace ((p - c) / c + 1)%nat with (S ((p - c) / c)) by lia.
    reflexivity.
Qed.

End ListFacts.

Lemma take_rows_nth {A : Type} (R c : nat) (l : list A) (r k : nat) (d : A) :
  (r < R)%nat -> (k < c)%nat ->
  nth k (nth r (Tf.take_rows R c l) []) d = nth (r * c + k) l d.
Proof.
  revert l r; induction R as [|R IH]; intros l r Hr Hk; [lia|].
  destruct r as [|r]; cbn [Tf.take_rows nth].
  - rewrite nth_firstn. apply Nat.ltb_lt in Hk; rewrite Hk. reflexivity.
  - rewrite IH by lia. rewrite nth_skipn. f_equal; cbn; lia.
Qed.

Lemma take_rows_Forall_length {A : Type} (R c : nat) (l : list A) :
  length l = (R * c)%nat -> Forall (fun r => length r = c) (Tf.take_rows R c l).
Proof.
  revert l; induction R as [|R IH]; intros l Hl; cbn [Tf.take_rows]; constructor.
  - rewrite length_firstn; lia.
  - apply IH. rewrite length_skipn; lia.
Qed.

Section IndexFacts.

Variables w0 w1 : Z.

Lemma iota_length (n : Z) : length (Tf.iota n) = Z.to_nat n.
Proof. unfold Tf.iota; now rewrite length_map, length_seq. Qed.

Lemma iota_nth (n : Z) (k : nat) :
  (k < Z.to_nat n)%nat -> nth k (Tf.iota n) 0 = Z.of_nat k.
Proof.
  intros Hk; unfold Tf.iota.
  rewrite (nth_map_lt Z.of_nat _ 0 0%nat) by (now rewrite length_seq).
  now rewrite seq_nth.
Qed.

Lemma rows_flat_length : length (rows_flat w0 w1) = (Z.to_nat w0 * Z.to_nat w1)%nat.
Proof.
  unfold rows_flat.
  rewrite (length_concat_uniform (c := Z.to_nat w1)).
  - now rewrite length_map, iota_length.
  - apply Forall_map, Forall_forall; intros x _.
    now rewrite length_map, iota_length.
Qed.

Lemma cols_flat_length : length (cols_flat w0 w1) = (Z.to_nat w0 * Z.to_nat w1)%nat.
Proof.
  unfold cols_flat.
  rewrite (length_concat_uniform (c := Z.to_nat w1)).
  - now rewrite length_map, iota_length.
  - apply Forall_map, Forall_forall; intros x _. apply iota_length.
Qed.

Lemma coords_flatten_eq :
  Tf.reshape_rows 2 (Tf.meshgrid_ij (Tf.iota w0) (Tf.iota w1)) = [rows_flat w0 w1; cols_flat w0 w1].
Proof.
  unfold Tf.reshape_rows, Tf.meshgrid_ij.
  cbn [concat]. rewrite app_nil_r, concat_app.
  change (concat (map (fun x => map (fun _ : Z => x) (Tf.iota w1)) (Tf.iota w0)))
    with (rows_flat w0 w1).
  change (concat (map (fun _ : Z => Tf.iota w1) (Tf.iota w0))) with (cols_flat w0 w1).
  rewrite length_app, rows_flat_length, cols_flat_length.
  replace ((Z.to_nat w0 * Z.to_nat w1 + Z.to_nat w0 * Z.to_nat w1) / 2)%nat with (Z.to_nat w0 * Z.to_nat w1)%nat
    by (replace (Z.to_nat w0 * Z.to_nat w1 + Z.to_nat w0 * Z.to_nat w1)%nat with ((Z.to_nat w0 * Z.to_nat w1) * 2)%nat by lia; now rewrite Nat.div_mul).
  change [rows_flat w0 w1; cols_flat w0 w1] with ([rows_flat w0 w1] ++ [cols_flat w0 w1]).
  simpl Tf.take_rows.
  rewrite firstn_app, skipn_app, rows_flat_length, Nat.sub_diag.
  rewrite firstn_all2, skipn_all2 by (rewrite rows_flat_length; lia).
  simpl. rewrite app_nil_r.
  rewrite firstn_all2 by (rewrite cols_flat_length; lia). reflexivity.
Qed.


Lemma rows_flat_nth (p : nat) :
  (p < Z.to_nat w0 * Z.to_nat w1)%nat -> nth p (rows_flat w0 w1) 0 = Z.of_nat (p / Z.to_nat w1).
Proof.
  intros Hp.
  assert (Hw : (Z.to_nat w1 <> 0)%nat) by (intros E; rewrite E in Hp; lia).
  assert (Hq : (p / Z.to_nat w1 < Z.to_nat w0)%nat) by (apply Nat.Div0.div_lt_upper_bound; lia).
  unfold rows_flat.
  rewrite (nth_concat_uniform (c := Z.to_nat w1)).
  - rewrite (nth_map_lt _ _ [] 0) by (now rewrite iota_length).
    rewrite (nth_map_lt _ _ 0 0)
      by (rewrite iota_length; apply Nat.mod_upper_bound; exact Hw).
    apply iota_nth; exact Hq.
  - apply Forall_map, Forall_forall; intros x _.
    now rewrite length_map, iota_length.
  - now rewrite length_map, iota_length.
Qed.

Lemma cols_flat_nth (p : nat) :
  (p < Z.to_nat w0 * Z.to_nat w1)%nat -> nth p (cols_flat w0 w1) 0 = Z.of_nat (p mod Z.to_nat w1).
Proof.
  intros Hp.
  assert (Hw : (Z.to_nat w1 <> 0)%nat) by (intros E; rewrite E in Hp; lia).
  assert (Hq : (p / Z.to_nat w1 < Z.to_nat w0)%nat) by (apply Nat.Div0.div_lt_upper_bound; lia).
  unfold cols_flat.
  rewrite (nth_concat_uniform (c := Z.to_nat w1)).
  - rewrite (nth_map_lt _ _ [] 0) by (now rewrite iota_length).
    apply iota_nth, Nat.mod_upper_bound; exact Hw.
  - apply Forall_map, Forall_forall; intros x _. apply iota_length.
  - now rewrite length_map, iota_length.
Qed.

Lemma index_matrix_cells :
  index_matrix w0 w1 =
  map (fun p => map (fun q => index_cell w0 w1 p q) (seq 0 (Z.to_nat w0 * Z.to_nat w1))) (seq 0 (Z.to_nat w0 * Z.to_nat w1)).
Proof.
  unfold index_matrix.
  rewrite coords_flatten_eq.
  unfold Tf.pairwise_sub, Tf.transpose_120.
  cbn [map hd].
  assert (Hd2 : length (hd [] (map (fun a => map (fun b => a - b) (rows_flat w0 w1)) (rows_flat w0 w1)))
                = (Z.to_nat w0 * Z.to_nat w1)%nat).
  { pose proof rows_flat_length as HL.
    destruct (rows_flat w0 w1) as [|x r]; simpl in *; [lia|].
    now rewrite length_map. }
  rewrite Hd2, length_map, rows_flat_length.
  unfold Tf.add, Tf.mul_scalar, Tf.sub_scalar, Tf.add_scalar, Tf.slice_last.
  rewrite !map_map, combine_map_same, map_map.
  apply map_ext_in; intros p Hp; apply in_seq in Hp.
  cbn [fst snd].
  rewrite !map_map, combine_map_same, map_map.
  apply map_ext_in; intros q Hq; apply in_seq in Hq.
  cbn [fst snd nth].
  unfold index_cell.
  rewrite !(nth_map_lt _ _ [] 0) by (rewrite ?rows_flat_length, ?cols_flat_length; lia).
  rewrite !(nth_map_lt _ _ 0 0) by (rewrite ?rows_flat_length, ?cols_flat_length; lia).
  reflexivity.
Qed.

End IndexFacts.

(** ** The relative position index *)

Lemma index_matrix_length (w0 w1 : Z) :
  length (index_matrix w0 w1) = (Z.to_nat w0 * Z.to_nat w1)%nat.
Proof. now rewrite index_matrix_cells, length_map, length_seq. Qed.

Lemma index_matrix_shape (w0 w1 : Z) :
  0 <= w0 -> 0 <= w1 ->
  Tf.has_shape (index_matrix w0 w1) (w0 * w1) (w0 * w1).
Proof.
  intros H0 H1; split.
  - rewrite index_matrix_length; lia.
  - rewrite index_matrix_cells.
    apply Forall_map, Forall_forall; intros p _.
    rewrite length_map, length_seq; lia.
Qed.

(** Every cell of the index built for a square window is the offset of the
    specification. *)
Lemma index_matrix_entry (W i j : Z) :
  0 < W -> 0 <= i < W * W -> 0 <= j < W * W ->
  Tf.entry (index_matrix W W) i j = offset_index W i j.
Proof.
  intros HW Hi Hj.
  assert (HWW : (Z.to_nat W * Z.to_nat W)%nat = Z.to_nat (W * W))
    by (rewrite Z2Nat.inj_mul; lia).
  assert (Hin : (Z.to_nat i < Z.to_nat W * Z.to_nat W)%nat) by lia.
  assert (Hjn : (Z.to_nat j < Z.to_nat W * Z.to_nat W)%nat) by lia.
  unfold Tf.entry; rewrite index_matrix_cells.
  rewrite (nth_map_lt _ _ [] 0%nat) by (now rewrite length_seq).
  rewrite (nth_map_lt _ _ 0 0%nat) by (now rewrite length_seq).
  rewrite !seq_nth by assumption; cbn [Nat.add].
  unfold index_cell.
  rewrite !rows_flat_nth, !cols_flat_nth by assumption.
  unfold offset_index, row_of, col_of.
  rewrite !Nat2Z.inj_div, !Nat2Z.inj_mod, !Z2Nat.id by lia.
  reflexivity.
Qed.

Lemma offset_index_range (W i j : Z) :
  0 < W -> 0 <= i < W * W -> 0 <= j < W * W ->
  0 <= offset_index W i j <= table_rows W - 1.
Proof.
  intros HW Hi Hj.
  unfold offset_index, table_rows, row_of, col_of.
  assert (0 <= i / W < W) by (split; [apply Z.div_pos; lia | apply Z.div_lt_upper_bound; lia]).
  assert (0 <= j / W < W) by (split; [apply Z.div_pos; lia | apply Z.div_lt_upper_bound; lia]).
  pose proof (Z.mod_pos_bound i W HW).
  pose proof (Z.mod_pos_bound j W HW).
  nia.
Qed.

(** [build_index] raises for a negative window size and returns
    [index_matrix] otherwise. *)
Lemma build_index_ok (w0 w1 : Z) :
  0 <= w0 -> 0 <= w1 ->
  WindowAttention.build_index w0 w1 = Ok (index_matrix w0 w1).
Proof.
  intros H0 H1; unfold WindowAttention.build_index, Tf.range.
  replace (w0 <? 0) with false by (symmetry; apply Z.ltb_ge; lia).
  replace (w1 <? 0) with false by (symmetry; apply Z.ltb_ge; lia).
  reflexivity.
Qed.

Lemma build_index_inv (w0 w1 : Z) (index : list (list Z)) :
  WindowAttention.build_index w0 w1 = Ok index ->
  0 <= w0 /\ 0 <= w1 /\ index = index_matrix w0 w1.
Proof.
  unfold WindowAttention.build_index, Tf.range.
  destruct (Z.ltb_spec w0 0); cbn [bind]; [discriminate|].
  destruct (Z.ltb_spec w1 0); cbn [bind]; [discriminate|].
  intros Hi; injection Hi as <-. repeat split; assumption.
Qed.

Lemma build_index_negative (w0 w1 : Z) :
  w0 < 0 -> WindowAttention.build_index w0 w1 = Err (RangeError w0).
Proof.
  intros H0; unfold WindowAttention.build_index, Tf.range.
  replace (w0 <? 0) with true by (symmetry; apply Z.ltb_lt; lia).
  reflexivity.
Qed.

(** The two copies of the index computation are one function. *)
Lemma build_index_copies (w0 w1 : Z) :
  WindowAttentionGlobal.build_index w0 w1 = WindowAttention.build_index w0 w1.
Proof. reflexivity. Qed.

(** ** Sub-layers *)

Lemma new_dropout_ok (r : Q) (n : string) :
  (0 <= r <= 1)%Q -> new_dropout r n = Ok (mkDropout r n).
Proof.
  intros [H0 H1]; unfold new_dropout.
  apply Qle_bool_iff in H0, H1; rewrite H0, H1; reflexivity.
Qed.

Lemma new_dropout_inv (r : Q) (n : string) (d : Dropout) :
  new_dropout r n = Ok d -> (0 <= r <= 1)%Q /\ d = mkDropout r n.
Proof.
  unfold new_dropout.
  destruct (Qle_bool 0 r) eqn:H0; [|discriminate].
  destruct (Qle_bool r 1) eqn:H1; [|discriminate].
  cbn [andb]; intros Hd; injection Hd as <-.
  apply Qle_bool_iff in H0, H1; repeat split; assumption.
Qed.

Lemma float32_is_floating (dtype : string) :
  dtype = "float32"%string -> is_floating dtype = true.
Proof. intros ->; reflexivity. Qed.

(** X3.  The entries fit the int32 dtype of the index for every window
    whose index can be held in memory at all ([W <= 23170] leaves room for
    [W^4 > 2 * 10^17] entries). *)
Lemma index_fits_int32 (W i j : Z) :
  1 <= W <= 23170 -> 0 <= i < W * W -> 0 <= j < W * W ->
  exists index,
    WindowAttention.build_index W W = Ok index /\
    0 <= Tf.entry index i j < 2 ^ 31.
Proof.
  intros HW Hi Hj.
  exists (index_matrix W W); split; [apply build_index_ok; lia|].
  rewrite index_matrix_entry by lia.
  pose proof (@offset_index_range W i j) as Hr.
  unfold table_rows in Hr.
  assert ((2 * W - 1) * (2 * W - 1) <= 46339 * 46339) by nia.
  lia.
Qed.

(** ** [build] on a valid configuration *)

Lemma py_or_scale_ok (x : option Q) (head_dim : Z) :
  head_dim <> 0 ->
  py_or_scale x (py_pow_neg_half head_dim) = Ok (chosen_scale x head_dim).
Proof.
  intros Hd; unfold py_or_scale, py_pow_neg_half, chosen_scale.
  apply Z.eqb_neq in Hd; rewrite Hd.
  destruct x as [q|]; [|reflexivity].
  cbn [py_truthy]. destruct (Qeq_bool q 0); reflexivity.
Qed.

Lemma head_dim_pos (C num_heads : Z) :
  1 <= num_heads <= C -> 1 <= C / num_heads.
Proof.
  intros H. apply Z.div_le_lower_bound; lia.
Qed.

(** The layer [WindowAttention.build] returns for a window size that is not
    negative, a head count between 1 and the channel count, dropout rates
    in [[0, 1]] and a floating dtype. *)
Lemma window_attention_build_ok (W num_heads : Z) (qkv_bias : bool)
  (qk_scale : option Q) (ad pd : Q) (kwargs : Base) (B_ N C : Z) :
  0 <= W -> 1 <= num_heads <= C ->
  (0 <= ad <= 1)%Q -> (0 <= pd <= 1)%Q ->
  is_floating (layer_dtype kwargs) = true ->
    WindowAttention.build
      (WindowAttention.init (PyInt W) num_heads qkv_bias qk_scale ad pd kwargs)
      [B_; N; C]
    = Ok (WindowAttention.mkBuilt
            (WindowAttention.init (PyInt W) num_heads qkv_bias qk_scale ad pd kwargs)
            (chosen_scale qk_scale (C / num_heads))
            (mkDense (C * 3) qkv_bias "qkv")
            (mkWeight "relative_position_bias_table"
                      [(2 * W - 1) * (2 * W - 1); num_heads] true
                      (layer_dtype kwargs))
            (index_matrix W W)
            (mkDropout ad "attn_drop")
            (mkDense C true "proj")
            (mkDropout pd "proj_drop")).
Proof.
  intros HW Hh Had Hpd Hf.
  pose proof (head_dim_pos Hh) as Hd.
  unfold WindowAttention.build, WindowAttention.init; cbn [shape_last rev app bind
    WindowAttention.num_heads WindowAttention.qk_scale WindowAttention.qkv_bias
    WindowAttention.window_size WindowAttention.attn_dropout
    WindowAttention.proj_dropout WindowAttention.base py_getitem py_int].
  unfold py_floordiv.
  replace (num_heads =? 0) with false by (symmetry; apply Z.eqb_neq; lia).
  cbn [bind].
  rewrite py_or_scale_ok by lia.
  cbn [bind].
  unfold new_dense, add_weight.
  replace (C * 3 <? 0) with false by (symmetry; apply Z.ltb_ge; lia).
  replace (C <? 0) with false by (symmetry; apply Z.ltb_ge; lia).
  cbn [bind forallb].
  replace (0 <=? (2 * W - 1) * (2 * W - 1)) with true by (symmetry; apply Z.leb_le; nia).
  replace (0 <=? num_heads) with true by (symmetry; apply Z.leb_le; lia).
  rewrite Hf; cbn [andb bind].
  rewrite build_index_ok by lia; cbn [bind].
  rewrite !new_dropout_ok by assumption; cbn [bind].
  reflexivity.
Qed.

(** ** The index [build] stores *)

(** The index, the bias table and the sub-layers of any layer [build]
    returns. *)
Lemma window_attention_build_index (W num_heads : Z) (qkv_bias : bool)
  (qk_scale : option Q) (ad pd : Q) (kwargs : Base) (input_shape : list Z)
  (l : WindowAttention.built) :
  WindowAttention.build
    (WindowAttention.init (PyInt W) num_heads qkv_bias qk_scale ad pd kwargs)
    input_shape = Ok l ->
  WindowAttention.relative_position_index l = index_matrix W W /\
  weight_shape (WindowAttention.relative_position_bias_table l)
  = [(2 * W - 1) * (2 * W - 1); num_heads] /\
  weight_dtype (WindowAttention.relative_position_bias_table l)
  = layer_dtype kwargs /\
  0 <= W.
Proof.
  unfold WindowAttention.build, WindowAttention.init.
  cbn [WindowAttention.num_heads WindowAttention.qk_scale
       WindowAttention.qkv_bias WindowAttention.window_size
       WindowAttention.attn_dropout WindowAttention.proj_dropout
       WindowAttention.base].
  destruct (shape_last input_shape) as [dim|e]; cbn [bind]; [|discriminate].
  destruct (py_floordiv dim num_heads) as [hd|e]; cbn [bind]; [|discriminate].
  destruct (py_or_scale qk_scale (py_pow_neg_half hd)) as [sc|e]; cbn [bind];
    [|discriminate].
  destruct (new_dense (dim * 3) qkv_bias "qkv") as [d|e]; cbn [bind py_getitem py_int];
    [|discriminate].
  unfold add_weight.
  destruct (forallb (fun d => 0 <=? d) [(2 * W - 1) * (2 * W - 1); num_heads]
            && is_floating (layer_dtype kwargs));
    cbn [bind]; [|discriminate].
  destruct (WindowAttention.build_index W W) as [index|e] eqn:Hi; cbn [bind];
    [|discriminate].
  apply build_index_inv in Hi; destruct Hi as (HW & _ & ->).
  destruct (new_dropout ad "attn_drop") as [da|e]; cbn [bind]; [|discriminate].
  destruct (new_dense dim true "proj") as [d'|e]; cbn [bind]; [|discriminate].
  destruct (new_dropout pd "proj_drop") as [dp|e]; cbn [bind]; [|discriminate].
  intros Hl; injection Hl as <-. repeat split; assumption.
Qed.

(** C1.  For every window size [W >= 1], [W = 1] included: the relative
    position index of every layer [WindowAttention.build] returns has shape
    [[W^2, W^2]]; its entry for the ordered pair of flattened grid positions
    [(i, j)] is [(row_i - row_j + W - 1) * (2W - 1) + (col_i - col_j + W - 1)],
    with [row_i = i / W] and [col_i = i mod W]; every entry lies in
    [[0, (2W-1)^2 - 1]]; and [build] does return a layer, raising nothing,
    for every head count between 1 and the channel count, dropout rates in
    [[0, 1]] and the dtype float32. *)
Theorem relative_position_index_offsets
  (W num_heads : Z) (qkv_bias : bool) (qk_scale : option Q) (ad pd : Q)
  (kwargs : Base) (B_ N C : Z) :
  1 <= W ->
  let a := WindowAttention.init (PyInt W) num_heads qkv_bias qk_scale ad pd kwargs in
  (forall input_shape l,
     WindowAttention.build a input_shape = Ok l ->
     Tf.has_shape (WindowAttention.relative_position_index l) (W * W) (W * W) /\
     forall i j, 0 <= i < W * W -> 0 <= j < W * W ->
       Tf.entry (WindowAttention.relative_position_index l) i j
       = (i / W - j / W + W - 1) * (2 * W - 1) + (i mod W - j mod W + W - 1) /\
       0 <= Tf.entry (WindowAttention.relative_position_index l) i j
         <= (2 * W - 1) * (2 * W - 1) - 1) /\
  (1 <= num_heads <= C ->
   (0 <= ad <= 1)%Q -> (0 <= pd <= 1)%Q ->
   layer_dtype kwargs = "float32"%string ->
   exists l, WindowAttention.build a [B_; N; C] = Ok l).
Proof.
  intros HW a; split.
  - intros input_shape l Hb.
    destruct (window_attention_build_index W num_heads qkv_bias qk_scale ad pd
                kwargs input_shape Hb) as (-> & _).
    split; [apply index_matrix_shape; lia|].
    intros i j Hi Hj.
    rewrite index_matrix_entry by lia.
    split; [reflexivity|].
    apply offset_index_range; lia.
  - intros Hh Had Hpd Hdt.
    eexists; apply window_attention_build_ok;
      auto using float32_is_floating; lia.
Qed.

Lemma relative_position_index_offsets_witness :
  let a := WindowAttention.init (PyInt 3) 4 true None 0 (1 # 10)
             (mkBase "attn" true "float32") in
  (forall input_shape l,
     WindowAttention.build a input_shape = Ok l ->
     Tf.has_shape (WindowAttention.relative_position_index l) (3 * 3) (3 * 3) /\
     forall i j, 0 <= i < 3 * 3 -> 0 <= j < 3 * 3 ->
       Tf.entry (WindowAttention.relative_position_index l) i j
       = (i / 3 - j / 3 + 3 - 1) * (2 * 3 - 1) + (i mod 3 - j mod 3 + 3 - 1) /\
       0 <= Tf.entry (WindowAttention.relative_position_index l) i j
         <= (2 * 3 - 1) * (2 * 3 - 1) - 1) /\
  (1 <= 4 <= 32 ->
   (0 <= 0 <= 1)%Q -> (0 <= 1 # 10 <= 1)%Q ->
   layer_dtype (mkBase "attn" true "float32") = "float32"%string ->
   exists l, WindowAttention.build a [2; 9; 32] = Ok l).
Proof.
  apply (@relative_position_index_offsets 3 4 true None 0 (1 # 10)
           (mkBase "attn" true "float32") 2 9 32); lia.
Defined.

(** C7.  For every window size [W] the index construction returns, and
    every diagonal entry of the relative position index is the row of the
    zero offset, [(2W-1) * (W-1) + (W-1)], so all diagonal entries are
    equal; for [W = 2] that entry is 4. *)
Theorem relative_position_index_diagonal (W i : Z) :
  1 <= W -> 0 <= i < W * W ->
  exists index,
    WindowAttention.build_index W W = Ok index /\
    Tf.entry index i i = (2 * W - 1) * (W - 1) + (W - 1) /\
    (W = 2 -> Tf.entry index i i = 4).
Proof.
  intros HW Hi.
  exists (index_matrix W W); split; [apply build_index_ok; lia|].
  rewrite index_matrix_entry by lia.
  unfold offset_index; split; [ring | intros ->; ring].
Qed.

Lemma relative_position_index_diagonal_witness :
  exists index,
    WindowAttention.build_index 2 2 = Ok index /\
    Tf.entry index 3 3 = (2 * 2 - 1) * (2 - 1) + (2 - 1) /\
    (2 = 2 -> Tf.entry index 3 3 = 4).
Proof.
  apply (@relative_position_index_diagonal 2 3); lia.
Defined.

(** C10.  For every window size [W] the index construction returns, and
    for every pair of flattened positions [(i, j)],
    [index(i,j) + index(j,i) = (2W-1)^2 - 1]. *)
Theorem relative_position_index_reflection (W i j : Z) :
  1 <= W -> 0 <= i < W * W -> 0 <= j < W * W ->
  exists index,
    WindowAttention.build_index W W = Ok index /\
    Tf.entry index i j + Tf.entry index j i = (2 * W - 1) * (2 * W - 1) - 1.
Proof.
  intros HW Hi Hj.
  exists (index_matrix W W); split; [apply build_index_ok; lia|].
  rewrite !index_matrix_entry by lia.
  unfold offset_index; ring.
Qed.

Lemma relative_position_index_reflection_witness :
  exists index,
    WindowAttention.build_index 3 3 = Ok index /\
    Tf.entry index 1 8 + Tf.entry index 8 1 = (2 * 3 - 1) * (2 * 3 - 1) - 1.
Proof.
  apply (@relative_position_index_reflection 3 1 8); lia.
Defined.

(** The two [build] methods on the same arguments: both raise the same
    exception, or both return a layer with the same index and a bias table
    of the same shape. *)
Lemma builds_agree
  (W num_heads : Z) (qkv_bias : bool) (qk_scale : option Q) (ad pd : Q)
  (kwargs : Base) (input_shape q_shape : list Z) :
  match
    WindowAttention.build
      (WindowAttention.init (PyInt W) num_heads qkv_bias qk_scale ad pd kwargs)
      input_shape,
    WindowAttentionGlobal.build
      (WindowAttentionGlobal.init (PyInt W) num_heads qkv_bias qk_scale ad pd kwargs)
      (input_shape, q_shape)
  with
  | Ok l, Ok g =>
      WindowAttention.relative_position_index l
      = WindowAttentionGlobal.relative_position_index g /\
      weight_shape (WindowAttention.relative_position_bias_table l)
      = [(2 * W - 1) * (2 * W - 1); num_heads] /\
      weight_shape (WindowAttentionGlobal.relative_position_bias_table g)
      = [(2 * W - 1) * (2 * W - 1); num_heads]
  | Err e, Err e' => e = e'
  | _, _ => False
  end.
Proof.
  unfold WindowAttention.build, WindowAttentionGlobal.build,
    WindowAttention.init, WindowAttentionGlobal.init.
  cbn [fst WindowAttention.num_heads WindowAttention.qk_scale
       WindowAttention.qkv_bias WindowAttention.window_size
       WindowAttention.attn_dropout WindowAttention.proj_dropout
       WindowAttention.base WindowAttentionGlobal.base
       WindowAttentionGlobal.num_heads WindowAttentionGlobal.qk_scale
       WindowAttentionGlobal.qkv_bias WindowAttentionGlobal.window_size
       WindowAttentionGlobal.attn_dropout WindowAttentionGlobal.proj_dropout].
  destruct (shape_last input_shape) as [dim|e]; cbn [bind]; [|reflexivity].
  destruct (py_floordiv dim num_heads) as [hd|e]; cbn [bind]; [|reflexivity].
  destruct (py_or_scale qk_scale (py_pow_neg_half hd)) as [sc|e]; cbn [bind];
    [|reflexivity].
  unfold new_dense.
  destruct (Z.ltb_spec (dim * 3) 0), (Z.ltb_spec (dim * 2) 0); try lia;
    cbn [bind py_getitem py_int]; [reflexivity|].
  destruct (add_weight "relative_position_bias_table"
              [(2 * W - 1) * (2 * W - 1); num_heads] (layer_dtype kwargs))
    as [t|e] eqn:Ht; cbn [bind]; [|reflexivity].
  change (WindowAttentionGlobal.build_index W W)
    with (WindowAttention.build_index W W).
  destruct (WindowAttention.build_index W W) as [index|e]; cbn [bind];
    [|reflexivity].
  destruct (new_dropout ad "attn_drop") as [da|e]; cbn [bind]; [|reflexivity].
  destruct (Z.ltb_spec dim 0); [lia|].
  cbn [bind].
  destruct (new_dropout pd "proj_drop") as [dp|e]; cbn [bind]; [|reflexivity].
  cbn [WindowAttention.relative_position_index
       WindowAttentionGlobal.relative_position_index
       WindowAttention.relative_position_bias_table
       WindowAttentionGlobal.relative_position_bias_table].
  unfold add_weight in Ht.
  destruct (forallb (fun d => 0 <=? d) [(2 * W - 1) * (2 * W - 1); num_heads]
            && is_floating (layer_dtype kwargs));
    [|discriminate].
  injection Ht as <-.
  repeat split.
Qed.

(** C9.  The index construction of [WindowAttentionGlobal.build] is the same
    function of the window size as that of [WindowAttention.build]; and for
    every window size [W], every [num_heads] and every other argument the
    two [build] methods either raise the same exception or return layers
    with equal relative position index matrices and bias tables of the
    equal shape [[(2W-1)^2, num_heads]]. *)
Theorem both_builds_agree :
  (forall w0 w1 : Z,
     WindowAttentionGlobal.build_index w0 w1 = WindowAttention.build_index w0 w1) /\
  (forall (W num_heads : Z) (qkv_bias : bool) (qk_scale : option Q) (ad pd : Q)
          (kwargs : Base) (input_shape q_shape : list Z),
     match
       WindowAttention.build
         (WindowAttention.init (PyInt W) num_heads qkv_bias qk_scale ad pd kwargs)
         input_shape,
       WindowAttentionGlobal.build
         (WindowAttentionGlobal.init (PyInt W) num_heads qkv_bias qk_scale ad pd kwargs)
         (input_shape, q_shape)
     with
     | Ok l, Ok g =>
         WindowAttention.relative_position_index l
         = WindowAttentionGlobal.relative_position_index g /\
         weight_shape (WindowAttention.relative_position_bias_table l)
         = [(2 * W - 1) * (2 * W - 1); num_heads] /\
         weight_shape (WindowAttentionGlobal.relative_position_bias_table g)
         = [(2 * W - 1) * (2 * W - 1); num_heads]
     | Err e, Err e' => e = e'
     | _, _ => False
     end).
Proof.
  split; [exact build_index_copies | exact builds_agree].
Qed.

(** ** Configuration round trip *)

Lemma pair_neq_component (a b : pyobj) : PyPair a b <> a.
Proof.
  revert b; induction a as [n | x IHx y IHy]; intros b H.
  - discriminate.
  - injection H as Hx _. exact (IHx _ Hx).
Qed.

(** C3.  A layer rebuilt from [get_config] keeps [num_heads], [qkv_bias],
    [qk_scale], [attn_dropout], [proj_dropout] and the base-class entries,
    but not [window_size]: [__init__] stores the pair of its argument with
    itself, [get_config] returns that pair, and [__init__] pairs it again.
    This holds for both attention layers and every constructor argument. *)
Theorem config_round_trip_window_size
  (ws : pyobj) (num_heads : Z) (qkv_bias : bool) (qk_scale : option Q)
  (ad pd : Q) (kwargs : Base) :
  let a := WindowAttention.init ws num_heads qkv_bias qk_scale ad pd kwargs in
  let a' := WindowAttention.from_config (WindowAttention.get_config a) in
  let g := WindowAttentionGlobal.init ws num_heads qkv_bias qk_scale ad pd kwargs in
  let g' := WindowAttentionGlobal.from_config (WindowAttentionGlobal.get_config g) in
  (WindowAttention.window_size a = PyPair ws ws /\
   WindowAttention.window_size a' = PyPair (PyPair ws ws) (PyPair ws ws) /\
   WindowAttention.window_size a' <> WindowAttention.window_size a /\
   WindowAttention.num_heads a' = WindowAttention.num_heads a /\
   WindowAttention.qkv_bias a' = WindowAttention.qkv_bias a /\
   WindowAttention.qk_scale a' = WindowAttention.qk_scale a /\
   WindowAttention.attn_dropout a' = WindowAttention.attn_dropout a /\
   WindowAttention.proj_dropout a' = WindowAttention.proj_dropout a /\
   WindowAttention.base a' = WindowAttention.base a) /\
  (WindowAttentionGlobal.window_size g = PyPair ws ws /\
   WindowAttentionGlobal.window_size g' = PyPair (PyPair ws ws) (PyPair ws ws) /\
   WindowAttentionGlobal.window_size g' <> WindowAttentionGlobal.window_size g /\
   WindowAttentionGlobal.num_heads g' = WindowAttentionGlobal.num_heads g /\
   WindowAttentionGlobal.qkv_bias g' = WindowAttentionGlobal.qkv_bias g /\
   WindowAttentionGlobal.qk_scale g' = WindowAttentionGlobal.qk_scale g /\
   WindowAttentionGlobal.attn_dropout g' = WindowAttentionGlobal.attn_dropout g /\
   WindowAttentionGlobal.proj_dropout g' = WindowAttentionGlobal.proj_dropout g /\
   WindowAttentionGlobal.base g' = WindowAttentionGlobal.base g).
Proof.
  cbv zeta; split; cbn; repeat split; apply pair_neq_component.
Qed.

(** The rebuilt layer cannot be built: [2 * self.window_size[0] - 1] is
    applied to a tuple. *)
Lemma rebuilt_layer_build_fails :
  let a := WindowAttention.init (PyInt 7) 4 true None 0 0
             (mkBase "attn" true "float32") in
  WindowAttention.first_call a [2; 49; 32] = Ok [2; 49; 32] /\
  WindowAttention.build
    (WindowAttention.from_config (WindowAttention.get_config a)) [2; 49; 32]
  = Err TypeError.
Proof. split; vm_compute; reflexivity. Qed.

(** ** The scale *)

(** The scale [build] stores on a valid configuration: [qk_scale] when it is a non-zero number, [head_dim ** -0.5]
    when it is [None] and also when it is zero. *)
Lemma build_scale (W num_heads : Z) (qkv_bias : bool) (qk_scale : option Q)
  (ad pd : Q) (kwargs : Base) (B_ N C : Z) :
  0 <= W -> 1 <= num_heads <= C ->
  (0 <= ad <= 1)%Q -> (0 <= pd <= 1)%Q ->
  is_floating (layer_dtype kwargs) = true ->
  exists l,
    WindowAttention.build
      (WindowAttention.init (PyInt W) num_heads qkv_bias qk_scale ad pd kwargs)
      [B_; N; C] = Ok l /\
    WindowAttention.scale l
    = match qk_scale with
      | Some q => if Qeq_bool q 0 then InvSqrt (C / num_heads) else Given q
      | None => InvSqrt (C / num_heads)
      end.
Proof.
  intros HW Hh Had Hpd Hf.
  eexists; split; [apply window_attention_build_ok; assumption|].
  reflexivity.
Qed.

Lemma inv_sqrt_nonzero (head_dim : Z) :
  1 <= head_dim -> scale_denote (InvSqrt head_dim) <> 0%R.
Proof.
  intros H; cbn [scale_denote].
  apply Rinv_neq_0_compat.
  assert (0 < sqrt (IZR head_dim))%R; [|lra].
  apply sqrt_lt_R0, IZR_lt; lia.
Qed.

(** C6.  With [qk_scale = 0.0], 32 channels and 4 heads, [build] stores the
    scale [8 ** -0.5], which is not 0: a provided [qk_scale] of zero is not
    the scale applied to the queries. *)
Theorem qk_scale_zero_not_applied :
  exists l,
    WindowAttention.build
      (WindowAttention.init (PyInt 3) 4 true (Some 0%Q) 0 0
         (mkBase "attn" true "float32"))
      [2; 9; 32] = Ok l /\
    WindowAttention.scale l = InvSqrt 8 /\
    scale_denote (WindowAttention.scale l) <> Q2R 0.
Proof.
  eexists; split; [vm_compute; reflexivity|].
  cbn [WindowAttention.scale]; split; [reflexivity|].
  replace (Q2R 0) with 0%R by (unfold Q2R; cbn; lra).
  apply inv_sqrt_nonzero; lia.
Qed.

(** ** The patch-embedding stem *)

Section PatchEmbedFacts.

Variable T : Type.
Variable zero : T.
Variable conv2d : PatchEmbed.Conv2D -> PatchEmbed.tensor T -> result (PatchEmbed.tensor T).
Variable reduce_size :
  PatchEmbed.ReduceSize -> PatchEmbed.tensor T -> result (PatchEmbed.tensor T).

Lemma nth_repeat_in (A : Type) (a d : A) (n m : nat) :
  (n < m)%nat -> nth n (List.repeat a m) d = a.
Proof.
  revert n; induction m as [|m IH]; intros [|n] Hn; simpl; try lia; auto.
  apply IH; lia.
Qed.

(** Padding by one pixel adds two rows, and two pixels to every row, also
    where the image has no row or no column. *)
Lemma zero_pad_image_shape (img : list (list (list T))) (H W C : Z) :
  0 <= W -> 0 <= C ->
  Val.has_shape3 img H W C ->
  Val.has_shape3 (PatchEmbed.zero_pad_image zero 1 (Z.to_nat W) (Z.to_nat C) img)
                 (H + 2) (W + 2) C.
Proof.
  intros HW HC [Hlen Hrows]; unfold PatchEmbed.zero_pad_image.
  assert (Hpixel : Z.of_nat (length (List.repeat zero (Z.to_nat C))) = C)
    by (rewrite repeat_length; lia).
  assert (Hrow : forall n,
            Forall (fun s : list (list T) =>
                      Z.of_nat (length s) = W + 2 /\
                      Forall (fun v => Z.of_nat (length v) = C) s)
              (List.repeat
                 (List.repeat (List.repeat zero (Z.to_nat C))
                              (1 + Z.to_nat W + 1)) n)).
  { intros n; apply Forall_forall; intros r Hr.
    apply repeat_spec in Hr; subst r; split; [rewrite repeat_length; lia|].
    apply Forall_forall; intros v Hv.
    apply repeat_spec in Hv; subst v; exact Hpixel. }
  split.
  - rewrite !length_app, length_map, !repeat_length; lia.
  - apply Forall_app; split; [apply Hrow|].
    apply Forall_app; split; [|apply Hrow].
    apply Forall_map. eapply Forall_impl; [|exact Hrows].
    intros r [Hr Hv]; cbn beta; split.
    + rewrite !length_app, !repeat_length; lia.
    + apply Forall_app; split; [|apply Forall_app; split; [exact Hv|]];
        (apply Forall_forall; intros v Hin;
         apply repeat_spec in Hin; subst v; exact Hpixel).
Qed.

(** The pixels of the image are kept, one row down and one column right;
    every entry of the border is zero. *)
Lemma zero_pad_image_entry (img : list (list (list T))) (width channels : nat)
  (y x c : nat) (dflt : T) :
  Forall (fun r => length r = width) img ->
  (y < length img + 2)%nat -> (x < width + 2)%nat -> (c < channels)%nat ->
  nth c (nth x (nth y (PatchEmbed.zero_pad_image zero 1 width channels img) []) [])
      dflt
  = if ((1 <=? y) && (y <=? length img) && (1 <=? x) && (x <=? width))%nat
    then nth c (nth (x - 1) (nth (y - 1) img []) []) dflt
    else zero.
Proof.
  intros Hw Hy Hx Hc; unfold PatchEmbed.zero_pad_image.
  set (pixel := List.repeat zero channels).
  set (row := List.repeat pixel (1 + width + 1)).
  assert (Hzero : nth c pixel dflt = zero) by (apply nth_repeat_in; exact Hc).
  assert (Hborder : nth c (nth x row []) dflt = zero).
  { unfold row; rewrite nth_repeat_in by lia; exact Hzero. }
  cbn [List.repeat].
  destruct y as [|y]; [cbn [app nth Nat.leb andb]; exact Hborder|].
  cbn [app nth].
  replace (1 <=? S y)%nat with true by (symmetry; apply Nat.leb_le; lia).
  cbn [andb]; rewrite Nat.sub_succ, Nat.sub_0_r.
  destruct (Nat.leb_spec (S y) (length img)) as [Hin|Hout]; cbn [andb].
  - rewrite app_nth1 by (rewrite length_map; lia).
    rewrite (nth_map_lt _ _ [] []) by lia.
    assert (Hr : length (nth y img []) = width).
    { rewrite Forall_forall in Hw; apply Hw, nth_In; lia. }
    destruct x as [|x]; [cbn [app nth Nat.leb andb]; exact Hzero|].
    cbn [app nth].
    replace (1 <=? S x)%nat with true by (symmetry; apply Nat.leb_le; lia).
    cbn [andb]; rewrite Nat.sub_succ, Nat.sub_0_r.
    destruct (Nat.leb_spec (S x) width) as [Hxin|Hxout].
    + rewrite app_nth1 by lia; reflexivity.
    + rewrite app_nth2 by lia.
      replace (x - length (nth y img []))%nat with 0%nat by lia.
      exact Hzero.
  - rewrite app_nth2 by (rewrite length_map; lia).
    rewrite length_map.
    replace (y - length img)%nat with 0%nat by lia.
    exact Hborder.
Qed.

(** C8.  For every batch of images of shape [[B, H, W, C]],
    [PatchEmbed.call] on the layer [build] makes is the pipeline: pad by one
    pixel on each spatial edge, which gives a tensor of shape
    [[B, H + 2, W + 2, C]] whose entry [[b, y, x, c]] is the entry
    [[b, y - 1, x - 1, c]] of the input for [1 <= y <= H] and
    [1 <= x <= W], and zero on the border; convolve the padded tensor with
    [dim] filters, kernel size 3 and stride 2; pass the result of the
    convolution to the downsampling block (built with [keep_dim=True]); and
    return what that block returns. *)
Theorem patch_embed_pipeline
  (dim : Z) (kwargs : Base) (input_shape : list Z) (B H W C : Z)
  (px : list (list (list (list T)))) (dflt : T) :
  0 <= H -> 0 <= W -> 0 <= C -> Val.has_shape4 px B H W C ->
  let l := PatchEmbed.build (PatchEmbed.init dim kwargs) input_shape in
  let inputs := PatchEmbed.mkTensor [B; H; W; C] px in
  exists padded,
    PatchEmbed.zero_padding2d zero (PatchEmbed.mkZeroPadding2D 1) inputs
    = Ok (PatchEmbed.mkTensor [B; H + 2; W + 2; C] padded) /\
    Val.has_shape4 padded B (H + 2) (W + 2) C /\
    (forall b y x c,
       0 <= b < B -> 0 <= y < H + 2 -> 0 <= x < W + 2 -> 0 <= c < C ->
       Val.entry4 dflt padded b y x c
       = if (1 <=? y) && (y <=? H) && (1 <=? x) && (x <=? W)
         then Val.entry4 dflt px b (y - 1) (x - 1) c
         else zero) /\
    PatchEmbed.call zero conv2d reduce_size l inputs
    = match conv2d (PatchEmbed.mkConv2D dim 3 2 "proj")
              (PatchEmbed.mkTensor [B; H + 2; W + 2; C] padded) with
      | Ok x => reduce_size (PatchEmbed.mkReduceSize true "conv_down") x
      | Err e => Err e
      end.
Proof.
  intros HH HW HC [HB Himgs] l inputs.
  exists (map (PatchEmbed.zero_pad_image zero 1 (Z.to_nat W) (Z.to_nat C)) px).
  split; [|split; [|split]].
  - unfold PatchEmbed.zero_padding2d, inputs.
    cbn [PatchEmbed.dims PatchEmbed.pixels PatchEmbed.padding].
    reflexivity.
  - split; [rewrite length_map; exact HB|].
    apply Forall_map. eapply Forall_impl; [|exact Himgs].
    intros img Himg; cbn beta. apply zero_pad_image_shape; assumption.
  - intros b y x c Hb Hy Hx Hc; unfold Val.entry4.
    rewrite (nth_map_lt _ _ [] []) by lia.
    assert (Himg : Val.has_shape3 (nth (Z.to_nat b) px []) H W C).
    { rewrite Forall_forall in Himgs; apply Himgs, nth_In; lia. }
    destruct Himg as [Hlen Hrows].
    rewrite (@zero_pad_image_entry _ (Z.to_nat W) (Z.to_nat C)); try lia.
    + replace (1 <=? Z.to_nat y)%nat with (1 <=? y)
        by (destruct (Z.leb_spec 1 y), (Nat.leb_spec 1 (Z.to_nat y)); lia).
      replace (Z.to_nat y <=? length (nth (Z.to_nat b) px []))%nat with (y <=? H)
        by (destruct (Z.leb_spec y H),
              (Nat.leb_spec (Z.to_nat y) (length (nth (Z.to_nat b) px []))); lia).
      replace (1 <=? Z.to_nat x)%nat with (1 <=? x)
        by (destruct (Z.leb_spec 1 x), (Nat.leb_spec 1 (Z.to_nat x)); lia).
      replace (Z.to_nat x <=? Z.to_nat W)%nat with (x <=? W)
        by (destruct (Z.leb_spec x W), (Nat.leb_spec (Z.to_nat x) (Z.to_nat W)); lia).
      destruct ((1 <=? y) && (y <=? H) && (1 <=? x) && (x <=? W)) eqn:Hin;
        [|reflexivity].
      rewrite !andb_true_iff, !Z.leb_le in Hin.
      replace (Z.to_nat (y - 1)) with (Z.to_nat y - 1)%nat by lia.
      replace (Z.to_nat (x - 1)) with (Z.to_nat x - 1)%nat by lia.
      reflexivity.
    + eapply Forall_impl; [|exact Hrows]. intros r [Hr _]; lia.
  - unfold PatchEmbed.call, PatchEmbed.zero_padding2d, l, inputs,
      PatchEmbed.build, PatchEmbed.init.
    cbn [PatchEmbed.proj PatchEmbed.pad PatchEmbed.conv_down PatchEmbed.padding
         PatchEmbed.dim PatchEmbed.dims PatchEmbed.pixels bind].
    change (Z.of_nat 1) with 1.
    destruct (conv2d _ _) as [x|e]; cbn [bind]; [|reflexivity].
    destruct (reduce_size _ x); reflexivity.
Qed.

End PatchEmbedFacts.

Lemma patch_embed_pipeline_witness :
  let px := [[[[1; 2]; [3; 4]]]] in
  let conv2d := fun (_ : PatchEmbed.Conv2D) (x : PatchEmbed.tensor Z) => Ok x in
  let reduce_size :=
    fun (_ : PatchEmbed.ReduceSize) (x : PatchEmbed.tensor Z) => Ok x in
  let l := PatchEmbed.build (PatchEmbed.init 64 (mkBase "stem" true "float32"))
             [1; 1; 2; 2] in
  let inputs := PatchEmbed.mkTensor [1; 1; 2; 2] px in
  exists padded,
    PatchEmbed.zero_padding2d 0 (PatchEmbed.mkZeroPadding2D 1) inputs
    = Ok (PatchEmbed.mkTensor [1; 1 + 2; 2 + 2; 2] padded) /\
    Val.has_shape4 padded 1 (1 + 2) (2 + 2) 2 /\
    (forall b y x c,
       0 <= b < 1 -> 0 <= y < 1 + 2 -> 0 <= x < 2 + 2 -> 0 <= c < 2 ->
       Val.entry4 9 padded b y x c
       = if (1 <=? y) && (y <=? 1) && (1 <=? x) && (x <=? 2)
         then Val.entry4 9 px b (y - 1) (x - 1) c
         else 0) /\
    PatchEmbed.call 0 conv2d reduce_size l inputs
    = match conv2d (PatchEmbed.mkConv2D 64 3 2 "proj")
              (PatchEmbed.mkTensor [1; 1 + 2; 2 + 2; 2] padded) with
      | Ok x => reduce_size (PatchEmbed.mkReduceSize true "conv_down") x
      | Err e => Err e
      end.
Proof.
  intros px conv2d reduce_size.
  apply (@patch_embed_pipeline Z 0 conv2d reduce_size 64
           (mkBase "stem" true "float32") [1; 1; 2; 2] 1 1 2 2 px 9); try lia.
  repeat (split || constructor).
Defined.

(** ** Shape rules *)

Lemma reshape_exact (s target : list Z) :
  Forall (fun d => 0 <= d) target ->
  Shape.reshape s target
  = if Shape.numel s =? Shape.numel target then Ok target
    else Err (ReshapeSizeError (Shape.numel s) (Shape.numel target)).
Proof.
  intros Hpos; unfold Shape.reshape.
  assert (Hall : forallb (fun d => -1 <=? d) target = true).
  { apply forallb_forall; intros d Hd.
    rewrite Forall_forall in Hpos; specialize (Hpos d Hd).
    apply Z.leb_le; lia. }
  assert (Hfil : filter (fun d => d =? -1) target = []).
  { clear Hall; induction Hpos as [|d t Hd _ IH]; cbn; [reflexivity|].
    replace (d =? -1) with false by (symmetry; apply Z.eqb_neq; lia).
    exact IH. }
  rewrite Hall, Hfil; reflexivity.
Qed.

(** What a successful [WindowAttention.build] has checked and made. *)
Lemma window_attention_build_inv (W num_heads : Z) (qkv_bias : bool)
  (qk_scale : option Q) (ad pd : Q) (kwargs : Base) (B_ N C : Z)
  (l : WindowAttention.built) :
  WindowAttention.build
    (WindowAttention.init (PyInt W) num_heads qkv_bias qk_scale ad pd kwargs)
    [B_; N; C] = Ok l ->
  1 <= num_heads /\ 0 <= C /\
  WindowAttention.self l
  = WindowAttention.init (PyInt W) num_heads qkv_bias qk_scale ad pd kwargs /\
  WindowAttention.qkv l = mkDense (C * 3) qkv_bias "qkv" /\
  WindowAttention.proj l = mkDense C true "proj".
Proof.
  unfold WindowAttention.build, WindowAttention.init; cbn [shape_last rev app bind
    WindowAttention.num_heads WindowAttention.qk_scale WindowAttention.qkv_bias
    WindowAttention.window_size WindowAttention.attn_dropout
    WindowAttention.proj_dropout py_getitem py_int].
  unfold py_floordiv.
  destruct (Z.eqb_spec num_heads 0) as [|Hh0]; cbn [bind]; [discriminate|].
  destruct (py_or_scale qk_scale _) as [sc|e]; cbn [bind]; [|discriminate].
  unfold new_dense, add_weight.
  destruct (Z.ltb_spec (C * 3) 0); cbn [bind]; [discriminate|].
  cbn [forallb].
  destruct (Z.leb_spec 0 ((2 * W - 1) * (2 * W - 1))); cbn [andb bind];
    [|discriminate].
  destruct (Z.leb_spec 0 num_heads); cbn [andb bind]; [|discriminate].
  destruct (is_floating _); cbn [bind]; [|discriminate].
  destruct (WindowAttention.build_index W W) as [index|e]; cbn [bind]; [|discriminate].
  destruct (new_dropout ad _) as [da|e]; cbn [bind]; [|discriminate].
  destruct (Z.ltb_spec C 0); cbn [bind]; [discriminate|].
  destruct (new_dropout pd _) as [dp|e]; cbn [bind]; [|discriminate].
  intros Hl; injection Hl as <-.
  cbn; repeat split; lia.
Qed.

(** The product of the head count and the floored head dimension misses
    the channel count exactly when the head count does not divide it. *)
Lemma floored_head_dim (C num_heads : Z) :
  1 <= num_heads -> ~ (num_heads | C) -> num_heads * (C / num_heads) <> C.
Proof.
  intros Hh Hnd Heq; apply Hnd.
  exists (C / num_heads); lia.
Qed.

(** [call] on a non-empty input whose channel count the head count does
    not divide stops at the reshape of the [qkv] projection. *)
Lemma window_attention_call_reshape_error (l : WindowAttention.built)
  (B_ N C : Z) (qkv_bias : bool) :
  1 <= B_ -> 1 <= N -> 0 <= C ->
  1 <= WindowAttention.num_heads (WindowAttention.self l) ->
  ~ (WindowAttention.num_heads (WindowAttention.self l) | C) ->
  WindowAttention.qkv l = mkDense (C * 3) qkv_bias "qkv" ->
  WindowAttention.call l [B_; N; C]
  = Err (ReshapeSizeError
           (Shape.numel [B_; N; C * 3])
           (Shape.numel [B_; N; 3; WindowAttention.num_heads (WindowAttention.self l);
                         C / WindowAttention.num_heads (WindowAttention.self l)])).
Proof.
  intros HB HN HC Hh Hnd Hqkv.
  set (h := WindowAttention.num_heads (WindowAttention.self l)) in *.
  unfold WindowAttention.call.
  rewrite Hqkv; unfold Shape.dense; cbn [rev app units bind].
  fold h. unfold Shape.floordiv.
  replace (h =? 0) with false by (symmetry; apply Z.eqb_neq; lia).
  cbn [bind].
  assert (Hd : 0 <= C / h) by (apply Z.div_pos; lia).
  rewrite reshape_exact by (repeat constructor; lia).
  pose proof (floored_head_dim Hh Hnd) as Hne.
  replace (Shape.numel [B_; N; C * 3] =? Shape.numel [B_; N; 3; h; C / h]) with false.
  - reflexivity.
  - symmetry; apply Z.eqb_neq; unfold Shape.numel; cbn [fold_right].
    intros Heq.
    assert (Heq' : (B_ * N) * (3 * C) = (B_ * N) * (3 * (h * (C / h)))) by lia.
    apply Z.mul_reg_l in Heq'; [lia | nia].
Qed.

(** ** Shape contracts of the first call *)

(** C2, as the code has it.  [build] does not compare the channel count
    with the head count: it floors [head_dim].  For every non-empty input
    (at least one window and one token) and every [num_heads] that does not
    divide the channel count [C], the first call of [WindowAttention]
    (build, then call) raises and returns no output; when [build] itself
    returns a layer, the exception is the size mismatch of the reshape of
    the [qkv] projection, [B_*N*3C] values against [B_*N*3*num_heads*(C //
    num_heads)]. *)
Theorem indivisible_channels_first_call_fails
  (W num_heads : Z) (qkv_bias : bool) (qk_scale : option Q) (ad pd : Q)
  (kwargs : Base) (B_ N C : Z) :
  1 <= B_ -> 1 <= N -> ~ (num_heads | C) ->
  let a := WindowAttention.init (PyInt W) num_heads qkv_bias qk_scale ad pd kwargs in
  exists e,
    WindowAttention.first_call a [B_; N; C] = Err e /\
    (forall l, WindowAttention.build a [B_; N; C] = Ok l ->
       e = ReshapeSizeError (B_ * (N * (C * 3 * 1)))
                            (B_ * (N * (3 * (num_heads * (C / num_heads * 1)))))).
Proof.
  intros HB HN Hnd a.
  unfold WindowAttention.first_call.
  destruct (WindowAttention.build a [B_; N; C]) as [l|e] eqn:Hb; cbn [bind].
  - destruct (window_attention_build_inv W num_heads qkv_bias qk_scale ad pd
                kwargs B_ N C Hb) as (Hh & HC & Hself & Hqkv & _).
    assert (Hnh : WindowAttention.num_heads (WindowAttention.self l) = num_heads)
      by (rewrite Hself; reflexivity).
    rewrite (@window_attention_call_reshape_error l B_ N C qkv_bias)
      by (rewrite ?Hnh; assumption).
    rewrite Hnh.
    eexists; split; [reflexivity|].
    intros l' Hl'; reflexivity.
  - exists e; split; [reflexivity|]. intros l' Hl'; discriminate.
Qed.

Lemma indivisible_channels_first_call_fails_witness :
  exists e,
    WindowAttention.first_call
      (WindowAttention.init (PyInt 3) 4 true None 0 0 (mkBase "attn" true "float32"))
      [2; 9; 30] = Err e /\
    (forall l,
       WindowAttention.build
         (WindowAttention.init (PyInt 3) 4 true None 0 0 (mkBase "attn" true "float32"))
         [2; 9; 30] = Ok l ->
       e = ReshapeSizeError (2 * (9 * (30 * 3 * 1)))
                            (2 * (9 * (3 * (4 * (30 / 4 * 1)))))).
Proof.
  apply (@indivisible_channels_first_call_fails 3 4 true None 0 0
           (mkBase "attn" true "float32") 2 9 30); try lia.
  intros [k Hk]; lia.
Defined.

(** C2, as stated, fails.  With 30 channels and 4 heads [build] raises
    nothing and stores the scale of the floored [head_dim = 7]; and on an
    empty batch, an input of shape [[0, 9, 30]], the call returns an
    output. *)
Lemma indivisible_channels_empty_batch :
  let a := WindowAttention.init (PyInt 3) 4 true None 0 0
             (mkBase "attn" true "float32") in
  ~ (4 | 30) /\
  (exists l, WindowAttention.build a [2; 9; 30] = Ok l /\
             WindowAttention.scale l = InvSqrt 7) /\
  WindowAttention.first_call a [0; 9; 30] = Ok [0; 9; 30].
Proof.
  cbv zeta; split; [intros [k Hk]; lia|].
  split; [eexists; split; vm_compute; reflexivity | vm_compute; reflexivity].
Qed.

(** What a successful [WindowAttentionGlobal.build] has checked and made. *)
Lemma window_attention_global_build_inv (W num_heads : Z) (qkv_bias : bool)
  (qk_scale : option Q) (ad pd : Q) (kwargs : Base) (B_ N C : Z)
  (q_shape : list Z) (l : WindowAttentionGlobal.built) :
  WindowAttentionGlobal.build
    (WindowAttentionGlobal.init (PyInt W) num_heads qkv_bias qk_scale ad pd kwargs)
    ([B_; N; C], q_shape) = Ok l ->
  1 <= num_heads /\ 0 <= C /\
  WindowAttentionGlobal.self l
  = WindowAttentionGlobal.init (PyInt W) num_heads qkv_bias qk_scale ad pd kwargs /\
  WindowAttentionGlobal.qkv l = mkDense (C * 2) qkv_bias "qkv" /\
  WindowAttentionGlobal.proj l = mkDense C true "proj".
Proof.
  unfold WindowAttentionGlobal.build, WindowAttentionGlobal.init;
    cbn [fst shape_last rev app bind
    WindowAttentionGlobal.num_heads WindowAttentionGlobal.qk_scale
    WindowAttentionGlobal.qkv_bias WindowAttentionGlobal.window_size
    WindowAttentionGlobal.attn_dropout WindowAttentionGlobal.proj_dropout
    py_getitem py_int].
  unfold py_floordiv.
  destruct (Z.eqb_spec num_heads 0) as [|Hh0]; cbn [bind]; [discriminate|].
  destruct (py_or_scale qk_scale _) as [sc|e]; cbn [bind]; [|discriminate].
  unfold new_dense, add_weight.
  destruct (Z.ltb_spec (C * 2) 0); cbn [bind]; [discriminate|].
  cbn [forallb].
  destruct (Z.leb_spec 0 ((2 * W - 1) * (2 * W - 1))); cbn [andb bind];
    [|discriminate].
  destruct (Z.leb_spec 0 num_heads); cbn [andb bind]; [|discriminate].
  destruct (is_floating _); cbn [bind]; [|discriminate].
  destruct (WindowAttentionGlobal.build_index W W) as [index|e]; cbn [bind]; [|discriminate].
  destruct (new_dropout ad _) as [da|e]; cbn [bind]; [|discriminate].
  destruct (Z.ltb_spec C 0); cbn [bind]; [discriminate|].
  destruct (new_dropout pd _) as [dp|e]; cbn [bind]; [|discriminate].
  intros Hl; injection Hl as <-.
  cbn; repeat split; lia.
Qed.

Lemma not_multiple_floor (B_ B : Z) :
  ~ (B | B_) -> B * (B_ / B) <> B_.
Proof.
  intros Hnd Heq; apply Hnd; exists (B_ / B); lia.
Qed.

(** [call] of the global variant when the batch of the window tokens is
    not a multiple of the batch of the global query, both tensors holding
    at least one token and one channel: no output. *)
Lemma window_attention_global_call_fails (l : WindowAttentionGlobal.built)
  (B_ B N C : Z) (qkv_bias : bool) :
  0 <= B_ -> 0 <= B -> 1 <= N -> 1 <= C ->
  1 <= WindowAttentionGlobal.num_heads (WindowAttentionGlobal.self l) ->
  ~ (B | B_) ->
  WindowAttentionGlobal.qkv l = mkDense (C * 2) qkv_bias "qkv" ->
  let h := WindowAttentionGlobal.num_heads (WindowAttentionGlobal.self l) in
  exists e,
    WindowAttentionGlobal.call l ([B_; N; C], [B; N; C]) = Err e /\
    ((h | C) -> 1 <= B ->
     e = ReshapeSizeError (Shape.numel [B * (B_ / B); N; C])
                          (Shape.numel [B_; N; h; C / h])).
Proof.
  intros HB_ HB HN HC Hh Hnd Hqkv h; fold h in Hh.
  assert (HB_pos : 1 <= B_).
  { destruct (Z.eq_dec B_ 0) as [->|]; [|lia].
    exfalso; apply Hnd; exists 0; lia. }
  assert (Hd : 0 <= C / h) by (apply Z.div_pos; lia).
  unfold WindowAttentionGlobal.call.
  cbn [bind].
  rewrite Hqkv; unfold Shape.dense; cbn [rev app units bind].
  fold h. unfold Shape.floordiv at 1.
  replace (h =? 0) with false by (symmetry; apply Z.eqb_neq; lia).
  cbn [bind].
  rewrite reshape_exact by (repeat constructor; lia).
  destruct (Z.eqb_spec (Shape.numel [B_; N; C * 2])
                       (Shape.numel [B_; N; 2; h; C / h])) as [Hkv|Hkv];
    cbn [bind].
  - (* the keys and values are split; the query does not fit *)
    assert (HhC : h * (C / h) = C).
    { unfold Shape.numel in Hkv; cbn [fold_right] in Hkv.
      assert (Heq' : (B_ * N) * (2 * C) = (B_ * N) * (2 * (h * (C / h)))) by lia.
      apply Z.mul_reg_l in Heq'; [lia | nia]. }
    unfold Shape.transpose at 1.
    cbn [length Shape.is_perm Nat.eqb seq forallb existsb andb orb map nth bind
         Shape.unstack].
    rewrite Z.eqb_refl; cbn [bind].
    unfold Shape.floordiv at 1.
    destruct (Z.eqb_spec B 0) as [HB0|HB0]; cbn [bind].
    + eexists; split; [reflexivity|]. intros _ HB1; lia.
    + assert (Hr : 0 <= B_ / B) by (apply Z.div_pos; lia).
      unfold Shape.repeat.
      replace (B_ / B <? 0) with false by (symmetry; apply Z.ltb_ge; lia).
      cbn [bind]. unfold Shape.floordiv at 1.
      replace (h =? 0) with false by (symmetry; apply Z.eqb_neq; lia).
      cbn [bind].
      rewrite reshape_exact by (repeat constructor; lia).
      pose proof (not_multiple_floor Hnd) as Hne.
      replace (Shape.numel [B * (B_ / B); N; C] =? Shape.numel [B_; N; h; C / h])
        with false.
      * cbn [bind]. eexists; split; [reflexivity|]. intros _ _; reflexivity.
      * symmetry; apply Z.eqb_neq; unfold Shape.numel; cbn [fold_right].
        intros Heq.
        assert (Heq' : (N * C) * (B * (B_ / B)) = (N * C) * B_) by nia.
        apply Z.mul_reg_l in Heq'; [lia | nia].
  - eexists; split; [reflexivity|].
    intros [k Hk] _. exfalso; apply Hkv.
    unfold Shape.numel; cbn [fold_right].
    replace (C / h) with k by (subst C; now rewrite Z.div_mul by lia).
    subst C; ring.
Qed.

(** C4, as the code has it.  For every call of [WindowAttentionGlobal]
    with window tokens of shape [[B_, N, C]] and a global query of shape
    [[B, N, C]] that hold at least one token and one channel, if [B_] is
    not an exact multiple of [B] the call raises and returns no output;
    when [num_heads] divides [C] and [B >= 1] the exception is the size
    mismatch of the reshape of the repeated query, [B*(B_//B)*N*C] values
    against [B_*N*num_heads*(C // num_heads)]. *)
Theorem batch_not_multiple_call_fails
  (W num_heads : Z) (qkv_bias : bool) (qk_scale : option Q) (ad pd : Q)
  (kwargs : Base) (B_ B N C : Z) :
  0 <= B_ -> 0 <= B -> 1 <= N -> 1 <= C -> ~ (B | B_) ->
  let a := WindowAttentionGlobal.init (PyInt W) num_heads qkv_bias qk_scale ad pd
             kwargs in
  exists e,
    WindowAttentionGlobal.first_call a ([B_; N; C], [B; N; C]) = Err e /\
    (forall l, WindowAttentionGlobal.build a ([B_; N; C], [B; N; C]) = Ok l ->
       (num_heads | C) -> 1 <= B ->
       e = ReshapeSizeError (B * (B_ / B) * (N * (C * 1)))
                            (B_ * (N * (num_heads * (C / num_heads * 1))))).
Proof.
  intros HB_ HB HN HC Hnd a.
  unfold WindowAttentionGlobal.first_call.
  destruct (WindowAttentionGlobal.build a ([B_; N; C], [B; N; C])) as [l|e] eqn:Hb;
    cbn [bind].
  - destruct (window_attention_global_build_inv W num_heads qkv_bias qk_scale ad pd
                kwargs B_ N C [B; N; C] Hb) as (Hh & _ & Hself & Hqkv & _).
    assert (Hnh : WindowAttentionGlobal.num_heads (WindowAttentionGlobal.self l)
                  = num_heads) by (rewrite Hself; reflexivity).
    destruct (@window_attention_global_call_fails l B_ B N C qkv_bias)
      as (e & He & Hkind); try assumption; try (rewrite Hnh; assumption).
    exists e; split; [exact He|].
    intros l' _ Hdiv HB1. rewrite Hnh in Hkind.
    exact (Hkind Hdiv HB1).
  - exists e; split; [reflexivity|]. intros l' Hl'; discriminate.
Qed.

Lemma batch_not_multiple_call_fails_witness :
  exists e,
    WindowAttentionGlobal.first_call
      (WindowAttentionGlobal.init (PyInt 3) 4 true None 0 0
         (mkBase "attn" true "float32"))
      ([4; 9; 32], [3; 9; 32]) = Err e /\
    (forall l,
       WindowAttentionGlobal.build
         (WindowAttentionGlobal.init (PyInt 3) 4 true None 0 0
            (mkBase "attn" true "float32"))
         ([4; 9; 32], [3; 9; 32]) = Ok l ->
       (4 | 32) -> 1 <= 3 ->
       e = ReshapeSizeError (3 * (4 / 3) * (9 * (32 * 1)))
                            (4 * (9 * (4 * (32 / 4 * 1))))).
Proof.
  apply (@batch_not_multiple_call_fails 3 4 true None 0 0
           (mkBase "attn" true "float32") 4 3 9 32); try lia.
  intros [k Hk]; lia.
Defined.

(** C4, as stated, fails on tensors without tokens: with a 1 x 1 window,
    window tokens of shape [[3, 0, 4]] and a global query of shape
    [[2, 0, 4]], 3 is not a multiple of 2 and the call returns an output. *)
Lemma batch_not_multiple_no_tokens :
  ~ (2 | 3) /\
  WindowAttentionGlobal.first_call
    (WindowAttentionGlobal.init (PyInt 1) 2 true None 0 0
       (mkBase "attn" true "float32"))
    ([3; 0; 4], [2; 0; 4]) = Ok [3; 0; 4].
Proof.
  split; [intros [k Hk]; lia | vm_compute; reflexivity].
Qed.

(** The layer [WindowAttentionGlobal.build] returns on the same
    configurations. *)
Lemma window_attention_global_build_ok (W num_heads : Z) (qkv_bias : bool)
  (qk_scale : option Q) (ad pd : Q) (kwargs : Base) (B_ N C : Z)
  (q_shape : list Z) :
  0 <= W -> 1 <= num_heads <= C ->
  (0 <= ad <= 1)%Q -> (0 <= pd <= 1)%Q ->
  is_floating (layer_dtype kwargs) = true ->
    WindowAttentionGlobal.build
      (WindowAttentionGlobal.init (PyInt W) num_heads qkv_bias qk_scale ad pd kwargs)
      ([B_; N; C], q_shape)
    = Ok (WindowAttentionGlobal.mkBuilt
            (WindowAttentionGlobal.init (PyInt W) num_heads qkv_bias qk_scale ad pd
               kwargs)
            (chosen_scale qk_scale (C / num_heads))
            (mkDense (C * 2) qkv_bias "qkv")
            (mkWeight "relative_position_bias_table"
                      [(2 * W - 1) * (2 * W - 1); num_heads] true
                      (layer_dtype kwargs))
            (index_matrix W W)
            (mkDropout ad "attn_drop")
            (mkDense C true "proj")
            (mkDropout pd "proj_drop")).
Proof.
  intros HW Hh Had Hpd Hf.
  pose proof (head_dim_pos Hh) as Hd.
  unfold WindowAttentionGlobal.build, WindowAttentionGlobal.init;
    cbn [fst shape_last rev app bind
    WindowAttentionGlobal.num_heads WindowAttentionGlobal.qk_scale
    WindowAttentionGlobal.qkv_bias WindowAttentionGlobal.window_size
    WindowAttentionGlobal.attn_dropout WindowAttentionGlobal.proj_dropout
    WindowAttentionGlobal.base py_getitem py_int].
  unfold py_floordiv.
  replace (num_heads =? 0) with false by (symmetry; apply Z.eqb_neq; lia).
  cbn [bind].
  rewrite py_or_scale_ok by lia.
  cbn [bind].
  unfold new_dense, add_weight.
  replace (C * 2 <? 0) with false by (symmetry; apply Z.ltb_ge; lia).
  replace (C <? 0) with false by (symmetry; apply Z.ltb_ge; lia).
  cbn [bind forallb].
  replace (0 <=? (2 * W - 1) * (2 * W - 1)) with true by (symmetry; apply Z.leb_le; nia).
  replace (0 <=? num_heads) with true by (symmetry; apply Z.leb_le; lia).
  rewrite Hf; cbn [andb bind].
  rewrite build_index_copies, build_index_ok by lia; cbn [bind].
  rewrite !new_dropout_ok by assumption; cbn [bind].
  reflexivity.
Qed.

(** ** The output shape on a valid input *)

Lemma find_none_forall {A : Type} (f : A -> bool) (l : list A) :
  Forall (fun x => f x = false) l -> find f l = None.
Proof.
  induction 1 as [|x l Hx _ IH]; cbn; [reflexivity | now rewrite Hx].
Qed.

(** Every entry of the index is a row of the bias table. *)
Lemma build_index_in_table (W : Z) :
  1 <= W ->
  Forall (fun i => 0 <= i < table_rows W) (concat (index_matrix W W)).
Proof.
  intros HW.
  assert (HWW : (Z.to_nat W * Z.to_nat W)%nat = Z.to_nat (W * W))
    by (rewrite Z2Nat.inj_mul; lia).
  rewrite index_matrix_cells.
  apply Forall_concat, Forall_map, Forall_forall; intros p Hp.
  apply Forall_map, Forall_forall; intros q Hq.
  apply in_seq in Hp, Hq.
  pose proof (@index_matrix_entry W (Z.of_nat p) (Z.of_nat q)) as He.
  unfold Tf.entry in He; rewrite index_matrix_cells, !Nat2Z.id in He.
  rewrite (nth_map_lt _ _ [] 0%nat) in He by (rewrite length_seq; lia).
  rewrite (nth_map_lt _ _ 0 0%nat) in He by (rewrite length_seq; lia).
  rewrite !seq_nth in He by lia; cbn [Nat.add] in He.
  rewrite He by lia.
  pose proof (@offset_index_range W (Z.of_nat p) (Z.of_nat q)); lia.
Qed.

Lemma broadcast_dim_refl (a : Z) : Shape.broadcast_dim a a = Some a.
Proof. unfold Shape.broadcast_dim; now rewrite Z.eqb_refl. Qed.

Lemma broadcast_dim_one_r (a : Z) : Shape.broadcast_dim a 1 = Some a.
Proof.
  unfold Shape.broadcast_dim. destruct (Z.eqb_spec a 1) as [->|]; reflexivity.
Qed.

Lemma matmul_same_batch (a b m k n : Z) :
  Shape.matmul [a; b; m; k] [a; b; k; n] = Ok [a; b; m; n].
Proof.
  unfold Shape.matmul; cbn [Shape.broadcast_dims].
  now rewrite !broadcast_dim_refl, Z.eqb_refl.
Qed.

(** The reshape of the gathered bias infers the number of heads. *)
Lemma reshape_infer_last (M num_heads : Z) :
  1 <= M -> 0 <= num_heads ->
  Shape.reshape [M * M; num_heads] [M; M; -1] = Ok [M; M; num_heads].
Proof.
  intros HM Hh.
  unfold Shape.reshape.
  cbn [forallb filter existsb].
  change (-1 <=? -1) with true; change (-1 =? -1) with true;
    change (-1 =? 0) with false; change (0 <? -1) with false.
  replace (-1 <=? M) with true by (symmetry; apply Z.leb_le; lia).
  replace (M =? -1) with false by (symmetry; apply Z.eqb_neq; lia).
  replace (M =? 0) with false by (symmetry; apply Z.eqb_neq; lia).
  replace (0 <? M) with true by (symmetry; apply Z.ltb_lt; lia).
  cbn [andb orb negb length map].
  unfold Shape.numel; cbn [fold_right].
  replace (M =? -1) with false by (symmetry; apply Z.eqb_neq; lia).
  change (-1 =? -1) with true; cbv iota.
  replace (M * M * (num_heads * 1) / (M * (M * 1))) with num_heads
    by (replace (M * M * (num_heads * 1)) with (num_heads * (M * (M * 1))) by ring;
        rewrite Z.div_mul; [reflexivity | nia]).
  replace (M * (M * 1) * num_heads =? M * M * (num_heads * 1)) with true
    by (symmetry; apply Z.eqb_eq; ring).
  replace (M * (M * (num_heads * 1)) =? M * M * (num_heads * 1)) with true
    by (symmetry; apply Z.eqb_eq; ring).
  reflexivity.
Qed.

(** Lines 57-60 of [call] (141-144 in the global variant) on the table and
    the index [build] makes: the bias has shape [[num_heads, W^2, W^2]]. *)
Lemma bias_pipeline (W num_heads : Z) :
  1 <= W -> 0 <= num_heads ->
  (rb <- Shape.gather [(2 * W - 1) * (2 * W - 1); num_heads]
           (concat (index_matrix W W)) ;;
   rb <- Shape.reshape rb [W * W; W * W; -1] ;;
   Shape.transpose rb [2; 0; 1]%nat)
  = Ok [num_heads; W * W; W * W].
Proof.
  intros HW Hh.
  unfold Shape.gather.
  rewrite find_none_forall.
  2:{ eapply Forall_impl; [|apply (build_index_in_table HW)].
      unfold table_rows; intros i Hi; cbn beta.
      replace (0 <=? i) with true by (symmetry; apply Z.leb_le; lia).
      replace (i <? (2 * W - 1) * (2 * W - 1)) with true
        by (symmetry; apply Z.ltb_lt; lia).
      reflexivity. }
  cbn [bind].
  rewrite (length_concat_uniform (c := Z.to_nat (W * W))).
  2:{ destruct (@index_matrix_shape W W) as [_ Hrows]; try lia.
      eapply Forall_impl; [|exact Hrows]. intros r Hr; cbn beta in *; lia. }
  rewrite index_matrix_length.
  set (M := W * W).
  assert (HM : 1 <= M) by (unfold M; nia).
  replace (Z.of_nat (Z.to_nat W * Z.to_nat W * Z.to_nat M)) with (M * M)
    by (unfold M; rewrite !Nat2Z.inj_mul, !Z2Nat.id; nia).
  rewrite reshape_infer_last by lia.
  reflexivity.
Qed.

(** X5.  On a valid input, with [N = W^2] tokens, a channel count the head
    count divides, dropout rates in [[0, 1]] and the dtype float32, the
    first call of [WindowAttention] returns a tensor of the shape of its
    input. *)
Lemma window_attention_output_shape
  (W num_heads : Z) (qkv_bias : bool) (qk_scale : option Q) (ad pd : Q)
  (kwargs : Base) (B_ C : Z) :
  1 <= W -> 0 <= B_ -> 1 <= C -> 1 <= num_heads -> (num_heads | C) ->
  (0 <= ad <= 1)%Q -> (0 <= pd <= 1)%Q ->
  layer_dtype kwargs = "float32"%string ->
  WindowAttention.first_call
    (WindowAttention.init (PyInt W) num_heads qkv_bias qk_scale ad pd kwargs)
    [B_; W * W; C] = Ok [B_; W * W; C].
Proof.
  intros HW HB HC Hh Hdiv Had Hpd Hdt.
  assert (Hle : 1 <= num_heads <= C).
  { split; [exact Hh|]. apply Z.divide_pos_le; [lia | exact Hdiv]. }
  unfold WindowAttention.first_call.
  rewrite window_attention_build_ok
    by (auto using float32_is_floating; lia); cbn [bind].
  assert (HhC : num_heads * (C / num_heads) = C).
  { destruct Hdiv as [k ->]. rewrite Z.div_mul by lia; ring. }
  set (N := W * W) in *.
  set (d := C / num_heads) in *.
  unfold WindowAttention.call, WindowAttention.bias_shape, WindowAttention.init.
  cbn [WindowAttention.qkv WindowAttention.self WindowAttention.num_heads
       WindowAttention.proj WindowAttention.window_size
       WindowAttention.relative_position_index
       WindowAttention.relative_position_bias_table weight_shape weight_dtype
       py_getitem py_int bind].
  rewrite Hdt.
  change (Shape.same_dtype Shape.default_dtype "float32") with (Ok tt).
  unfold Shape.dense at 1; cbn [rev app units bind].
  unfold Shape.floordiv.
  replace (num_heads =? 0) with false by (symmetry; apply Z.eqb_neq; lia).
  cbn [bind]. fold d.
  assert (Hd : 0 <= d) by (unfold d; apply Z.div_pos; lia).
  assert (HN : 1 <= N) by (unfold N; nia).
  rewrite reshape_exact by (repeat constructor; lia).
  replace (Shape.numel [B_; N; C * 3] =? Shape.numel [B_; N; 3; num_heads; d])
    with true
    by (symmetry; apply Z.eqb_eq; unfold Shape.numel; cbn [fold_right];
        rewrite <- HhC; ring).
  cbn [bind].
  unfold Shape.transpose at 1.
  cbn [length Shape.is_perm Nat.eqb seq forallb existsb andb orb map nth bind
       Shape.unstack Z.eqb Pos.eqb Shape.elementwise].
  unfold Shape.transpose at 1.
  cbn [length Shape.is_perm Nat.eqb seq forallb existsb andb orb map nth bind].
  rewrite matmul_same_batch; cbn [bind].
  fold N. rewrite bias_pipeline by lia.
  cbn [bind]. fold N.
  unfold Shape.add, Shape.newaxis; cbn [Shape.broadcast_dims].
  rewrite broadcast_dim_one_r, !broadcast_dim_refl.
  cbn [bind]. unfold Shape.elementwise.
  rewrite matmul_same_batch; cbn [bind].
  unfold Shape.transpose.
  cbn [length Shape.is_perm Nat.eqb seq forallb existsb andb orb map nth bind].
  rewrite reshape_exact by (repeat constructor; lia).
  replace (Shape.numel [B_; N; num_heads; d] =? Shape.numel [B_; N; C]) with true
    by (symmetry; apply Z.eqb_eq; unfold Shape.numel; cbn [fold_right];
        rewrite <- HhC; ring).
  cbn [bind].
  unfold Shape.dense; cbn [rev app units bind].
  reflexivity.
Qed.

(** The first call of [WindowAttentionGlobal] on a valid input pair: the
    product of the query, which has the dtype of the layer, with the keys,
    which are float32, decides. *)
Lemma window_attention_global_first_call
  (W num_heads : Z) (qkv_bias : bool) (qk_scale : option Q) (ad pd : Q)
  (kwargs : Base) (B num_windows C : Z) :
  1 <= W -> 1 <= B -> 0 <= num_windows -> 1 <= C -> 1 <= num_heads ->
  (num_heads | C) ->
  (0 <= ad <= 1)%Q -> (0 <= pd <= 1)%Q ->
  is_floating (layer_dtype kwargs) = true ->
  WindowAttentionGlobal.first_call
    (WindowAttentionGlobal.init (PyInt W) num_heads qkv_bias qk_scale ad pd kwargs)
    ([B * num_windows; W * W; C], [B; W * W; C])
  = (_ <- Shape.same_dtype (layer_dtype kwargs) Shape.default_dtype ;;
     Ok [B * num_windows; W * W; C]).
Proof.
  intros HW HB Hnw HC Hh Hdiv Had Hpd Hf.
  assert (Hle : 1 <= num_heads <= C).
  { split; [exact Hh|]. apply Z.divide_pos_le; [lia | exact Hdiv]. }
  unfold WindowAttentionGlobal.first_call.
  rewrite window_attention_global_build_ok by (auto; lia); cbn [bind].
  assert (HhC : num_heads * (C / num_heads) = C).
  { destruct Hdiv as [k ->]. rewrite Z.div_mul by lia; ring. }
  set (N := W * W) in *.
  set (d := C / num_heads) in *.
  set (B_ := B * num_windows) in *.
  assert (HB_ : 0 <= B_) by (unfold B_; nia).
  assert (Hrep : B_ / B = num_windows)
    by (unfold B_; rewrite Z.mul_comm, Z.div_mul; lia).
  unfold WindowAttentionGlobal.call, WindowAttentionGlobal.bias_shape,
    WindowAttentionGlobal.init.
  cbn [WindowAttentionGlobal.qkv WindowAttentionGlobal.self
       WindowAttentionGlobal.num_heads WindowAttentionGlobal.proj
       WindowAttentionGlobal.window_size
       WindowAttentionGlobal.relative_position_index
       WindowAttentionGlobal.relative_position_bias_table weight_shape weight_dtype
       WindowAttentionGlobal.base py_getitem py_int bind].
  unfold Shape.dense at 1; cbn [rev app units bind].
  unfold Shape.floordiv.
  replace (num_heads =? 0) with false by (symmetry; apply Z.eqb_neq; lia).
  replace (B =? 0) with false by (symmetry; apply Z.eqb_neq; lia).
  cbn [bind]. fold d. rewrite Hrep.
  assert (Hd : 0 <= d) by (unfold d; apply Z.div_pos; lia).
  assert (HN : 1 <= N) by (unfold N; nia).
  rewrite reshape_exact by (repeat constructor; lia).
  replace (Shape.numel [B_; N; C * 2] =? Shape.numel [B_; N; 2; num_heads; d])
    with true
    by (symmetry; apply Z.eqb_eq; unfold Shape.numel; cbn [fold_right];
        rewrite <- HhC; ring).
  cbn [bind].
  unfold Shape.transpose at 1.
  cbn [length Shape.is_perm Nat.eqb seq forallb existsb andb orb map nth bind
       Shape.unstack Z.eqb Pos.eqb].
  unfold Shape.repeat.
  replace (num_windows <? 0) with false by (symmetry; apply Z.ltb_ge; lia).
  cbn [bind]. fold B_.
  rewrite reshape_exact by (repeat constructor; lia).
  replace (Shape.numel [B_; N; C] =? Shape.numel [B_; N; num_heads; d]) with true
    by (symmetry; apply Z.eqb_eq; unfold Shape.numel; cbn [fold_right];
        rewrite <- HhC; ring).
  cbn [bind].
  unfold Shape.transpose at 1.
  cbn [length Shape.is_perm Nat.eqb seq forallb existsb andb orb map nth bind].
  unfold Shape.transpose at 1.
  cbn [length Shape.is_perm Nat.eqb seq forallb existsb andb orb map nth bind].
  unfold Shape.elementwise.
  destruct (Shape.same_dtype (layer_dtype kwargs) Shape.default_dtype) as [[]|e];
    cbn [bind]; [|reflexivity].
  rewrite matmul_same_batch; cbn [bind].
  fold N. rewrite bias_pipeline by lia.
  cbn [bind]. fold N.
  unfold Shape.same_dtype at 1; rewrite String.eqb_refl; cbn [bind].
  unfold Shape.add, Shape.newaxis; cbn [Shape.broadcast_dims].
  rewrite broadcast_dim_one_r, !broadcast_dim_refl.
  cbn [bind].
  rewrite matmul_same_batch; cbn [bind].
  unfold Shape.transpose.
  cbn [length Shape.is_perm Nat.eqb seq forallb existsb andb orb map nth bind].
  rewrite reshape_exact by (repeat constructor; lia).
  replace (Shape.numel [B_; N; num_heads; d] =? Shape.numel [B_; N; C]) with true
    by (symmetry; apply Z.eqb_eq; unfold Shape.numel; cbn [fold_right];
        rewrite <- HhC; ring).
  cbn [bind].
  unfold Shape.dense; cbn [rev app units bind].
  reflexivity.
Qed.

(** X6.  On a valid input pair, with [B_ = B * num_windows], [N = W^2]
    tokens, a channel count the head count divides, dropout rates in
    [[0, 1]] and the dtype float32, the first call of
    [WindowAttentionGlobal] returns a tensor of the shape of the window
    tokens. *)
Theorem window_attention_global_output_shape
  (W num_heads : Z) (qkv_bias : bool) (qk_scale : option Q) (ad pd : Q)
  (kwargs : Base) (B num_windows C : Z) :
  1 <= W -> 1 <= B -> 0 <= num_windows -> 1 <= C -> 1 <= num_heads ->
  (num_heads | C) ->
  (0 <= ad <= 1)%Q -> (0 <= pd <= 1)%Q ->
  layer_dtype kwargs = "float32"%string ->
  WindowAttentionGlobal.first_call
    (WindowAttentionGlobal.init (PyInt W) num_heads qkv_bias qk_scale ad pd kwargs)
    ([B * num_windows; W * W; C], [B; W * W; C])
  = Ok [B * num_windows; W * W; C].
Proof.
  intros HW HB Hnw HC Hh Hdiv Had Hpd Hdt.
  rewrite window_attention_global_first_call
    by auto using float32_is_floating.
  rewrite Hdt; reflexivity.
Qed.

(** ** The query of the global variant, on values *)

Section QueryFacts.

Context {T : Type}.

Lemma concat_concat_map (l : list (list (list T))) :
  concat (concat l) = concat (map (@concat T) l).
Proof.
  induction l as [|x l IH]; cbn; [reflexivity|].
  now rewrite concat_app, IH.
Qed.

Lemma nth_repeat_axis0 {A : Type} (t : list A) (r : Z) (b w : Z) (d : A) :
  0 <= b < Z.of_nat (length t) -> 0 <= w < r ->
  nth (Z.to_nat (b * r + w)) (Val.repeat_axis0 t r) d = nth (Z.to_nat b) t d.
Proof.
  intros Hb Hw; unfold Val.repeat_axis0.
  rewrite flat_map_concat_map.
  set (c := Z.to_nat r).
  assert (Hc : (c <> 0)%nat) by (unfold c; lia).
  assert (Hidx : Z.to_nat (b * r + w) = (Z.to_nat b * c + Z.to_nat w)%nat)
    by (unfold c; nia).
  assert (Hwc : (Z.to_nat w < c)%nat) by (unfold c; lia).
  rewrite (nth_concat_uniform (c := c)).
  - rewrite Hidx.
    rewrite Nat.div_add_l, Nat.div_small, Nat.add_0_r by assumption.
    rewrite Nat.add_comm, Nat.Div0.mod_add, Nat.mod_small by assumption.
    rewrite (nth_map_lt _ _ [] d) by lia.
    apply nth_repeat_lt; exact Hwc.
  - apply Forall_map, Forall_forall; intros x _; apply repeat_length.
  - rewrite length_map, Hidx. nia.
Qed.

Lemma repeat_axis0_length {A : Type} (t : list A) (r : Z) :
  0 <= r -> Z.of_nat (length (Val.repeat_axis0 t r)) = Z.of_nat (length t) * r.
Proof.
  intros Hr; unfold Val.repeat_axis0.
  rewrite flat_map_concat_map, (length_concat_uniform (c := Z.to_nat r)).
  - rewrite length_map; lia.
  - apply Forall_map, Forall_forall; intros x _; apply repeat_length.
Qed.

Lemma repeat_axis0_Forall {A : Type} (P : A -> Prop) (t : list A) (r : Z) :
  Forall P t -> Forall P (Val.repeat_axis0 t r).
Proof.
  intros H; unfold Val.repeat_axis0.
  apply Forall_flat_map. eapply Forall_impl; [|exact H].
  intros x Hx; apply Forall_forall; intros y Hy.
  apply repeat_spec in Hy; now subst y.
Qed.

(** On a tensor of shape [[d0, d1, d2*d3]] the reshape to
    [[d0, d1, d2, d3]] cuts every token into [d2] pieces of length [d3]. *)
Lemma reshape4_tokens (t : list (list (list T))) (d0 d1 d2 d3 : Z) :
  0 <= d1 -> 0 <= d2 -> 0 <= d3 ->
  Val.has_shape3 t d0 d1 (d2 * d3) ->
  Val.reshape4 t d0 d1 d2 d3
  = Ok (map (map (Tf.take_rows (Z.to_nat d2) (Z.to_nat d3))) t).
Proof.
  intros H1 H2 H3 [Hlen Hall].
  assert (H0 : 0 <= d0) by lia.
  assert (Hsamples :
            Forall (fun s => length s = Z.to_nat (d1 * d2 * d3)) (map (@concat T) t)).
  { apply Forall_map. eapply Forall_impl; [|exact Hall].
    intros s [Hs Htok]; cbn beta.
    rewrite (length_concat_uniform (c := Z.to_nat (d2 * d3))).
    - nia.
    - eapply Forall_impl; [|exact Htok]. intros v Hv; cbn beta in *; lia. }
  unfold Val.reshape4, Val.flatten3.
  cbn [forallb].
  repeat match goal with
         | |- context [0 <=? ?d] =>
             replace (0 <=? d) with true by (symmetry; apply Z.leb_le; lia)
         end.
  cbn [andb negb].
  rewrite concat_concat_map.
  rewrite (length_concat_uniform Hsamples), length_map.
  replace (Z.of_nat (length t * Z.to_nat (d1 * d2 * d3)) =? d0 * d1 * d2 * d3)
    with true by (symmetry; apply Z.eqb_eq; nia).
  f_equal.
  replace (Z.to_nat d0) with (length (map (@concat T) t))
    by (rewrite length_map; lia).
  rewrite (take_rows_concat Hsamples), map_map.
  apply map_ext_in; intros s Hs.
  rewrite Forall_forall in Hall; destruct (Hall s Hs) as [Hsl Htok].
  replace (Z.to_nat d1) with (length s) by lia.
  rewrite (take_rows_concat (c := Z.to_nat (d2 * d3))); [reflexivity|].
  eapply Forall_impl; [|exact Htok]. intros v Hv; cbn beta in *; lia.
Qed.

(** On a tensor of shape [[d0, d1, d2*d3*d4]] the reshape to
    [[d0, d1, d2, d3, d4]] cuts every token into [d2] parts of [d3] pieces
    of length [d4]. *)
Lemma reshape5_tokens (t : list (list (list T))) (d0 d1 d2 d3 d4 : Z) :
  0 <= d1 -> 0 <= d2 -> 0 <= d3 -> 0 <= d4 ->
  Val.has_shape3 t d0 d1 (d2 * d3 * d4) ->
  Val.reshape5 t d0 d1 d2 d3 d4
  = Ok (map (map (fun token =>
                    map (Tf.take_rows (Z.to_nat d3) (Z.to_nat d4))
                        (Tf.take_rows (Z.to_nat d2) (Z.to_nat (d3 * d4)) token))) t).
Proof.
  intros H1 H2 H3 H4 [Hlen Hall].
  assert (H0 : 0 <= d0) by lia.
  assert (Hsamples :
            Forall (fun s => length s = Z.to_nat (d1 * d2 * d3 * d4))
                   (map (@concat T) t)).
  { apply Forall_map. eapply Forall_impl; [|exact Hall].
    intros s [Hs Htok]; cbn beta.
    rewrite (length_concat_uniform (c := Z.to_nat (d2 * d3 * d4))).
    - nia.
    - eapply Forall_impl; [|exact Htok]. intros v Hv; cbn beta in *; lia. }
  unfold Val.reshape5, Val.flatten3.
  cbn [forallb].
  repeat match goal with
         | |- context [0 <=? ?d] =>
             replace (0 <=? d) with true by (symmetry; apply Z.leb_le; lia)
         end.
  cbn [andb negb].
  rewrite concat_concat_map.
  rewrite (length_concat_uniform Hsamples), length_map.
  replace (Z.of_nat (length t * Z.to_nat (d1 * d2 * d3 * d4))
           =? d0 * d1 * d2 * d3 * d4)
    with true by (symmetry; apply Z.eqb_eq; nia).
  f_equal.
  replace (Z.to_nat d0) with (length (map (@concat T) t))
    by (rewrite length_map; lia).
  rewrite (take_rows_concat Hsamples), map_map.
  apply map_ext_in; intros s Hs.
  rewrite Forall_forall in Hall; destruct (Hall s Hs) as [Hsl Htok].
  replace (Z.to_nat d1) with (length s) by lia.
  rewrite (take_rows_concat (c := Z.to_nat (d2 * d3 * d4))); [reflexivity|].
  eapply Forall_impl; [|exact Htok]. intros v Hv; cbn beta in *; lia.
Qed.

(** Piece [hh] of part [c] of a token cut into 2 parts of [h] pieces of
    length [d]. *)
Lemma kv_split_entry (h d : nat) (y : list T) (c hh j : nat) (dflt : T) :
  (c < 2)%nat -> (hh < h)%nat -> (j < d)%nat ->
  nth j (nth hh (nth c (map (Tf.take_rows h d) (Tf.take_rows 2 (h * d) y)) []) [])
      dflt
  = nth (c * (h * d) + hh * d + j) y dflt.
Proof.
  intros Hc Hhh Hj.
  rewrite (nth_map_lt _ _ [] []) by (rewrite take_rows_length; lia).
  rewrite take_rows_nth by lia.
  rewrite take_rows_nth by nia.
  f_equal; lia.
Qed.

Lemma kv_split_length (h d : nat) (y : list T) (c hh : nat) :
  length y = (2 * (h * d))%nat -> (c < 2)%nat -> (hh < h)%nat ->
  length (nth hh (nth c (map (Tf.take_rows h d) (Tf.take_rows 2 (h * d) y)) []) [])
  = d.
Proof.
  intros Hy Hc Hhh.
  rewrite (nth_map_lt _ _ [] []) by (rewrite take_rows_length; lia).
  pose proof (take_rows_Forall_length 2 (h * d) y Hy) as Hparts.
  rewrite Forall_forall in Hparts.
  assert (Hpart : length (nth c (Tf.take_rows 2 (h * d) y) []) = (h * d)%nat)
    by (apply Hparts, nth_In; rewrite take_rows_length; lia).
  pose proof (take_rows_Forall_length h d _ Hpart) as Hpieces.
  rewrite Forall_forall in Hpieces.
  apply Hpieces, nth_In; rewrite take_rows_length; lia.
Qed.

(** Lines 132-135 of [WindowAttentionGlobal.call] on values: keys and
    values have shape [[B_, num_heads, N, head_dim]]; head [hh] of the keys
    holds the channels [hh*d .. hh*d + d - 1] of the projection of the
    token, head [hh] of the values the channels [C + hh*d ..]. *)
Lemma call_kv_entries (dense : Dense -> list T -> list T)
  (l : WindowAttentionGlobal.built) (B_ N C : Z)
  (inputs : list (list (list T))) (dflt : T) :
  let h := WindowAttentionGlobal.num_heads (WindowAttentionGlobal.self l) in
  0 <= N -> 1 <= h -> (h | C) -> 0 <= C ->
  (forall x, Z.of_nat (length (dense (WindowAttentionGlobal.qkv l) x)) = 2 * C) ->
  Val.has_shape3 inputs B_ N C ->
  exists k v,
    WindowAttentionGlobal.call_kv dense l [B_; N; C] inputs = Ok (k, v) /\
    Val.has_shape4 k B_ h N (C / h) /\
    Val.has_shape4 v B_ h N (C / h) /\
    forall b hh n j,
      0 <= b < B_ -> 0 <= hh < h -> 0 <= n < N -> 0 <= j < C / h ->
      Val.entry4 dflt k b hh n j
      = nth (Z.to_nat (hh * (C / h) + j))
            (dense (WindowAttentionGlobal.qkv l)
                   (nth (Z.to_nat n) (nth (Z.to_nat b) inputs []) [])) dflt /\
      Val.entry4 dflt v b hh n j
      = nth (Z.to_nat (C + hh * (C / h) + j))
            (dense (WindowAttentionGlobal.qkv l)
                   (nth (Z.to_nat n) (nth (Z.to_nat b) inputs []) [])) dflt.
Proof.
  intros h HN Hh Hdiv HC Hdense [HB Hshape].
  assert (HhC : h * (C / h) = C).
  { destruct Hdiv as [k ->]. rewrite Z.div_mul by lia; ring. }
  assert (Hd : 0 <= C / h) by (apply Z.div_pos; lia).
  set (d := C / h) in *.
  assert (Hhd : Z.to_nat (h * d) = (Z.to_nat h * Z.to_nat d)%nat)
    by (apply Z2Nat.inj_mul; lia).
  unfold WindowAttentionGlobal.call_kv.
  fold h. unfold Shape.floordiv.
  replace (h =? 0) with false by (symmetry; apply Z.eqb_neq; lia).
  cbn [bind]. fold d.
  rewrite reshape5_tokens; try lia.
  2:{ split; [rewrite length_map; exact HB|].
      apply Forall_map. eapply Forall_impl; [|exact Hshape].
      intros s [Hs _]; cbn beta. split; [rewrite length_map; exact Hs|].
      apply Forall_map, Forall_forall; intros x _.
      rewrite Hdense; lia. }
  cbn [bind]. rewrite !map_map.
  unfold Val.transpose_20314.
  change (Z.to_nat 2) with 2%nat.
  cbn [seq map].
  assert (Htoken : forall b n, (b < Z.to_nat B_)%nat -> (n < Z.to_nat N)%nat ->
            nth n (nth b
                   (map (fun x => map (fun token =>
                            map (Tf.take_rows (Z.to_nat h) (Z.to_nat d))
                                (Tf.take_rows 2 (Z.to_nat (h * d)) token))
                          (map (dense (WindowAttentionGlobal.qkv l)) x)) inputs) []) []
            = map (Tf.take_rows (Z.to_nat h) (Z.to_nat d))
                  (Tf.take_rows 2 (Z.to_nat h * Z.to_nat d)
                     (dense (WindowAttentionGlobal.qkv l)
                            (nth n (nth b inputs []) [])))).
  { intros b n Hb Hn.
    assert (Hlen : length (nth b inputs []) = Z.to_nat N).
    { rewrite Forall_forall in Hshape.
      destruct (Hshape (nth b inputs [])) as [Hs _]; [apply nth_In; lia | lia]. }
    rewrite (nth_map_lt _ _ [] []) by lia.
    rewrite map_map.
    rewrite (nth_map_lt _ _ [] []) by lia.
    now rewrite Hhd. }
  assert (Hy : forall x,
            length (dense (WindowAttentionGlobal.qkv l) x)
            = (2 * (Z.to_nat h * Z.to_nat d))%nat).
  { intros x. specialize (Hdense x). nia. }
  eexists; eexists; split; [reflexivity|].
  assert (Hshape_c : forall c, (c < 2)%nat ->
    Val.has_shape4
      (map (fun b => map (fun h0 => map (fun n =>
         nth h0 (nth c (nth n (nth b
           (map (fun x => map (fun token =>
                    map (Tf.take_rows (Z.to_nat h) (Z.to_nat d))
                        (Tf.take_rows 2 (Z.to_nat (h * d)) token))
                  (map (dense (WindowAttentionGlobal.qkv l)) x)) inputs) []) []) []) [])
         (seq 0 (Z.to_nat N))) (seq 0 (Z.to_nat h))) (seq 0 (Z.to_nat B_)))
      B_ h N d).
  { intros c Hc. split; [rewrite length_map, length_seq; lia|].
    apply Forall_map, Forall_forall; intros b Hb; apply in_seq in Hb.
    split; [rewrite length_map, length_seq; lia|].
    apply Forall_map, Forall_forall; intros hh Hhh; apply in_seq in Hhh.
    split; [rewrite length_map, length_seq; lia|].
    apply Forall_map, Forall_forall; intros n Hn; apply in_seq in Hn.
    rewrite Htoken by lia.
    rewrite kv_split_length; [lia | apply Hy | lia | lia]. }
  split; [apply Hshape_c; lia|].
  split; [apply Hshape_c; lia|].
  intros b hh n j Hb Hhh Hn Hj; unfold Val.entry4.
  split.
  - rewrite (nth_map_lt _ _ [] 0%nat) by (rewrite length_seq; lia).
    rewrite (nth_map_lt _ _ [] 0%nat) by (rewrite length_seq; lia).
    rewrite (nth_map_lt _ _ [] 0%nat) by (rewrite length_seq; lia).
    rewrite !seq_nth by lia; cbn [Nat.add].
    rewrite Htoken by lia.
    rewrite kv_split_entry by lia.
    f_equal; nia.
  - rewrite (nth_map_lt _ _ [] 0%nat) by (rewrite length_seq; lia).
    rewrite (nth_map_lt _ _ [] 0%nat) by (rewrite length_seq; lia).
    rewrite (nth_map_lt _ _ [] 0%nat) by (rewrite length_seq; lia).
    rewrite !seq_nth by lia; cbn [Nat.add].
    rewrite Htoken by lia.
    rewrite kv_split_entry by lia.
    f_equal; nia.
Qed.

End QueryFacts.

(** The query a built layer multiplies with the keys: the head view of each
    image of the global query, once per window of the image. *)
Lemma call_query_repeats {T : Type} (mul_scale : scale_value -> T -> T)
  (l : WindowAttentionGlobal.built) (B_ N C nw : Z)
  (q_global : list (list (list T))) :
  let B := Z.of_nat (length q_global) in
  let h := WindowAttentionGlobal.num_heads (WindowAttentionGlobal.self l) in
  1 <= B -> 0 <= nw -> B_ = B * nw -> 0 <= N -> 1 <= h -> (h | C) -> 0 <= C ->
  Val.has_shape3 q_global B N C ->
  WindowAttentionGlobal.call_query mul_scale l [B_; N; C] q_global
  = Ok (map (head_view (mul_scale (WindowAttentionGlobal.scale l)) h (C / h))
            (Val.repeat_axis0 q_global nw)).
Proof.
  intros B h HB Hnw HB_ HN Hh Hdiv HC [_ Hshape].
  unfold WindowAttentionGlobal.call_query.
  fold B h. unfold Shape.floordiv.
  replace (B =? 0) with false by (symmetry; apply Z.eqb_neq; lia).
  replace (h =? 0) with false by (symmetry; apply Z.eqb_neq; lia).
  cbn [bind].
  replace (B_ / B) with nw by (subst B_; rewrite Z.mul_comm, Z.div_mul; lia).
  assert (HhC : h * (C / h) = C).
  { destruct Hdiv as [k ->]. rewrite Z.div_mul by lia; ring. }
  assert (Hd : 0 <= C / h) by (apply Z.div_pos; lia).
  rewrite reshape4_tokens; try lia.
  - cbn [bind]. unfold Val.transpose_0213, Val.map4, head_view.
    rewrite !map_map. reflexivity.
  - split.
    + rewrite repeat_axis0_length by lia. fold B; lia.
    + apply repeat_axis0_Forall. rewrite HhC. exact Hshape.
Qed.

(** ** The query shared by the windows of an image *)

(** C5.  For every valid input pair of [WindowAttentionGlobal] with
    [B_ = B * num_windows] (window size at least 1, dropout rates in
    [[0, 1]], dtype float32, a head count that divides the channel count):
    [build] returns a layer whose [qkv] projection has width [2C]; the query
    that enters the product with the keys holds, at window [w] of image
    [b], the global query of image [b] (cut into heads and scaled), so the
    windows of one image share one query; keys and values are taken from
    the [qkv] projection of the window tokens only: channel [j] of head
    [hh] of the keys is channel [hh * head_dim + j] of the projection of
    the token, and the same channel of the values is channel
    [C + hh * head_dim + j]; and with [N = W^2] tokens the call returns a
    tensor of the shape of the window tokens. *)
Theorem global_query_shared {T : Type} (mul_scale : scale_value -> T -> T)
  (dense : Dense -> list T -> list T)
  (W num_heads : Z) (qkv_bias : bool) (qk_scale : option Q) (ad pd : Q)
  (kwargs : Base) (B_ N C num_windows : Z)
  (inputs q_global : list (list (list T))) (dflt : T) :
  let B := Z.of_nat (length q_global) in
  1 <= W -> (0 <= ad <= 1)%Q -> (0 <= pd <= 1)%Q ->
  layer_dtype kwargs = "float32"%string ->
  1 <= B -> 0 <= num_windows -> B_ = B * num_windows ->
  0 <= N -> 1 <= C -> 1 <= num_heads -> (num_heads | C) ->
  Val.has_shape3 inputs B_ N C ->
  Val.has_shape3 q_global B N C ->
  (forall d x, 0 <= units d -> Z.of_nat (length (dense d x)) = units d) ->
  exists l,
    WindowAttentionGlobal.build
      (WindowAttentionGlobal.init (PyInt W) num_heads qkv_bias qk_scale ad pd kwargs)
      ([B_; N; C], [B; N; C]) = Ok l /\
    WindowAttentionGlobal.qkv l = mkDense (C * 2) qkv_bias "qkv" /\
    (exists q,
       WindowAttentionGlobal.call_query mul_scale l [B_; N; C] q_global = Ok q /\
       Z.of_nat (length q) = B_ /\
       forall b w w',
         0 <= b < B -> 0 <= w < num_windows -> 0 <= w' < num_windows ->
         nth (Z.to_nat (b * num_windows + w)) q []
         = head_view (mul_scale (WindowAttentionGlobal.scale l)) num_heads
                     (C / num_heads) (nth (Z.to_nat b) q_global []) /\
         nth (Z.to_nat (b * num_windows + w)) q []
         = nth (Z.to_nat (b * num_windows + w')) q []) /\
    (exists k v,
       WindowAttentionGlobal.call_kv dense l [B_; N; C] inputs = Ok (k, v) /\
       Val.has_shape4 k B_ num_heads N (C / num_heads) /\
       Val.has_shape4 v B_ num_heads N (C / num_heads) /\
       forall b hh n j,
         0 <= b < B_ -> 0 <= hh < num_heads -> 0 <= n < N ->
         0 <= j < C / num_heads ->
         Val.entry4 dflt k b hh n j
         = nth (Z.to_nat (hh * (C / num_heads) + j))
               (dense (mkDense (C * 2) qkv_bias "qkv")
                      (nth (Z.to_nat n) (nth (Z.to_nat b) inputs []) [])) dflt /\
         Val.entry4 dflt v b hh n j
         = nth (Z.to_nat (C + hh * (C / num_heads) + j))
               (dense (mkDense (C * 2) qkv_bias "qkv")
                      (nth (Z.to_nat n) (nth (Z.to_nat b) inputs []) [])) dflt) /\
    (N = W * W ->
     WindowAttentionGlobal.call l ([B_; N; C], [B; N; C]) = Ok [B_; N; C]).
Proof.
  intros B HW Had Hpd Hdt HB Hnw HB_ HN HC Hh Hdiv Hinputs Hshape Hdense.
  assert (Hle : 1 <= num_heads <= C).
  { split; [exact Hh|]. apply Z.divide_pos_le; [lia | exact Hdiv]. }
  assert (Hf : is_floating (layer_dtype kwargs) = true)
    by (apply float32_is_floating; exact Hdt).
  assert (HW0 : 0 <= W) by lia.
  pose proof (@window_attention_global_build_ok W num_heads qkv_bias qk_scale ad pd
                kwargs B_ N C [B; N; C] HW0 Hle Had Hpd Hf) as Hbuild.
  eexists; split; [exact Hbuild|].
  match type of Hbuild with _ = Ok ?b => set (l := b) in * end.
  assert (Hnh : WindowAttentionGlobal.num_heads (WindowAttentionGlobal.self l)
                = num_heads) by reflexivity.
  split; [reflexivity|].
  split; [|split].
  - eexists; split.
    + apply call_query_repeats with (nw := num_windows); fold B;
        rewrite ?Hnh; try assumption; lia.
    + rewrite Hnh, length_map. split.
      * rewrite repeat_axis0_length by lia. fold B; lia.
      * assert (Hnth : forall b w, 0 <= b < B -> 0 <= w < num_windows ->
          nth (Z.to_nat (b * num_windows + w))
              (map (head_view (mul_scale (WindowAttentionGlobal.scale l)) num_heads
                              (C / num_heads))
                   (Val.repeat_axis0 q_global num_windows)) []
          = head_view (mul_scale (WindowAttentionGlobal.scale l)) num_heads
                      (C / num_heads) (nth (Z.to_nat b) q_global [])).
        { intros b w Hb' Hw.
          rewrite (nth_map_lt _ _ [] []).
          - now rewrite nth_repeat_axis0 by (fold B; lia).
          - assert (Hlen := repeat_axis0_length q_global Hnw). fold B in Hlen. nia. }
        intros b w w' Hb' Hw Hw'.
        rewrite !Hnth by assumption. split; reflexivity.
  - destruct (@call_kv_entries T dense l B_ N C inputs dflt)
      as (k & v & Hkv & Hk & Hv & Hentries);
      rewrite ?Hnh; try assumption; try lia.
    + intros x. change (WindowAttentionGlobal.qkv l)
        with (mkDense (C * 2) qkv_bias "qkv").
      rewrite Hdense; cbn [units]; lia.
    + exists k, v. rewrite Hnh in Hk, Hv, Hentries.
      split; [exact Hkv|]. split; [exact Hk|]. split; [exact Hv|].
      intros b hh n j Hb' Hhh Hn' Hj. exact (Hentries b hh n j Hb' Hhh Hn' Hj).
  - intros HNW.
    pose proof (@window_attention_global_first_call W num_heads qkv_bias qk_scale
                  ad pd kwargs B num_windows C HW HB Hnw HC Hh Hdiv Had Hpd Hf)
      as Hcall.
    unfold WindowAttentionGlobal.first_call in Hcall.
    rewrite <- HB_, <- HNW in Hcall.
    rewrite Hbuild, Hdt in Hcall. exact Hcall.
Qed.

Lemma global_query_shared_witness :
  let inputs := [[[1; 2; 3; 4]]; [[5; 6; 7; 8]]; [[9; 10; 11; 12]]; [[13; 14; 15; 16]]] in
  let q_global := [[[21; 22; 23; 24]]; [[31; 32; 33; 34]]] in
  let mul_scale := fun (_ : scale_value) (x : Z) => 10 * x in
  let dense := fun (d : Dense) (x : list Z) =>
                 map (fun i => 100 * i + nth 0 x 0) (Tf.iota (units d)) in
  exists l,
    WindowAttentionGlobal.build
      (WindowAttentionGlobal.init (PyInt 1) 2 true None 0 (1 # 10)
         (mkBase "attn" true "float32"))
      ([4; 1; 4], [2; 1; 4]) = Ok l /\
    WindowAttentionGlobal.qkv l = mkDense (4 * 2) true "qkv" /\
    (exists q,
       WindowAttentionGlobal.call_query mul_scale l [4; 1; 4] q_global = Ok q /\
       Z.of_nat (length q) = 4 /\
       forall b w w',
         0 <= b < 2 -> 0 <= w < 2 -> 0 <= w' < 2 ->
         nth (Z.to_nat (b * 2 + w)) q []
         = head_view (mul_scale (WindowAttentionGlobal.scale l)) 2 (4 / 2)
                     (nth (Z.to_nat b) q_global []) /\
         nth (Z.to_nat (b * 2 + w)) q [] = nth (Z.to_nat (b * 2 + w')) q []) /\
    (exists k v,
       WindowAttentionGlobal.call_kv dense l [4; 1; 4] inputs = Ok (k, v) /\
       Val.has_shape4 k 4 2 1 (4 / 2) /\
       Val.has_shape4 v 4 2 1 (4 / 2) /\
       forall b hh n j,
         0 <= b < 4 -> 0 <= hh < 2 -> 0 <= n < 1 -> 0 <= j < 4 / 2 ->
         Val.entry4 0 k b hh n j
         = nth (Z.to_nat (hh * (4 / 2) + j))
               (dense (mkDense (4 * 2) true "qkv")
                      (nth (Z.to_nat n) (nth (Z.to_nat b) inputs []) [])) 0 /\
         Val.entry4 0 v b hh n j
         = nth (Z.to_nat (4 + hh * (4 / 2) + j))
               (dense (mkDense (4 * 2) true "qkv")
                      (nth (Z.to_nat n) (nth (Z.to_nat b) inputs []) [])) 0) /\
    (1 = 1 * 1 ->
     WindowAttentionGlobal.call l ([4; 1; 4], [2; 1; 4]) = Ok [4; 1; 4]).
Proof.
  intros inputs q_global mul_scale dense.
  apply (@global_query_shared Z mul_scale dense 1 2 true None 0 (1 # 10)
           (mkBase "attn" true "float32") 4 1 4 2 inputs q_global 0).
  - lia.
  - split; unfold Qle; simpl; lia.
  - split; unfold Qle; simpl; lia.
  - reflexivity.
  - simpl; lia.
  - lia.
  - reflexivity.
  - lia.
  - lia.
  - lia.
  - exists 2; reflexivity.
  - split; [reflexivity|]. repeat constructor.
  - split; [reflexivity|]. repeat constructor.
  - intros d x Hd. unfold dense.
    rewrite length_map, iota_length. lia.
Defined.

(** * Further properties of the layers *)

(** ** The index as a numbering of offsets *)

(** X1.  The index construction returns for every window size [W >= 1],
    and two ordered pairs of window positions get the same row of the bias
    table exactly when they have the same offset, in rows and in
    columns. *)
Theorem index_equal_iff_same_offset (W i j i' j' : Z) :
  1 <= W ->
  0 <= i < W * W -> 0 <= j < W * W -> 0 <= i' < W * W -> 0 <= j' < W * W ->
  exists index,
    WindowAttention.build_index W W = Ok index /\
    (Tf.entry index i j = Tf.entry index i' j'
     <-> (i / W - j / W = i' / W - j' / W /\
          i mod W - j mod W = i' mod W - j' mod W)).
Proof.
  intros HW Hi Hj Hi' Hj'.
  exists (index_matrix W W); split; [apply build_index_ok; lia|].
  rewrite !index_matrix_entry by lia.
  unfold offset_index, row_of, col_of.
  assert (HW0 : 0 < W) by lia.
  pose proof (Z.mod_pos_bound i W HW0).
  pose proof (Z.mod_pos_bound j W HW0).
  pose proof (Z.mod_pos_bound i' W HW0).
  pose proof (Z.mod_pos_bound j' W HW0).
  split.
  - intros Heq.
    set (a := i / W - j / W + W - 1) in *.
    set (a' := i' / W - j' / W + W - 1) in *.
    set (b := i mod W - j mod W + W - 1) in *.
    set (b' := i' mod W - j' mod W + W - 1) in *.
    assert (Hb : 0 <= b < 2 * W - 1) by (unfold b; lia).
    assert (Hb' : 0 <= b' < 2 * W - 1) by (unfold b'; lia).
    assert (Ha : a = a') by nia.
    assert (Hbb : b = b') by nia.
    unfold a, a', b, b' in *; lia.
  - intros [Hr Hc]. rewrite Hr, Hc; reflexivity.
Qed.

Lemma index_equal_iff_same_offset_witness :
  exists index,
    WindowAttention.build_index 3 3 = Ok index /\
    (Tf.entry index 0 4 = Tf.entry index 4 8
     <-> (0 / 3 - 4 / 3 = 4 / 3 - 8 / 3 /\
          0 mod 3 - 4 mod 3 = 4 mod 3 - 8 mod 3)).
Proof.
  apply (@index_equal_iff_same_offset 3 0 4 4 8); lia.
Defined.

Lemma flat_position (W r c : Z) :
  0 <= r < W -> 0 <= c < W ->
  0 <= r * W + c < W * W /\ (r * W + c) / W = r /\ (r * W + c) mod W = c.
Proof.
  intros Hr Hc; repeat split; try nia.
  - rewrite Z.div_add_l, Z.div_small by lia; lia.
  - rewrite Z.add_comm, Z.mod_add, Z.mod_small by lia; reflexivity.
Qed.

(** X2.  The index construction returns for every window size [W >= 1],
    and every row of the bias table is the index of some ordered pair of
    window positions: no row of the table goes unused. *)
Theorem every_table_row_is_indexed (W k : Z) :
  1 <= W -> 0 <= k < (2 * W - 1) * (2 * W - 1) ->
  exists index,
    WindowAttention.build_index W W = Ok index /\
    exists i j, 0 <= i < W * W /\ 0 <= j < W * W /\ Tf.entry index i j = k.
Proof.
  intros HW Hk.
  exists (index_matrix W W); split; [apply build_index_ok; lia|].
  set (m := 2 * W - 1) in *.
  assert (Hm : 0 < m) by (unfold m; lia).
  pose proof (Z.mod_pos_bound k m Hm) as Hb.
  assert (Ha : 0 <= k / m < m)
    by (split; [apply Z.div_pos; lia | apply Z.div_lt_upper_bound; lia]).
  pose proof (Z.div_mod k m ltac:(lia)) as Hkm.
  set (dr := k / m - (W - 1)) in *.
  set (dc := k mod m - (W - 1)) in *.
  destruct (@flat_position W (Z.max dr 0) (Z.max dc 0)) as (Hi & Hir & Hic);
    try (unfold dr, dc, m in *; lia).
  destruct (@flat_position W (Z.max (- dr) 0) (Z.max (- dc) 0)) as (Hj & Hjr & Hjc);
    try (unfold dr, dc, m in *; lia).
  exists (Z.max dr 0 * W + Z.max dc 0), (Z.max (- dr) 0 * W + Z.max (- dc) 0).
  split; [exact Hi|]. split; [exact Hj|].
  rewrite index_matrix_entry by lia.
  unfold offset_index, row_of, col_of.
  rewrite Hir, Hic, Hjr, Hjc.
  replace (Z.max dr 0 - Z.max (- dr) 0) with dr by lia.
  replace (Z.max dc 0 - Z.max (- dc) 0) with dc by lia.
  unfold dr, dc. fold m. lia.
Qed.

Lemma every_table_row_is_indexed_witness :
  exists index,
    WindowAttention.build_index 3 3 = Ok index /\
    exists i j, 0 <= i < 3 * 3 /\ 0 <= j < 3 * 3 /\ Tf.entry index i j = 17.
Proof.
  apply (@every_table_row_is_indexed 3 17); lia.
Defined.

Lemma index_fits_int32_witness :
  exists index,
    WindowAttention.build_index 7 7 = Ok index /\
    0 <= Tf.entry index 48 0 < 2 ^ 31.
Proof.
  apply (@index_fits_int32 7 48 0); lia.
Defined.

(** X4.  On every layer [WindowAttention.build] returns for a window size
    [W >= 1], the gather of [call] reads only rows the bias table has, and
    the bias added to the attention logits has shape
    [[num_heads, W^2, W^2]]. *)
Theorem bias_shape_of_built_layer
  (W num_heads : Z) (qkv_bias : bool) (qk_scale : option Q) (ad pd : Q)
  (kwargs : Base) (input_shape : list Z) (l : WindowAttention.built) :
  1 <= W ->
  WindowAttention.build
    (WindowAttention.init (PyInt W) num_heads qkv_bias qk_scale ad pd kwargs)
    input_shape = Ok l ->
  WindowAttention.bias_shape l = Ok [num_heads; W * W; W * W].
Proof.
  intros HW Hb.
  assert (Hh : 0 <= num_heads /\
               WindowAttention.self l
               = WindowAttention.init (PyInt W) num_heads qkv_bias qk_scale ad pd
                   kwargs).
  { revert Hb. unfold WindowAttention.build, WindowAttention.init.
    cbn [WindowAttention.num_heads WindowAttention.qk_scale
         WindowAttention.qkv_bias WindowAttention.window_size
         WindowAttention.attn_dropout WindowAttention.proj_dropout
         WindowAttention.base].
    destruct (shape_last input_shape) as [dim|e]; cbn [bind]; [|discriminate].
    destruct (py_floordiv dim num_heads) as [hd|e]; cbn [bind]; [|discriminate].
    destruct (py_or_scale qk_scale (py_pow_neg_half hd)) as [sc|e]; cbn [bind];
      [|discriminate].
    destruct (new_dense (dim * 3) qkv_bias "qkv") as [d|e];
      cbn [bind py_getitem py_int]; [|discriminate].
    unfold add_weight; cbn [forallb].
    destruct (Z.leb_spec 0 ((2 * W - 1) * (2 * W - 1))); cbn [andb bind];
      [|discriminate].
    destruct (Z.leb_spec 0 num_heads); cbn [andb bind]; [|discriminate].
    destruct (is_floating _); cbn [bind]; [|discriminate].
    destruct (WindowAttention.build_index W W) as [index|e]; cbn [bind];
      [|discriminate].
    destruct (new_dropout ad _) as [da|e]; cbn [bind]; [|discriminate].
    destruct (new_dense dim true "proj") as [d'|e]; cbn [bind]; [|discriminate].
    destruct (new_dropout pd _) as [dp|e]; cbn [bind]; [|discriminate].
    intros Hl; injection Hl as <-. split; [lia | reflexivity]. }
  destruct Hh as [Hh Hself].
  destruct (window_attention_build_index W num_heads qkv_bias qk_scale ad pd
              kwargs input_shape Hb) as (Hidx & Htab & _).
  unfold WindowAttention.bias_shape.
  rewrite Hidx, Htab, Hself.
  unfold WindowAttention.init;
    cbn [WindowAttention.window_size py_getitem py_int bind].
  apply bias_pipeline; lia.
Qed.

Lemma bias_shape_of_built_layer_witness :
  WindowAttention.bias_shape
    (WindowAttention.mkBuilt
       (WindowAttention.init (PyInt 2) 4 true None 0 0 (mkBase "attn" true "float32"))
       (chosen_scale None (32 / 4))
       (mkDense (32 * 3) true "qkv")
       (mkWeight "relative_position_bias_table" [(2 * 2 - 1) * (2 * 2 - 1); 4] true
                 "float32")
       (index_matrix 2 2)
       (mkDropout 0 "attn_drop")
       (mkDense 32 true "proj")
       (mkDropout 0 "proj_drop"))
  = Ok [4; 2 * 2; 2 * 2].
Proof.
  apply (@bias_shape_of_built_layer 2 4 true None 0 0
           (mkBase "attn" true "float32") [8; 4; 32]); [lia|].
  apply (@window_attention_build_ok 2 4 true None 0 0
           (mkBase "attn" true "float32") 8 4 32); try lia;
    try (split; unfold Qle; simpl; lia).
Defined.

(** ** The token count a layer accepts *)

(** The first call of a validly configured [WindowAttention] on [N] tokens
    is decided by the dtype of the bias table, by the broadcast of [N] against [W^2] and by the product of
    the broadcast logits with the values. *)
Lemma window_attention_call_tokens
  (W num_heads : Z) (qkv_bias : bool) (qk_scale : option Q) (ad pd : Q)
  (kwargs : Base) (B_ N C : Z) :
  1 <= W -> 0 <= B_ -> 0 <= N -> 1 <= C -> 1 <= num_heads -> (num_heads | C) ->
  (0 <= ad <= 1)%Q -> (0 <= pd <= 1)%Q ->
  is_floating (layer_dtype kwargs) = true ->
  WindowAttention.first_call
    (WindowAttention.init (PyInt W) num_heads qkv_bias qk_scale ad pd kwargs)
    [B_; N; C]
  = (_ <- Shape.same_dtype Shape.default_dtype (layer_dtype kwargs) ;;
     match Shape.broadcast_dim N (W * W) with
     | Some n =>
         if n =? N then Ok [B_; N; C]
         else Err (MatMulError [B_; num_heads; n; n]
                               [B_; num_heads; N; C / num_heads])
     | None =>
         Err (BroadcastError [B_; num_heads; N; N] [1; num_heads; W * W; W * W])
     end).
Proof.
  intros HW HB HN HC Hh Hdiv Had Hpd Hf.
  assert (Hle : 1 <= num_heads <= C).
  { split; [exact Hh|]. apply Z.divide_pos_le; [lia | exact Hdiv]. }
  unfold WindowAttention.first_call.
  rewrite window_attention_build_ok by (auto; lia); cbn [bind].
  assert (HhC : num_heads * (C / num_heads) = C).
  { destruct Hdiv as [k ->]. rewrite Z.div_mul by lia; ring. }
  set (M := W * W) in *.
  set (d := C / num_heads) in *.
  unfold WindowAttention.call, WindowAttention.bias_shape, WindowAttention.init.
  cbn [WindowAttention.qkv WindowAttention.self WindowAttention.num_heads
       WindowAttention.proj WindowAttention.window_size
       WindowAttention.relative_position_index
       WindowAttention.relative_position_bias_table weight_shape weight_dtype
       py_getitem py_int bind].
  unfold Shape.dense at 1; cbn [rev app units bind].
  unfold Shape.floordiv.
  replace (num_heads =? 0) with false by (symmetry; apply Z.eqb_neq; lia).
  cbn [bind]. fold d.
  assert (Hd : 0 <= d) by (unfold d; apply Z.div_pos; lia).
  rewrite reshape_exact by (repeat constructor; lia).
  replace (Shape.numel [B_; N; C * 3] =? Shape.numel [B_; N; 3; num_heads; d])
    with true
    by (symmetry; apply Z.eqb_eq; unfold Shape.numel; cbn [fold_right];
        rewrite <- HhC; ring).
  cbn [bind].
  unfold Shape.transpose at 1.
  cbn [length Shape.is_perm Nat.eqb seq forallb existsb andb orb map nth bind
       Shape.unstack Z.eqb Pos.eqb].
  unfold Shape.transpose at 1.
  cbn [length Shape.is_perm Nat.eqb seq forallb existsb andb orb map nth bind].
  unfold Shape.elementwise.
  rewrite matmul_same_batch; cbn [bind].
  fold M. rewrite bias_pipeline by lia.
  cbn [bind]. fold M.
  destruct (Shape.same_dtype Shape.default_dtype (layer_dtype kwargs)) as [[]|e];
    cbn [bind]; [|reflexivity].
  unfold Shape.add, Shape.newaxis; cbn [Shape.broadcast_dims].
  rewrite broadcast_dim_one_r, !broadcast_dim_refl.
  destruct (Shape.broadcast_dim N M) as [n|]; cbn [bind]; [|reflexivity].
  unfold Shape.matmul; cbn [Shape.broadcast_dims].
  rewrite !broadcast_dim_refl.
  destruct (Z.eqb_spec n N) as [->|Hn]; cbn [app bind]; [|reflexivity].
  unfold Shape.transpose.
  cbn [length Shape.is_perm Nat.eqb seq forallb existsb andb orb map nth bind].
  rewrite reshape_exact by (repeat constructor; lia).
  replace (Shape.numel [B_; N; num_heads; d] =? Shape.numel [B_; N; C]) with true
    by (symmetry; apply Z.eqb_eq; unfold Shape.numel; cbn [fold_right];
        rewrite <- HhC; ring).
  cbn [bind].
  unfold Shape.dense; cbn [rev app units bind].
  reflexivity.
Qed.

(** X7.  A validly configured [WindowAttention] (dropout rates in
    [[0, 1]], dtype float32) with a window of [W >= 2] accepts no token
    count but [W^2]: on any other [N] the first call
    raises, in the addition of the bias to the logits or, for [N = 1]
    (where that addition broadcasts), in the product with the values. *)
Theorem wrong_token_count_raises
  (W num_heads : Z) (qkv_bias : bool) (qk_scale : option Q) (ad pd : Q)
  (kwargs : Base) (B_ N C : Z) :
  2 <= W -> 0 <= B_ -> 0 <= N -> 1 <= C -> 1 <= num_heads -> (num_heads | C) ->
  N <> W * W ->
  (0 <= ad <= 1)%Q -> (0 <= pd <= 1)%Q ->
  layer_dtype kwargs = "float32"%string ->
  WindowAttention.first_call
    (WindowAttention.init (PyInt W) num_heads qkv_bias qk_scale ad pd kwargs)
    [B_; N; C]
  = if N =? 1
    then Err (MatMulError [B_; num_heads; W * W; W * W]
                          [B_; num_heads; N; C / num_heads])
    else Err (BroadcastError [B_; num_heads; N; N] [1; num_heads; W * W; W * W]).
Proof.
  intros HW HB HN HC Hh Hdiv Hne Had Hpd Hdt.
  rewrite window_attention_call_tokens
    by (auto using float32_is_floating; lia).
  rewrite Hdt.
  change (Shape.same_dtype Shape.default_dtype "float32") with (Ok tt);
    cbn [bind].
  assert (HM : 4 <= W * W) by nia.
  unfold Shape.broadcast_dim.
  destruct (Z.eqb_spec N (W * W)) as [|_]; [contradiction|].
  destruct (Z.eqb_spec N 1) as [HN1|HN1].
  - destruct (Z.eqb_spec (W * W) N); [lia | reflexivity].
  - destruct (Z.eqb_spec (W * W) 1); [lia | reflexivity].
Qed.

Lemma wrong_token_count_raises_witness :
  WindowAttention.first_call
    (WindowAttention.init (PyInt 3) 4 true None 0 0 (mkBase "attn" true "float32"))
    [2; 8; 32]
  = if 8 =? 1
    then Err (MatMulError [2; 4; 3 * 3; 3 * 3] [2; 4; 8; 32 / 4])
    else Err (BroadcastError [2; 4; 8; 8] [1; 4; 3 * 3; 3 * 3]).
Proof.
  apply (@wrong_token_count_raises 3 4 true None 0 0
           (mkBase "attn" true "float32") 2 8 32); try lia;
    try (split; unfold Qle; simpl; lia); try reflexivity.
  exists 8; reflexivity.
Defined.

(** X8.  With a window of 1 x 1 the bias is a single value per head, which
    broadcasts: a validly configured [WindowAttention] (dropout rates in
    [[0, 1]], dtype float32) then accepts every
    token count and returns the shape of its input. *)
Theorem unit_window_accepts_any_token_count
  (num_heads : Z) (qkv_bias : bool) (qk_scale : option Q) (ad pd : Q)
  (kwargs : Base) (B_ N C : Z) :
  0 <= B_ -> 0 <= N -> 1 <= C -> 1 <= num_heads -> (num_heads | C) ->
  (0 <= ad <= 1)%Q -> (0 <= pd <= 1)%Q ->
  layer_dtype kwargs = "float32"%string ->
  WindowAttention.first_call
    (WindowAttention.init (PyInt 1) num_heads qkv_bias qk_scale ad pd kwargs)
    [B_; N; C]
  = Ok [B_; N; C].
Proof.
  intros HB HN HC Hh Hdiv Had Hpd Hdt.
  rewrite window_attention_call_tokens
    by (auto using float32_is_floating; lia).
  rewrite Hdt.
  change (Shape.same_dtype Shape.default_dtype "float32") with (Ok tt);
    cbn [bind].
  change (1 * 1) with 1. rewrite broadcast_dim_one_r, Z.eqb_refl. reflexivity.
Qed.

Lemma unit_window_accepts_any_token_count_witness :
  WindowAttention.first_call
    (WindowAttention.init (PyInt 1) 4 true None 0 0 (mkBase "attn" true "float32"))
    [2; 49; 32]
  = Ok [2; 49; 32].
Proof.
  apply (@unit_window_accepts_any_token_count 4 true None 0 0
           (mkBase "attn" true "float32") 2 49 32); try lia;
    try (split; unfold Qle; simpl; lia); try reflexivity.
  exists 8; reflexivity.
Defined.

Lemma window_attention_output_shape_witness :
  WindowAttention.first_call
    (WindowAttention.init (PyInt 3) 4 true None 0 0 (mkBase "attn" true "float32"))
    [2; 3 * 3; 32]
  = Ok [2; 3 * 3; 32].
Proof.
  apply (@window_attention_output_shape 3 4 true None 0 0
           (mkBase "attn" true "float32") 2 32); try lia;
    try (split; unfold Qle; simpl; lia); try reflexivity.
  exists 8; reflexivity.
Defined.

Lemma window_attention_global_output_shape_witness :
  WindowAttentionGlobal.first_call
    (WindowAttentionGlobal.init (PyInt 3) 4 true None 0 0
       (mkBase "attn" true "float32"))
    ([2 * 2; 3 * 3; 32], [2; 3 * 3; 32])
  = Ok [2 * 2; 3 * 3; 32].
Proof.
  apply (@window_attention_global_output_shape 3 4 true None 0 0
           (mkBase "attn" true "float32") 2 2 32); try lia;
    try (split; unfold Qle; simpl; lia); try reflexivity.
  exists 8; reflexivity.
Defined.

(** ** Layers of another dtype *)

(** X18.  A [WindowAttention] of a floating dtype other than float32 cannot
    be called: on every input its first call raises where the bias, which
    has the dtype of the layer, is added to the logits, which are float32
    because the [qkv] sub-layer is made without a dtype. *)
Theorem other_dtype_raises
  (W num_heads : Z) (qkv_bias : bool) (qk_scale : option Q) (ad pd : Q)
  (kwargs : Base) (B_ N C : Z) :
  1 <= W -> 0 <= B_ -> 0 <= N -> 1 <= C -> 1 <= num_heads -> (num_heads | C) ->
  (0 <= ad <= 1)%Q -> (0 <= pd <= 1)%Q ->
  is_floating (layer_dtype kwargs) = true ->
  layer_dtype kwargs <> "float32"%string ->
  WindowAttention.first_call
    (WindowAttention.init (PyInt W) num_heads qkv_bias qk_scale ad pd kwargs)
    [B_; N; C]
  = Err (DtypeError "float32" (layer_dtype kwargs)).
Proof.
  intros HW HB HN HC Hh Hdiv Had Hpd Hf Hdt.
  rewrite window_attention_call_tokens by (auto; lia).
  unfold Shape.same_dtype, Shape.default_dtype.
  destruct (String.eqb_spec "float32" (layer_dtype kwargs)) as [E|_];
    [congruence | reflexivity].
Qed.

Lemma other_dtype_raises_witness :
  WindowAttention.first_call
    (WindowAttention.init (PyInt 3) 4 true None 0 0 (mkBase "attn" true "float16"))
    [2; 9; 32]
  = Err (DtypeError "float32" (layer_dtype (mkBase "attn" true "float16"))).
Proof.
  apply (@other_dtype_raises 3 4 true None 0 0 (mkBase "attn" true "float16")
           2 9 32); try lia;
    try (split; unfold Qle; simpl; lia); try reflexivity.
  - exists 8; reflexivity.
  - discriminate.
Defined.

(** X19.  A [WindowAttentionGlobal] of a floating dtype other than float32
    cannot be called on a valid input pair: the query has the dtype of the
    layer, the keys are float32, and their product raises. *)
Theorem other_dtype_global_raises
  (W num_heads : Z) (qkv_bias : bool) (qk_scale : option Q) (ad pd : Q)
  (kwargs : Base) (B num_windows C : Z) :
  1 <= W -> 1 <= B -> 0 <= num_windows -> 1 <= C -> 1 <= num_heads ->
  (num_heads | C) ->
  (0 <= ad <= 1)%Q -> (0 <= pd <= 1)%Q ->
  is_floating (layer_dtype kwargs) = true ->
  layer_dtype kwargs <> "float32"%string ->
  WindowAttentionGlobal.first_call
    (WindowAttentionGlobal.init (PyInt W) num_heads qkv_bias qk_scale ad pd kwargs)
    ([B * num_windows; W * W; C], [B; W * W; C])
  = Err (DtypeError (layer_dtype kwargs) "float32").
Proof.
  intros HW HB Hnw HC Hh Hdiv Had Hpd Hf Hdt.
  rewrite window_attention_global_first_call by auto.
  unfold Shape.same_dtype, Shape.default_dtype.
  destruct (String.eqb_spec (layer_dtype kwargs) "float32") as [E|_];
    [congruence | reflexivity].
Qed.

Lemma other_dtype_global_raises_witness :
  WindowAttentionGlobal.first_call
    (WindowAttentionGlobal.init (PyInt 3) 4 true None 0 0
       (mkBase "attn" true "float64"))
    ([2 * 2; 3 * 3; 32], [2; 3 * 3; 32])
  = Err (DtypeError (layer_dtype (mkBase "attn" true "float64")) "float32").
Proof.
  apply (@other_dtype_global_raises 3 4 true None 0 0
           (mkBase "attn" true "float64") 2 2 32); try lia;
    try (split; unfold Qle; simpl; lia); try reflexivity.
  - exists 8; reflexivity.
  - discriminate.
Defined.

(** ** What [build] raises and stores *)

(** X9.  Both [build] methods raise [ZeroDivisionError] when [num_heads] is
    0 (in [dim // num_heads]) and when there are more heads than channels
    and no non-zero [qk_scale] is given ([head_dim] is then 0, and
    [0 ** -0.5] is evaluated). *)
Theorem build_zero_division
  (W num_heads : Z) (qkv_bias : bool) (qk_scale : option Q) (ad pd : Q)
  (kwargs : Base) (B_ N C : Z) (q_shape : list Z) :
  num_heads = 0 \/ (0 <= C < num_heads /\ py_truthy qk_scale = false) ->
  WindowAttention.build
    (WindowAttention.init (PyInt W) num_heads qkv_bias qk_scale ad pd kwargs)
    [B_; N; C] = Err ZeroDivisionError /\
  WindowAttentionGlobal.build
    (WindowAttentionGlobal.init (PyInt W) num_heads qkv_bias qk_scale ad pd kwargs)
    ([B_; N; C], q_shape) = Err ZeroDivisionError.
Proof.
  intros Hcase.
  unfold WindowAttention.build, WindowAttentionGlobal.build,
    WindowAttention.init, WindowAttentionGlobal.init.
  cbn [fst shape_last rev app bind
       WindowAttention.num_heads WindowAttention.qk_scale
       WindowAttentionGlobal.num_heads WindowAttentionGlobal.qk_scale].
  unfold py_floordiv.
  destruct Hcase as [-> | [HC Hfalsy]]; [split; reflexivity|].
  replace (num_heads =? 0) with false by (symmetry; apply Z.eqb_neq; lia).
  cbn [bind]. rewrite Z.div_small by lia.
  assert (Hs : py_or_scale qk_scale (py_pow_neg_half 0) = Err ZeroDivisionError).
  { unfold py_or_scale. destruct qk_scale as [q|]; [rewrite Hfalsy|]; reflexivity. }
  rewrite Hs; split; reflexivity.
Qed.

Lemma build_zero_division_witness :
  WindowAttention.build
    (WindowAttention.init (PyInt 3) 4 true None 0 0 (mkBase "attn" true "float32"))
    [2; 9; 3] = Err ZeroDivisionError /\
  WindowAttentionGlobal.build
    (WindowAttentionGlobal.init (PyInt 3) 4 true None 0 0
       (mkBase "attn" true "float32"))
    ([2; 9; 3], [1; 9; 3]) = Err ZeroDivisionError.
Proof.
  apply (@build_zero_division 3 4 true None 0 0 (mkBase "attn" true "float32")
           2 9 3 [1; 9; 3]).
  right; split; [lia | reflexivity].
Defined.

(** X10.  For a window size that is not negative, a head count between 1
    and the channel count, dropout rates in [[0, 1]] and the dtype float32,
    both [build] methods return a layer and store, as the scale of the queries, a given non-zero [qk_scale]
    itself, and [head_dim ** -0.5] with [head_dim = C // num_heads] when
    [qk_scale] is [None]. *)
Theorem scale_of_built_layers
  (W num_heads : Z) (qkv_bias : bool) (qk_scale : option Q) (ad pd : Q)
  (kwargs : Base) (B_ N C : Z) (q_shape : list Z) :
  0 <= W -> 1 <= num_heads <= C ->
  (0 <= ad <= 1)%Q -> (0 <= pd <= 1)%Q ->
  layer_dtype kwargs = "float32"%string ->
  exists l g,
    WindowAttention.build
      (WindowAttention.init (PyInt W) num_heads qkv_bias qk_scale ad pd kwargs)
      [B_; N; C] = Ok l /\
    WindowAttentionGlobal.build
      (WindowAttentionGlobal.init (PyInt W) num_heads qkv_bias qk_scale ad pd kwargs)
      ([B_; N; C], q_shape) = Ok g /\
    WindowAttention.scale l = WindowAttentionGlobal.scale g /\
    (forall q, qk_scale = Some q -> ~ (q == 0)%Q ->
       WindowAttention.scale l = Given q) /\
    (qk_scale = None -> WindowAttention.scale l = InvSqrt (C / num_heads)).
Proof.
  intros HW Hh Had Hpd Hdt.
  eexists; eexists.
  split; [apply window_attention_build_ok; auto using float32_is_floating|].
  split; [apply window_attention_global_build_ok; auto using float32_is_floating|].
  cbn [WindowAttention.scale WindowAttentionGlobal.scale].
  split; [reflexivity|]. split.
  - intros q -> Hq. unfold chosen_scale.
    destruct (Qeq_bool q 0) eqn:E; [|reflexivity].
    apply Qeq_bool_iff in E; contradiction.
  - intros ->; reflexivity.
Qed.

Lemma scale_of_built_layers_witness :
  exists l g,
    WindowAttention.build
      (WindowAttention.init (PyInt 3) 4 true (Some (1 # 4)%Q) 0 0
         (mkBase "attn" true "float32"))
      [2; 9; 32] = Ok l /\
    WindowAttentionGlobal.build
      (WindowAttentionGlobal.init (PyInt 3) 4 true (Some (1 # 4)%Q) 0 0
         (mkBase "attn" true "float32"))
      ([2; 9; 32], [1; 9; 32]) = Ok g /\
    WindowAttention.scale l = WindowAttentionGlobal.scale g /\
    (forall q, Some (1 # 4)%Q = Some q -> ~ (q == 0)%Q ->
       WindowAttention.scale l = Given q) /\
    (Some (1 # 4)%Q = None -> WindowAttention.scale l = InvSqrt (32 / 4)).
Proof.
  apply (@scale_of_built_layers 3 4 true (Some (1 # 4)%Q) 0 0
           (mkBase "attn" true "float32") 2 9 32 [1; 9; 32]); try lia;
    try (split; unfold Qle; simpl; lia); try reflexivity.
Defined.

(** X11.  A [WindowAttention] rebuilt from [get_config] can never be built:
    whatever the constructor arguments and the input shape, its [build]
    raises; and where the [build] of the original layer returns a layer,
    that of the rebuilt one raises [TypeError], at
    [2 * self.window_size[0] - 1] on a tuple. *)
Theorem rebuilt_layer_never_builds
  (ws : pyobj) (num_heads : Z) (qkv_bias : bool) (qk_scale : option Q)
  (ad pd : Q) (kwargs : Base) (input_shape : list Z) :
  let a := WindowAttention.init ws num_heads qkv_bias qk_scale ad pd kwargs in
  let a' := WindowAttention.from_config (WindowAttention.get_config a) in
  (exists e, WindowAttention.build a' input_shape = Err e) /\
  (forall l, WindowAttention.build a input_shape = Ok l ->
             WindowAttention.build a' input_shape = Err TypeError).
Proof.
  cbv zeta.
  unfold WindowAttention.from_config, WindowAttention.get_config,
    WindowAttention.build, WindowAttention.init.
  cbn [WindowAttention.num_heads WindowAttention.qk_scale
       WindowAttention.qkv_bias WindowAttention.window_size
       WindowAttention.attn_dropout WindowAttention.proj_dropout
       WindowAttention.base WindowAttention.cfg_window_size
       WindowAttention.cfg_num_heads WindowAttention.cfg_qkv_bias
       WindowAttention.cfg_qk_scale WindowAttention.cfg_attn_dropout
       WindowAttention.cfg_proj_dropout WindowAttention.cfg_base].
  destruct (shape_last input_shape) as [dim|e]; cbn [bind];
    [|split; [eexists; reflexivity | discriminate]].
  destruct (py_floordiv dim num_heads) as [hd|e]; cbn [bind];
    [|split; [eexists; reflexivity | discriminate]].
  destruct (py_or_scale qk_scale (py_pow_neg_half hd)) as [sc|e]; cbn [bind];
    [|split; [eexists; reflexivity | discriminate]].
  destruct (new_dense (dim * 3) qkv_bias "qkv") as [d|e]; cbn [bind];
    [|split; [eexists; reflexivity | discriminate]].
  cbn [py_getitem py_int bind].
  split; [eexists; reflexivity | intros; reflexivity].
Qed.

(** X12.  The global variant has the same reshape of its projection: for
    every non-empty batch of window tokens ([B_ >= 1], [N >= 1]) and every
    [num_heads] that does not divide [C], the first call of
    [WindowAttentionGlobal] raises; when [build] returns a layer, the
    exception is the size mismatch of the reshape of the key-value
    projection, [B_*N*2C] values against [B_*N*2*num_heads*(C //
    num_heads)]. *)
Theorem indivisible_channels_global_call_fails
  (W num_heads : Z) (qkv_bias : bool) (qk_scale : option Q) (ad pd : Q)
  (kwargs : Base) (B_ N C B : Z) (q_rest : list Z) :
  1 <= B_ -> 1 <= N -> ~ (num_heads | C) ->
  let a := WindowAttentionGlobal.init (PyInt W) num_heads qkv_bias qk_scale ad pd
             kwargs in
  exists e,
    WindowAttentionGlobal.first_call a ([B_; N; C], B :: q_rest) = Err e /\
    (forall l, WindowAttentionGlobal.build a ([B_; N; C], B :: q_rest) = Ok l ->
       e = ReshapeSizeError (B_ * (N * (C * 2 * 1)))
                            (B_ * (N * (2 * (num_heads * (C / num_heads * 1)))))).
Proof.
  intros HB HN Hnd a.
  unfold WindowAttentionGlobal.first_call.
  destruct (WindowAttentionGlobal.build a ([B_; N; C], B :: q_rest)) as [l|e] eqn:Hb;
    cbn [bind].
  - destruct (window_attention_global_build_inv W num_heads qkv_bias qk_scale ad pd
                kwargs B_ N C (B :: q_rest) Hb) as (Hh & HC & Hself & Hqkv & _).
    unfold WindowAttentionGlobal.call.
    rewrite Hqkv, Hself.
    unfold WindowAttentionGlobal.init; cbn [WindowAttentionGlobal.num_heads bind].
    unfold Shape.dense; cbn [rev app units bind].
    unfold Shape.floordiv at 1.
    replace (num_heads =? 0) with false by (symmetry; apply Z.eqb_neq; lia).
    cbn [bind].
    assert (Hd : 0 <= C / num_heads) by (apply Z.div_pos; lia).
    rewrite reshape_exact by (repeat constructor; lia).
    pose proof (floored_head_dim Hh Hnd) as Hne.
    replace (Shape.numel [B_; N; C * 2] =? Shape.numel [B_; N; 2; num_heads; C / num_heads])
      with false.
    + cbn [bind]. eexists; split; [reflexivity|]. intros l' _; reflexivity.
    + symmetry; apply Z.eqb_neq; unfold Shape.numel; cbn [fold_right].
      intros Heq.
      assert (Heq' : (B_ * N) * (2 * C) = (B_ * N) * (2 * (num_heads * (C / num_heads))))
        by lia.
      apply Z.mul_reg_l in Heq'; [lia | nia].
  - exists e; split; [reflexivity|]. intros l' Hl'; discriminate.
Qed.

Lemma indivisible_channels_global_call_fails_witness :
  exists e,
    WindowAttentionGlobal.first_call
      (WindowAttentionGlobal.init (PyInt 3) 4 true None 0 0
         (mkBase "attn" true "float32"))
      ([4; 9; 30], [2; 9; 30]) = Err e /\
    (forall l,
       WindowAttentionGlobal.build
         (WindowAttentionGlobal.init (PyInt 3) 4 true None 0 0
            (mkBase "attn" true "float32"))
         ([4; 9; 30], [2; 9; 30]) = Ok l ->
       e = ReshapeSizeError (4 * (9 * (30 * 2 * 1)))
                            (4 * (9 * (2 * (4 * (30 / 4 * 1)))))).
Proof.
  apply (@indivisible_channels_global_call_fails 3 4 true None 0 0
           (mkBase "attn" true "float32") 4 9 30 2 [9; 30]); try lia.
  intros [k Hk]; lia.
Defined.

(** X13.  A window size of 0 is not rejected by [build]: for every head
    count between 1 and the channel count, dropout rates in [[0, 1]] and
    the dtype float32 it returns a layer, whose index
    is empty and whose bias table has one row. *)
Theorem zero_window_passes_build
  (num_heads : Z) (qkv_bias : bool) (qk_scale : option Q) (ad pd : Q)
  (kwargs : Base) (B_ N C : Z) :
  1 <= num_heads <= C ->
  (0 <= ad <= 1)%Q -> (0 <= pd <= 1)%Q ->
  layer_dtype kwargs = "float32"%string ->
  exists l,
    WindowAttention.build
      (WindowAttention.init (PyInt 0) num_heads qkv_bias qk_scale ad pd kwargs)
      [B_; N; C] = Ok l /\
    WindowAttention.relative_position_index l = [] /\
    weight_shape (WindowAttention.relative_position_bias_table l) = [1; num_heads].
Proof.
  intros Hle Had Hpd Hdt.
  eexists; split;
    [apply window_attention_build_ok; auto using float32_is_floating; lia|].
  split; reflexivity.
Qed.

Lemma zero_window_passes_build_witness :
  exists l,
    WindowAttention.build
      (WindowAttention.init (PyInt 0) 4 true None 0 0 (mkBase "attn" true "float32"))
      [2; 9; 32] = Ok l /\
    WindowAttention.relative_position_index l = [] /\
    weight_shape (WindowAttention.relative_position_bias_table l) = [1; 4].
Proof.
  apply (@zero_window_passes_build 4 true None 0 0 (mkBase "attn" true "float32")
           2 9 32); try lia;
    try (split; unfold Qle; simpl; lia); try reflexivity.
Defined.

(** The reshape of a bias without rows: the zero sizes are left out when
    the missing size is inferred. *)
Lemma reshape_infer_empty (num_heads : Z) :
  1 <= num_heads ->
  Shape.reshape [0; num_heads] [0; 0; -1] = Ok [0; 0; num_heads].
Proof.
  intros Hh.
  unfold Shape.reshape.
  cbn [forallb filter existsb].
  change (-1 <=? 0) with true; change (-1 <=? -1) with true;
    change (0 =? -1) with false; change (-1 =? -1) with true;
    change (0 =? 0) with true; change (0 <? 0) with false;
    change (0 <? -1) with false.
  replace (0 <? num_heads) with true by (symmetry; apply Z.ltb_lt; lia).
  cbn [andb orb negb length map].
  unfold Shape.numel; cbn [fold_right].
  change (-1 =? -1) with true; cbv iota.
  rewrite Z.div_1_r.
  change (0 * (0 * (num_heads * 1 * 1)) =? 0 * (num_heads * 1)) with true.
  replace (num_heads * 1) with num_heads by ring.
  reflexivity.
Qed.

(** X20.  A layer with a window size of 0 can even be called: on an input
    without tokens, of shape [[B_, 0, C]], the first call of a validly
    configured [WindowAttention] raises nothing and returns a tensor of the
    shape of its input. *)
Theorem zero_window_accepts_no_tokens
  (num_heads : Z) (qkv_bias : bool) (qk_scale : option Q) (ad pd : Q)
  (kwargs : Base) (B_ C : Z) :
  0 <= B_ -> 1 <= C -> 1 <= num_heads -> (num_heads | C) ->
  (0 <= ad <= 1)%Q -> (0 <= pd <= 1)%Q ->
  layer_dtype kwargs = "float32"%string ->
  WindowAttention.first_call
    (WindowAttention.init (PyInt 0) num_heads qkv_bias qk_scale ad pd kwargs)
    [B_; 0; C] = Ok [B_; 0; C].
Proof.
  intros HB HC Hh Hdiv Had Hpd Hdt.
  assert (Hle : 1 <= num_heads <= C).
  { split; [exact Hh|]. apply Z.divide_pos_le; [lia | exact Hdiv]. }
  unfold WindowAttention.first_call.
  rewrite window_attention_build_ok
    by (auto using float32_is_floating; lia); cbn [bind].
  assert (HhC : num_heads * (C / num_heads) = C).
  { destruct Hdiv as [k ->]. rewrite Z.div_mul by lia; ring. }
  set (d := C / num_heads) in *.
  unfold WindowAttention.call, WindowAttention.bias_shape, WindowAttention.init.
  cbn [WindowAttention.qkv WindowAttention.self WindowAttention.num_heads
       WindowAttention.proj WindowAttention.window_size
       WindowAttention.relative_position_index
       WindowAttention.relative_position_bias_table weight_shape weight_dtype
       py_getitem py_int bind].
  rewrite Hdt.
  change (Shape.same_dtype Shape.default_dtype "float32") with (Ok tt).
  unfold Shape.dense at 1; cbn [rev app units bind].
  unfold Shape.floordiv.
  replace (num_heads =? 0) with false by (symmetry; apply Z.eqb_neq; lia).
  cbn [bind]. fold d.
  assert (Hd : 0 <= d) by (unfold d; apply Z.div_pos; lia).
  rewrite reshape_exact by (repeat constructor; lia).
  replace (Shape.numel [B_; 0; C * 3] =? Shape.numel [B_; 0; 3; num_heads; d])
    with true
    by (symmetry; apply Z.eqb_eq; unfold Shape.numel; cbn [fold_right]; ring).
  cbn [bind].
  unfold Shape.transpose at 1.
  cbn [length Shape.is_perm Nat.eqb seq forallb existsb andb orb map nth bind
       Shape.unstack Z.eqb Pos.eqb Shape.elementwise].
  unfold Shape.transpose at 1.
  cbn [length Shape.is_perm Nat.eqb seq forallb existsb andb orb map nth bind].
  rewrite matmul_same_batch; cbn [bind].
  change (index_matrix 0 0) with (@nil (list Z)).
  change (2 * 0 - 1) with (-1). change (-1 * -1) with 1. change (0 * 0) with 0.
  cbn [concat Shape.gather find length Z.of_nat bind].
  rewrite reshape_infer_empty by lia. cbn [bind].
  unfold Shape.transpose at 1.
  cbn [length Shape.is_perm Nat.eqb seq forallb existsb andb orb map nth bind].
  unfold Shape.add, Shape.newaxis; cbn [Shape.broadcast_dims].
  rewrite broadcast_dim_one_r, !broadcast_dim_refl.
  cbn [bind]. unfold Shape.elementwise.
  rewrite matmul_same_batch; cbn [bind].
  unfold Shape.transpose.
  cbn [length Shape.is_perm Nat.eqb seq forallb existsb andb orb map nth bind].
  rewrite reshape_exact by (repeat constructor; lia).
  replace (Shape.numel [B_; 0; num_heads; d] =? Shape.numel [B_; 0; C]) with true
    by (symmetry; apply Z.eqb_eq; unfold Shape.numel; cbn [fold_right]; ring).
  cbn [bind].
  unfold Shape.dense; cbn [rev app units bind].
  reflexivity.
Qed.

Lemma zero_window_accepts_no_tokens_witness :
  WindowAttention.first_call
    (WindowAttention.init (PyInt 0) 4 true None 0 0 (mkBase "attn" true "float32"))
    [2; 0; 32]
  = Ok [2; 0; 32].
Proof.
  apply (@zero_window_accepts_no_tokens 4 true None 0 0
           (mkBase "attn" true "float32") 2 32); try lia;
    try (split; unfold Qle; simpl; lia); try reflexivity.
  exists 8; reflexivity.
Defined.

(** ** The heads of the global query *)

Lemma swap_axes_nth {A : Type} (cols : nat) (m : list (list (list A)))
  (i j : nat) :
  (i < length m)%nat -> (j < cols)%nat ->
  nth i (nth j (Val.swap_axes cols m) []) [] = nth j (nth i m []) [].
Proof.
  intros Hi Hj; unfold Val.swap_axes.
  rewrite (nth_map_lt _ _ [] 0%nat) by (now rewrite length_seq).
  rewrite seq_nth by exact Hj; cbn [Nat.add].
  now rewrite (nth_map_lt _ _ [] []) by exact Hi.
Qed.

(** Head [hh] of token [n] of one image holds the channels
    [hh*d .. hh*d + d - 1] of that token, each through [f]. *)
Lemma head_view_nth {T : Type} (f : T -> T) (h d : Z)
  (image : list (list T)) (hh n k : Z) (dflt : T) :
  0 <= hh < h -> 0 <= n < Z.of_nat (length image) -> 0 <= k < d ->
  nth (Z.to_nat k) (nth (Z.to_nat n) (nth (Z.to_nat hh) (head_view f h d image) []) [])
      (f dflt)
  = f (nth (Z.to_nat (hh * d + k)) (nth (Z.to_nat n) image []) dflt).
Proof.
  intros Hhh Hn Hk; unfold head_view.
  set (m := map (Tf.take_rows (Z.to_nat h) (Z.to_nat d)) image).
  assert (Hm : length m = length image) by (unfold m; apply length_map).
  assert (Hlen : length (Val.swap_axes (Z.to_nat h) m) = Z.to_nat h)
    by (unfold Val.swap_axes; now rewrite length_map, length_seq).
  assert (Hrow : length (nth (Z.to_nat hh) (Val.swap_axes (Z.to_nat h) m) [])
                 = length image).
  { unfold Val.swap_axes.
    rewrite (nth_map_lt _ _ [] 0%nat) by (rewrite length_seq; lia).
    now rewrite length_map. }
  rewrite (nth_map_lt _ _ [] []) by lia.
  rewrite (nth_map_lt _ _ [] []) by lia.
  rewrite swap_axes_nth by lia.
  unfold m. rewrite (nth_map_lt _ _ [] []) by lia.
  rewrite map_nth. f_equal.
  rewrite take_rows_nth by lia.
  f_equal. nia.
Qed.

(** X14.  For every valid input pair of [WindowAttentionGlobal] with
    [B_ = B * num_windows] (window size not negative, dropout rates in
    [[0, 1]], dtype float32), the query that enters the product with the
    keys has, at window [w] of image [b], head [hh], token [n] and channel
    [k] of the head, the scaled channel [hh * head_dim + k] of token [n] of
    the global query of image [b], with [head_dim = C // num_heads]: the
    heads partition the channels in order. *)
Theorem global_query_entries {T : Type} (mul_scale : scale_value -> T -> T)
  (W num_heads : Z) (qkv_bias : bool) (qk_scale : option Q) (ad pd : Q)
  (kwargs : Base) (B_ N C num_windows : Z) (q_global : list (list (list T)))
  (dflt : T) :
  let B := Z.of_nat (length q_global) in
  0 <= W ->
  (0 <= ad <= 1)%Q -> (0 <= pd <= 1)%Q ->
  layer_dtype kwargs = "float32"%string ->
  1 <= B -> 0 <= num_windows -> B_ = B * num_windows ->
  0 <= N -> 1 <= C -> 1 <= num_heads -> (num_heads | C) ->
  Val.has_shape3 q_global B N C ->
  exists l q,
    WindowAttentionGlobal.build
      (WindowAttentionGlobal.init (PyInt W) num_heads qkv_bias qk_scale ad pd kwargs)
      ([B_; N; C], [B; N; C]) = Ok l /\
    WindowAttentionGlobal.call_query mul_scale l [B_; N; C] q_global = Ok q /\
    forall b w hh n k,
      0 <= b < B -> 0 <= w < num_windows -> 0 <= hh < num_heads ->
      0 <= n < N -> 0 <= k < C / num_heads ->
      nth (Z.to_nat k)
          (nth (Z.to_nat n)
               (nth (Z.to_nat hh) (nth (Z.to_nat (b * num_windows + w)) q []) []) [])
          (mul_scale (WindowAttentionGlobal.scale l) dflt)
      = mul_scale (WindowAttentionGlobal.scale l)
          (nth (Z.to_nat (hh * (C / num_heads) + k))
               (nth (Z.to_nat n) (nth (Z.to_nat b) q_global []) []) dflt).
Proof.
  intros B HW Had Hpd Hdt HB Hnw HB_ HN HC Hh Hdiv Hshape.
  assert (Hle : 1 <= num_heads <= C).
  { split; [exact Hh|]. apply Z.divide_pos_le; [lia | exact Hdiv]. }
  eexists; eexists.
  split; [apply window_attention_global_build_ok;
          auto using float32_is_floating|].
  match goal with
  | |- WindowAttentionGlobal.call_query _ ?b _ _ = _ /\ _ => set (l := b)
  end.
  assert (Hnh : WindowAttentionGlobal.num_heads (WindowAttentionGlobal.self l)
                = num_heads) by reflexivity.
  split.
  - apply call_query_repeats with (nw := num_windows); fold B;
      rewrite ?Hnh; try assumption; lia.
  - intros b w hh n k Hb Hw Hhh Hn Hk.
    rewrite (nth_map_lt _ _ [] []).
    + rewrite nth_repeat_axis0 by (fold B; lia).
      apply head_view_nth;
        cbn [WindowAttentionGlobal.num_heads WindowAttentionGlobal.self
             WindowAttentionGlobal.init]; try lia.
      destruct Hshape as [_ Hall]. rewrite Forall_forall in Hall.
      destruct (Hall (nth (Z.to_nat b) q_global [])) as [Hlen _];
        [apply nth_In; unfold B in Hb; lia | lia].
    + assert (Hlen := repeat_axis0_length q_global Hnw). fold B in Hlen. nia.
Qed.

Lemma global_query_entries_witness :
  let q_global := [[[1; 2; 3; 4]; [5; 6; 7; 8]]; [[11; 12; 13; 14]; [15; 16; 17; 18]]] in
  let mul_scale := fun (_ : scale_value) (x : Z) => 10 * x in
  exists l q,
    WindowAttentionGlobal.build
      (WindowAttentionGlobal.init (PyInt 1) 2 true None 0 0
         (mkBase "attn" true "float32"))
      ([4; 2; 4], [2; 2; 4]) = Ok l /\
    WindowAttentionGlobal.call_query mul_scale l [4; 2; 4] q_global = Ok q /\
    forall b w hh n k,
      0 <= b < 2 -> 0 <= w < 2 -> 0 <= hh < 2 -> 0 <= n < 2 -> 0 <= k < 4 / 2 ->
      nth (Z.to_nat k)
          (nth (Z.to_nat n)
               (nth (Z.to_nat hh) (nth (Z.to_nat (b * 2 + w)) q []) []) [])
          (mul_scale (WindowAttentionGlobal.scale l) 0)
      = mul_scale (WindowAttentionGlobal.scale l)
          (nth (Z.to_nat (hh * (4 / 2) + k))
               (nth (Z.to_nat n) (nth (Z.to_nat b) q_global []) []) 0).
Proof.
  intros q_global mul_scale.
  apply (@global_query_entries Z mul_scale 1 2 true None 0 0
           (mkBase "attn" true "float32") 4 2 4 2 q_global 0);
    try (split; unfold Qle; simpl; lia); try reflexivity; cbn; try lia.
  - exists 2; reflexivity.
  - split; [reflexivity|]. repeat constructor.
Defined.

(** ** The patch-embedding stem on shapes *)

(** X15.  A [PatchEmbed] rebuilt from [get_config] is the layer it came
    from, and [get_config] of the rebuilt layer is the same dictionary. *)
Theorem patch_embed_config_round_trip (a : PatchEmbed.attrs) (c : Base * Z) :
  PatchEmbed.from_config (PatchEmbed.get_config a) = a /\
  PatchEmbed.get_config (PatchEmbed.from_config c) = c.
Proof.
  destruct a, c; split; reflexivity.
Qed.

Lemma conv_axis_stem (size : Z) :
  0 <= size -> Shape.conv_axis (size + 2 * 1) 3 2 = Ok ((size + 1) / 2).
Proof.
  intros H; unfold Shape.conv_axis.
  replace (size + 2 * 1 - 3 + 2) with (size + 1) by ring.
  replace ((size + 1) / 2 <? 0) with false; [reflexivity|].
  symmetry; apply Z.ltb_ge, Z.div_pos; lia.
Qed.

(** X16.  On a non-empty batch of images of height and width at least 1
    with at least one channel, [PatchEmbed.call] passes to the downsampling
    block a tensor with the batch size of the input, half its height and
    half its width, both rounded up, and [dim] channels; it then returns
    what that block returns.  This holds with either set of convolution
    kernels. *)
Theorem patch_embed_halves_resolution (one_dnn : bool)
  (reduce_size : PatchEmbed.ReduceSize -> list Z -> result (list Z))
  (dim : Z) (kwargs : Base) (input_shape : list Z) (B H W C : Z) :
  1 <= dim -> 1 <= B -> 1 <= H -> 1 <= W -> 1 <= C ->
  PatchEmbed.call_shape one_dnn reduce_size
    (PatchEmbed.build (PatchEmbed.init dim kwargs) input_shape) [B; H; W; C]
  = reduce_size (PatchEmbed.mkReduceSize true "conv_down")
      [B; (H + 1) / 2; (W + 1) / 2; dim].
Proof.
  intros Hdim HB HH HW HC.
  unfold PatchEmbed.call_shape, PatchEmbed.build, PatchEmbed.init.
  cbn [PatchEmbed.pad PatchEmbed.proj PatchEmbed.conv_down PatchEmbed.padding
       PatchEmbed.filters PatchEmbed.kernel_size PatchEmbed.strides PatchEmbed.dim
       Shape.zero_padding2d bind].
  change (Z.of_nat 1) with 1.
  unfold Shape.conv2d.
  replace (dim <=? 0) with false by (symmetry; apply Z.leb_gt; lia).
  replace (C <=? 0) with false by (symmetry; apply Z.leb_gt; lia).
  cbn [orb Z.leb Z.compare].
  rewrite !conv_axis_stem by lia. cbn [bind].
  assert (Hh : 1 <= (H + 1) / 2) by (apply Z.div_le_lower_bound; lia).
  assert (Hw : 1 <= (W + 1) / 2) by (apply Z.div_le_lower_bound; lia).
  replace (Shape.numel [B; (H + 1) / 2; (W + 1) / 2; dim] =? 0) with false
    by (symmetry; apply Z.eqb_neq; unfold Shape.numel; cbn [fold_right]; nia).
  rewrite andb_false_r. cbn [bind].
  destruct (reduce_size _ _); reflexivity.
Qed.

Lemma patch_embed_halves_resolution_witness :
  PatchEmbed.call_shape true (fun _ s => Ok s)
    (PatchEmbed.build (PatchEmbed.init 64 (mkBase "stem" true "float32")) [8; 224; 224; 3])
    [8; 224; 224; 3]
  = Ok [8; (224 + 1) / 2; (224 + 1) / 2; 64].
Proof.
  apply (@patch_embed_halves_resolution true (fun _ s => Ok s) 64
           (mkBase "stem" true "float32") [8; 224; 224; 3] 8 224 224 3); lia.
Defined.


